(** * User storage of the Airavata Django portal SDK

    A shallow embedding of [airavata_django_portal_sdk/user_storage.py]
    together with the parts of its collaborators that decide its
    behaviour: Python's [posixpath], Django's [safe_join] and
    [FileSystemStorage], a POSIX file tree without symbolic links, the
    Python object store that holds the Thrift data-product records, and the
    [UserFiles] table.  Python exceptions are values of [exn]; a statement of
    the program is a function from the world to an outcome and the world in
    which the statement stopped, so that the effects performed before an
    exception is raised stay in place.

    What the embedding fixes:
    - Django is the [FileSystemStorage] of the releases 1.11 to 3.1, the
      ones contemporary with the module: [save] asks [get_available_name]
      for a free name, [_save] creates the file exclusively and tries the
      next name when it is taken, and returns the name with every backslash
      turned into a slash;
    - the file tree is keyed by normalised absolute paths; every node can be
      read and written by the process;
    - [get_random_string] takes its results from a supply held in the world,
      [rand], so that a run is a function of the world;
    - the database and the catalog client fail when the world says so
      ([db_fault], [catalog_fault]), and never otherwise;
    - [mimetypes.guess_type], the UTF-8 decoder and [urlparse] are
      parameters of the section that embeds the module's functions.

    The listing functions ([listdir], [list_user_dir], [size],
    [get_created_time], [_get_dir_size]) are not embedded; no property
    below concerns them. *)

From Stdlib Require Import String Ascii List Bool Arith Lia.
From stdpp Require Import base option strings gmap list.

Open Scope string_scope.
Open Scope list_scope.
#[local] Arguments String.append !s1 s2 : simpl nomatch.

(** ** Strings the way Python slices them *)

Module pystr.

Definition is_sep (c : ascii) : bool := Ascii.eqb c "/".

(** [s.startswith(pre)] *)
Fixpoint startswith (s pre : string) {struct pre} : bool :=
  match pre, s with
  | EmptyString, _ => true
  | String b pre', String a s' => Ascii.eqb a b && startswith s' pre'
  | String _ _, EmptyString => false
  end.

(** [s.endswith("/")] *)
Fixpoint endswith_sep (s : string) : bool :=
  match s with
  | EmptyString => false
  | String c EmptyString => is_sep c
  | String _ r => endswith_sep r
  end.

(** ["/" in s] *)
Fixpoint has_sep (s : string) : bool :=
  match s with
  | EmptyString => false
  | String c r => is_sep c || has_sep r
  end.

(** [s == "/" * len(s)] *)
Fixpoint all_sep (s : string) : bool :=
  match s with
  | EmptyString => true
  | String c r => is_sep c && all_sep r
  end.

(** [s.rstrip("/")] *)
Fixpoint rstrip_sep (s : string) : string :=
  match s with
  | EmptyString => EmptyString
  | String c r =>
      match rstrip_sep r with
      | EmptyString => if is_sep c then EmptyString else String c EmptyString
      | r' => String c r'
      end
  end.

(** [i = s.rfind("/") + 1; (s[:i], s[i:])] *)
Fixpoint rpartition_sep (s : string) : string * string :=
  match s with
  | EmptyString => (EmptyString, EmptyString)
  | String c r =>
      let '(h, t) := rpartition_sep r in
      match h with
      | EmptyString =>
          if is_sep c then (String c EmptyString, t) else (EmptyString, String c t)
      | _ => (String c h, t)
      end
  end.

(** [s.split("/")] *)
Fixpoint split_sep (s : string) : list string :=
  match s with
  | EmptyString => [EmptyString]
  | String c r =>
      if is_sep c then EmptyString :: split_sep r
      else match split_sep r with
           | x :: xs => String c x :: xs
           | [] => [String c EmptyString]
           end
  end.

(** ["/".join(l)] *)
Fixpoint join_sep (l : list string) : string :=
  match l with
  | [] => ""
  | [x] => x
  | x :: xs => x +:+ "/" +:+ join_sep xs
  end.

(** [c * n] for a one-character string *)
Fixpoint replicate_char (n : nat) (c : ascii) : string :=
  match n with
  | O => EmptyString
  | S k => String c (replicate_char k c)
  end.

(** [s.replace(a, b)] for single characters *)
Fixpoint replace_char (a b : ascii) (s : string) : string :=
  match s with
  | EmptyString => EmptyString
  | String c r => String (if Ascii.eqb c a then b else c) (replace_char a b r)
  end.

(** keep the characters that satisfy [keep] *)
Fixpoint filter_chars (keep : ascii -> bool) (s : string) : string :=
  match s with
  | EmptyString => EmptyString
  | String c r => if keep c then String c (filter_chars keep r) else filter_chars keep r
  end.

End pystr.

(** ** [posixpath] *)

Module posixpath.
Import pystr.

Definition isabs (p : string) : bool := startswith p "/".

(** [os.path.join(a, b)] *)
Definition join (a b : string) : string :=
  if startswith b "/" then b
  else if String.eqb a "" || endswith_sep a then a +:+ b
  else a +:+ "/" +:+ b.

(** [os.path.split(p)] *)
Definition split (p : string) : string * string :=
  let '(head, tail) := rpartition_sep p in
  if negb (String.eqb head "") && negb (all_sep head)
  then (rstrip_sep head, tail) else (head, tail).

Definition basename (p : string) : string := snd (rpartition_sep p).

Definition dirname (p : string) : string := fst (split p).

(** [genericpath._splitext] on a name: the extension starts at the last dot,
    unless only dots come before it. *)
Fixpoint rpartition_dot (s : string) : option (string * string) :=
  match s with
  | EmptyString => None
  | String c r =>
      match rpartition_dot r with
      | Some (h, t) => Some (String c h, t)
      | None => if Ascii.eqb c "." then Some (EmptyString, String c r) else None
      end
  end.

Fixpoint all_dots (s : string) : bool :=
  match s with
  | EmptyString => true
  | String c r => Ascii.eqb c "." && all_dots r
  end.

Definition splitext (p : string) : string * string :=
  let '(head, tail) := rpartition_sep p in
  match rpartition_dot tail with
  | Some (root, ext) =>
      if all_dots root then (p, "") else (head +:+ root, ext)
  | None => (p, "")
  end.

(** The loop body of [normpath]; [stack] is [new_comps] with its last
    element first. *)
Definition norm_step (initial_slashes : nat) (stack : list string) (comp : string)
  : list string :=
  if String.eqb comp "" || String.eqb comp "." then stack
  else if negb (String.eqb comp "..")
          || (Nat.eqb initial_slashes 0 && match stack with [] => true | _ => false end)
          || match stack with top :: _ => String.eqb top ".." | [] => false end
       then comp :: stack
       else match stack with _ :: rest => rest | [] => [] end.

Definition initial_slashes (path : string) : nat :=
  if startswith path "/" then
    if startswith path "//" && negb (startswith path "///") then 2 else 1
  else 0.

Definition normpath (path : string) : string :=
  if String.eqb path "" then "."
  else
    let n := initial_slashes path in
    let comps := rev (fold_left (norm_step n) (split_sep path) []) in
    let p := replicate_char n "/" +:+ join_sep comps in
    if String.eqb p "" then "." else p.

(** [os.path.abspath], with the working directory passed in. *)
Definition abspath (cwd path : string) : string :=
  if isabs path then normpath path else normpath (join cwd path).

Fixpoint drop_common (a b : list string) : list string * list string :=
  match a, b with
  | x :: a', y :: b' => if String.eqb x y then drop_common a' b' else (a, b)
  | _, _ => (a, b)
  end.

Definition nonempty_comps (p : string) : list string :=
  List.filter (fun x => negb (String.eqb x "")) (split_sep p).

(** [os.path.relpath(path, start)] for a non-empty [path]. *)
Definition relpath (cwd path start : string) : string :=
  let start_list := nonempty_comps (abspath cwd start) in
  let path_list := nonempty_comps (abspath cwd path) in
  let '(srest, prest) := drop_common start_list path_list in
  let rel_list := List.map (fun _ => "..") srest ++ prest in
  match rel_list with
  | [] => "."
  | _ => join_sep rel_list
  end.

End posixpath.

(** ** Exceptions, the world and the monad of statements *)

Definition bytes := list Byte.byte.

Inductive exn : Type :=
| SuspiciousFileOperation (msg : string)
| ObjectDoesNotExist (msg : string)
| PyException (msg : string)
| AssertionError (msg : string)
| TypeError (msg : string)
| FileExistsError (path : string)
| FileNotFoundError (path : string)
| NotADirectoryError (path : string)
| IsADirectoryError (path : string)
| DirectoryNotEmpty (path : string)
| OSError (msg : string)
| UnicodeDecodeError
| ExternalError (msg : string)
| RandomSourceExhausted.

(** The subclasses of [OSError] *)
Definition is_OSError (e : exn) : bool :=
  match e with
  | FileExistsError _ | FileNotFoundError _ | NotADirectoryError _
  | IsADirectoryError _ | DirectoryNotEmpty _ | OSError _ => true
  | _ => false
  end.

(** A file tree: normalised absolute path to node.  There are no symbolic
    links and no permission bits. *)
Inductive node : Type :=
| File (content : bytes)
| Dir.

(** Thrift enumerations of [airavata.model.data.replica.ttypes]. *)
Inductive ReplicaLocationCategory :=
| GATEWAY_DATA_STORE | COMPUTE_RESOURCE | LONG_TERM_STORAGE_RESOURCE | OTHER.
Inductive ReplicaPersistentType := TRANSIENT | PERSISTENT.
Inductive DataProductType := FILE | COLLECTION.

(** A reference to a Python object. *)
Definition loc := nat.

(** [DataReplicaLocationModel], the attributes this module sets or reads. *)
Record DataReplicaLocationModel := {
  storageResourceId : option string;
  replicaName : option string;
  replicaLocationCategory : option ReplicaLocationCategory;
  replicaPersistentType : option ReplicaPersistentType;
  filePath : option string;
}.

(** [DataProductModel]: the metadata dictionary and the replica list are
    objects of their own, held by reference. *)
Record DataProductModel := {
  productUri : option string;
  gatewayId : option string;
  ownerName : string;
  productName : string;
  dataProductType : option DataProductType;
  productMetadata : option loc;
  replicaLocations : option loc;
}.

Inductive cell : Type :=
| CProduct (p : DataProductModel)
| CReplica (r : DataReplicaLocationModel)
| CDict (d : gmap string string)
| CList (l : list loc).

(** What the catalog receives when a record is submitted: the record with
    its references followed. *)
Record submission := {
  sub_product : DataProductModel;
  sub_metadata : option (gmap string string);
  sub_replicas : list DataReplicaLocationModel;
}.

(** Modelled from the spec: the [UserFiles] model of
    [airavata_django_portal_sdk.models] is the PathIndex, a persistent
    association from (user, full path) to the external record identifier;
    a row per association. *)
Record UserFiles := {
  username : string;
  file_path : string;
  file_dpu : string;
}.

Inductive level := WARNING | ERROR | DEBUG.

Record world := {
  fs : gmap string node;
  heap : list cell;
  user_files : list UserFiles;
  (** [Some e]: the database raises [e] on the next query *)
  db_fault : option exn;
  (** records received by [registerDataProduct], oldest first *)
  catalog : list submission;
  (** the identifier the catalog gives to its n-th submission *)
  catalog_uri : nat -> string;
  (** [Some e]: the catalog client raises [e] *)
  catalog_fault : option exn;
  log : list (level * string);
  (** the strings [get_random_string] is going to return *)
  rand : list string;
}.

Definition set_fs (f : gmap string node -> gmap string node) (w : world) : world :=
  {| fs := f (fs w); heap := heap w; user_files := user_files w; db_fault := db_fault w;
     catalog := catalog w; catalog_uri := catalog_uri w; catalog_fault := catalog_fault w;
     log := log w; rand := rand w |}.

Definition set_heap (f : list cell -> list cell) (w : world) : world :=
  {| fs := fs w; heap := f (heap w); user_files := user_files w; db_fault := db_fault w;
     catalog := catalog w; catalog_uri := catalog_uri w; catalog_fault := catalog_fault w;
     log := log w; rand := rand w |}.

Definition set_user_files (f : list UserFiles -> list UserFiles) (w : world) : world :=
  {| fs := fs w; heap := heap w; user_files := f (user_files w); db_fault := db_fault w;
     catalog := catalog w; catalog_uri := catalog_uri w; catalog_fault := catalog_fault w;
     log := log w; rand := rand w |}.

Definition set_catalog (f : list submission -> list submission) (w : world) : world :=
  {| fs := fs w; heap := heap w; user_files := user_files w; db_fault := db_fault w;
     catalog := f (catalog w); catalog_uri := catalog_uri w; catalog_fault := catalog_fault w;
     log := log w; rand := rand w |}.

Definition set_log (f : list (level * string) -> list (level * string)) (w : world) : world :=
  {| fs := fs w; heap := heap w; user_files := user_files w; db_fault := db_fault w;
     catalog := catalog w; catalog_uri := catalog_uri w; catalog_fault := catalog_fault w;
     log := f (log w); rand := rand w |}.

Definition set_rand (f : list string -> list string) (w : world) : world :=
  {| fs := fs w; heap := heap w; user_files := user_files w; db_fault := db_fault w;
     catalog := catalog w; catalog_uri := catalog_uri w; catalog_fault := catalog_fault w;
     log := log w; rand := f (rand w) |}.

Inductive outcome (A : Type) : Type :=
| Return (a : A)
| Raise (e : exn).
Arguments Return {A} a.
Arguments Raise {A} e.

Definition M (A : Type) : Type := world -> outcome A * world.

Definition ret {A} (a : A) : M A := fun w => (Return a, w).
Definition raise {A} (e : exn) : M A := fun w => (Raise e, w).
Definition bind {A B} (m : M A) (k : A -> M B) : M B :=
  fun w => match m w with
           | (Return a, w') => k a w'
           | (Raise e, w') => (Raise e, w')
           end.
(** [try: m except <handled>: h]; the handler sees the world as the
    exception left it. *)
Definition try_except {A} (m : M A) (handler : exn -> option (M A)) : M A :=
  fun w => match m w with
           | (Return a, w') => (Return a, w')
           | (Raise e, w') =>
               match handler e with
               | Some h => h w'
               | None => (Raise e, w')
               end
           end.
Definition get {A} (f : world -> A) : M A := fun w => (Return (f w), w).
Definition modify (f : world -> world) : M unit := fun w => (Return tt, f w).

Declare Scope py_scope.
Delimit Scope py_scope with py.
Notation "x <- m ;; k" := (bind m (fun x => k))
  (at level 100, m at next level, right associativity) : py_scope.
Notation "m ;;; k" := (bind m (fun _ => k))
  (at level 100, right associativity) : py_scope.
Open Scope py_scope.

Definition logger (l : level) (msg : string) : M unit :=
  modify (set_log (fun lg => lg ++ [(l, msg)])).

(** ** The [os] calls the program makes

    Paths reach these calls normalised and absolute ([abspath] has been
    applied), so that a path names a node by lookup. *)

Module os.
Import pystr posixpath.

Definition path_exists (f : gmap string node) (p : string) : bool :=
  match f !! p with Some _ => true | None => false end.
Definition isfile (f : gmap string node) (p : string) : bool :=
  match f !! p with Some (File _) => true | _ => false end.
Definition isdir (f : gmap string node) (p : string) : bool :=
  match f !! p with Some Dir => true | _ => false end.

(** [k] is [p] or lies below it. *)
Definition in_subtree (p k : string) : bool :=
  String.eqb k p || startswith k (if endswith_sep p then p else p +:+ "/").

Definition mkdir (p : string) : M unit := fun w =>
  match fs w !! p with
  | Some _ => (Raise (FileExistsError p), w)
  | None =>
      match fs w !! dirname p with
      | Some Dir => (Return tt, set_fs (insert p Dir) w)
      | Some (File _) => (Raise (NotADirectoryError p), w)
      | None => (Raise (FileNotFoundError p), w)
      end
  end.

(** [mkdir] as [makedirs] calls it: with [exist_ok], an error is dropped
    when the directory is there. *)
Definition mkdir_leaf (exist_ok : bool) (name : string) : M unit :=
  try_except (mkdir name)
    (fun e => if is_OSError e then
                Some (d <- get (fun w => isdir (fs w) name) ;;
                      if exist_ok && d then ret tt else raise e)
              else None).

(** [os.makedirs(name, exist_ok=exist_ok)]; the recursion is on the head of
    the path, which is shorter than the path: [n] bounds its depth. *)
Fixpoint makedirs_rec (n : nat) (exist_ok : bool) (name : string) : M unit :=
  let '(head0, tail0) := split name in
  let '(head, tail) := if String.eqb tail0 "" then split head0 else (head0, tail0) in
  present <- get (fun w => path_exists (fs w) head) ;;
  if negb (String.eqb head "") && negb (String.eqb tail "") && negb present then
    match n with
    | O => mkdir_leaf exist_ok name
    | S k =>
        try_except (makedirs_rec k exist_ok head)
          (fun e => match e with FileExistsError _ => Some (ret tt) | _ => None end) ;;;
        if String.eqb tail "." then ret tt else mkdir_leaf exist_ok name
    end
  else mkdir_leaf exist_ok name.

Definition makedirs (exist_ok : bool) (name : string) : M unit :=
  makedirs_rec (String.length name) exist_ok name.

Definition remove (p : string) : M unit := fun w =>
  match fs w !! p with
  | Some (File _) => (Return tt, set_fs (delete p) w)
  | Some Dir => (Raise (IsADirectoryError p), w)
  | None => (Raise (FileNotFoundError p), w)
  end.

Definition rmdir (p : string) : M unit := fun w =>
  match fs w !! p with
  | Some Dir =>
      if Nat.eqb (size (filter (fun kv => in_subtree p kv.1 = true) (fs w))) 1
      then (Return tt, set_fs (delete p) w)
      else (Raise (DirectoryNotEmpty p), w)
  | Some (File _) => (Raise (NotADirectoryError p), w)
  | None => (Raise (FileNotFoundError p), w)
  end.

(** [shutil.rmtree(p)] *)
Definition rmtree (p : string) : M unit := fun w =>
  match fs w !! p with
  | Some Dir =>
      (Return tt, set_fs (filter (fun kv => in_subtree p kv.1 = false)) w)
  | Some (File _) => (Raise (NotADirectoryError p), w)
  | None => (Raise (FileNotFoundError p), w)
  end.

(** [os.open(p, O_WRONLY | O_CREAT | O_EXCL)] followed by the writes. *)
Definition create_excl (p : string) (content : bytes) : M unit := fun w =>
  match fs w !! p with
  | Some _ => (Raise (FileExistsError p), w)
  | None =>
      match fs w !! dirname p with
      | Some Dir => (Return tt, set_fs (insert p (File content)) w)
      | Some (File _) => (Raise (NotADirectoryError p), w)
      | None => (Raise (FileNotFoundError p), w)
      end
  end.

(** [os.access(p, os.F_OK)] *)
Definition access (p : string) : M bool := get (fun w => path_exists (fs w) p).

(** The key of an entry of the tree at [old] once the tree is at [new]. *)
Definition rekey (old new k : string) : string :=
  new +:+ String.substring (String.length old) (String.length k - String.length old) k.

(** [os.rename(old, new)] *)
Definition rename (old new : string) : M unit := fun w =>
  match fs w !! old with
  | None => (Raise (FileNotFoundError old), w)
  | Some src =>
      if String.eqb old new then (Return tt, w) else
      match fs w !! dirname new with
      | None => (Raise (FileNotFoundError new), w)
      | Some (File _) => (Raise (NotADirectoryError new), w)
      | Some Dir =>
          match src, fs w !! new with
          | File _, Some Dir => (Raise (IsADirectoryError new), w)
          | File c, _ => (Return tt, set_fs (fun f => <[new := File c]> (delete old f)) w)
          | Dir, Some (File _) => (Raise (NotADirectoryError new), w)
          | Dir, dst =>
              if in_subtree old new then (Raise (OSError "Invalid argument"), w)
              else if match dst with
                      | Some _ =>
                          negb (Nat.eqb (size (filter (fun kv => in_subtree new kv.1 = true)
                                                 (fs w))) 1)
                      | None => false
                      end
              then (Raise (DirectoryNotEmpty new), w)
              else (Return tt,
                    set_fs (fun f =>
                              kmap (rekey old new)
                                (filter (fun kv => in_subtree old kv.1 = true) f)
                              ∪ filter (fun kv => in_subtree old kv.1 = false) f) w)
          end
      end
  end.

(** [open(p, "rb").read()] *)
Definition read_bytes (p : string) : M bytes := fun w =>
  match fs w !! p with
  | Some (File c) => (Return c, w)
  | Some Dir => (Raise (IsADirectoryError p), w)
  | None => (Raise (FileNotFoundError p), w)
  end.

End os.

(** ** Django: [safe_join], [get_valid_filename], [FileSystemStorage]

    As in Django 1.11 to 3.1, the releases current when the module was
    written.  Characters are ASCII. *)

(** A Python file object: its [name] and the bytes it yields. *)
Record fileobj := {
  fo_name : string;
  fo_content : bytes;
}.

Module django.
Import pystr posixpath.

Definition lift {A} (o : outcome A) : M A := fun w => (o, w).

(** [django.utils._os.safe_join(base, path)] *)
Definition safe_join (cwd base path : string) : outcome string :=
  let final_path := abspath cwd (join base path) in
  let base_path := abspath cwd base in
  if negb (startswith final_path (base_path +:+ "/"))
     && negb (String.eqb final_path base_path)
     && negb (String.eqb (dirname base_path) base_path)
  then Raise (SuspiciousFileOperation
                ("The joined path (" +:+ final_path
                 +:+ ") is located outside of the base path component ("
                 +:+ base_path +:+ ")"))
  else Return final_path.

Definition is_space (c : ascii) : bool :=
  let n := nat_of_ascii c in
  Nat.eqb n 32 || (Nat.leb 9 n && Nat.leb n 13) || (Nat.leb 28 n && Nat.leb n 31).

(** [\w] *)
Definition is_word (c : ascii) : bool :=
  let n := nat_of_ascii c in
  (Nat.leb 48 n && Nat.leb n 57) || (Nat.leb 65 n && Nat.leb n 90)
  || (Nat.leb 97 n && Nat.leb n 122) || Nat.eqb n 95.

Fixpoint lstrip (s : string) : string :=
  match s with
  | EmptyString => EmptyString
  | String c r => if is_space c then lstrip r else s
  end.

Fixpoint rstrip (s : string) : string :=
  match s with
  | EmptyString => EmptyString
  | String c r =>
      match rstrip r with
      | EmptyString => if is_space c then EmptyString else String c EmptyString
      | r' => String c r'
      end
  end.

Definition strip (s : string) : string := rstrip (lstrip s).

(** [django.utils.text.get_valid_filename]: strip, spaces to underscores,
    then [re.sub(r'(?u)[^-\w.]', '', s)]. *)
Definition get_valid_filename (s : string) : string :=
  filter_chars (fun c => Ascii.eqb c "-" || is_word c || Ascii.eqb c ".")
    (replace_char " " "_" (strip s)).

(** [str(x)] of a string or [None] *)
Definition py_str (x : option string) : string :=
  match x with Some s => s | None => "None" end.

Record FileSystemStorage := {
  cwd : string;
  base_location : string;
}.

Definition location (self : FileSystemStorage) : string :=
  abspath (cwd self) (base_location self).

Definition path (self : FileSystemStorage) (name : string) : outcome string :=
  safe_join (cwd self) (location self) name.

Definition exists_ (self : FileSystemStorage) (name : string) : M bool :=
  p <- lift (path self name) ;;
  get (fun w => os.path_exists (fs w) p).

Definition get_valid_name (self : FileSystemStorage) (name : string) : string :=
  get_valid_filename name.

Definition get_random_string : M string := fun w =>
  match rand w with
  | r :: rest => (Return r, set_rand (fun _ => rest) w)
  | [] => (Raise RandomSourceExhausted, w)
  end.

(** The [while self.exists(name)] loop of [get_available_name]; every turn
    draws a random string, so the number of strings left bounds the turns. *)
Fixpoint get_available_name_loop (n : nat) (self : FileSystemStorage)
    (dir_name file_root file_ext name : string) : M string :=
  taken <- exists_ self name ;;
  if taken then
    match n with
    | O => raise RandomSourceExhausted
    | S k =>
        r <- get_random_string ;;
        get_available_name_loop k self dir_name file_root file_ext
          (join dir_name (file_root +:+ "_" +:+ r +:+ file_ext))
    end
  else ret name.

Definition get_available_name (self : FileSystemStorage) (name : string) : M string :=
  let '(dir_name, file_name) := split name in
  let '(file_root, file_ext) := splitext file_name in
  n <- get (fun w => length (rand w)) ;;
  get_available_name_loop n self dir_name file_root file_ext name.

(** The [while True] loop of [_save]: create the file, and on
    [FileExistsError] ask for another name. *)
Fixpoint _save_loop (n : nat) (self : FileSystemStorage) (name full_path : string)
    (content : fileobj) : M string :=
  try_except (os.create_excl full_path (fo_content content) ;;; ret name)
    (fun e => match e with
              | FileExistsError _ =>
                  Some (match n with
                        | O => raise RandomSourceExhausted
                        | S k =>
                            name' <- get_available_name self name ;;
                            full_path' <- lift (path self name') ;;
                            _save_loop k self name' full_path' content
                        end)
              | _ => None
              end).

Definition _save (self : FileSystemStorage) (name : string) (content : fileobj)
  : M string :=
  full_path <- lift (path self name) ;;
  let directory := dirname full_path in
  try_except (os.makedirs true directory)
    (fun e => match e with
              | FileExistsError _ =>
                  Some (raise (FileExistsError
                                 (directory +:+ " exists and is not a directory.")))
              | _ => None
              end) ;;;
  n <- get (fun w => length (rand w)) ;;
  name' <- _save_loop (S n) self name full_path content ;;
  ret (replace_char "\" "/" name').

Definition save (self : FileSystemStorage) (name : string) (content : fileobj)
  : M string :=
  name' <- get_available_name self name ;;
  _save self name' content.

(** [django.core.files.move.file_move_safe(old, new)]; without links two
    names are the same file when they are one existing path. *)
Definition file_move_safe (old_file_name new_file_name : string) : M unit :=
  same <- get (fun w => os.path_exists (fs w) old_file_name
                        && String.eqb old_file_name new_file_name) ;;
  if same then ret tt else
  moved <- try_except
             (taken <- os.access new_file_name ;;
              (if taken then
                 raise (FileExistsError ("Destination file " +:+ new_file_name
                                         +:+ " exists and allow_overwrite is False."))
               else os.rename old_file_name new_file_name) ;;;
              ret true)
             (fun e => if is_OSError e then Some (ret false) else None) ;;
  if moved then ret tt else
  c <- os.read_bytes old_file_name ;;
  os.create_excl new_file_name c ;;;
  os.remove old_file_name.

Definition delete (self : FileSystemStorage) (name : string) : M unit :=
  if String.eqb name "" then
    raise (AssertionError "The name argument is not allowed to be empty.")
  else
    p <- lift (path self name) ;;
    try_except
      (d <- get (fun w => os.isdir (fs w) p) ;;
       if d then os.rmdir p else os.remove p)
      (fun e => match e with FileNotFoundError _ => Some (ret tt) | _ => None end).

Definition open (self : FileSystemStorage) (name : string) : M fileobj :=
  p <- lift (path self name) ;;
  c <- os.read_bytes p ;;
  ret {| fo_name := p; fo_content := c |}.

End django.

(** ** [django.conf.settings] and the process *)

Record settings := {
  GATEWAY_DATA_STORE_DIR : string;
  GATEWAY_ID : string;
  GATEWAY_DATA_STORE_RESOURCE_ID : string;
  GATEWAY_DATA_STORE_HOSTNAME : string;
  (** what [os.getcwd()] returns *)
  getcwd : string;
}.

Definition TMP_INPUT_FILE_UPLOAD_DIR : string := "tmp".

(** ** [class _Datastore] *)

Module Datastore.
Import pystr posixpath.

Record t := {
  conf : settings;
  directory : string;
}.

(** [_Datastore(directory)]: a false [directory] (None or empty) selects the
    configured one. *)
Definition init (cfg : settings) (dir : option string) : t :=
  match dir with
  | Some d => if String.eqb d "" then {| conf := cfg; directory := GATEWAY_DATA_STORE_DIR cfg |}
              else {| conf := cfg; directory := d |}
  | None => {| conf := cfg; directory := GATEWAY_DATA_STORE_DIR cfg |}
  end.

Definition _user_data_storage (self : t) (username : string) : django.FileSystemStorage :=
  {| django.cwd := getcwd (conf self);
     django.base_location := join (directory self) username |}.

Definition path (self : t) (username file_path : string) : outcome string :=
  let user_data_storage := _user_data_storage self username in
  django.path user_data_storage file_path.

Definition rel_path (self : t) (username file_path : string) : outcome string :=
  match path self username file_path with
  | Raise e => Raise e
  | Return full_path =>
      match path self username "" with
      | Raise e => Raise e
      | Return root => Return (relpath (getcwd (conf self)) full_path root)
      end
  end.

Definition invalid_path_message (username msg : string) : string :=
  "Invalid path for user " +:+ username +:+ ": " +:+ msg.

Definition exists_ (self : t) (username path_ : string) : M bool :=
  try_except
    (present <- django.exists_ (_user_data_storage self username) path_ ;;
     if present then
       p <- django.lift (path self username path_) ;;
       get (fun w => os.isfile (fs w) p)
     else ret false)
    (fun e => match e with
              | SuspiciousFileOperation msg =>
                  Some (logger WARNING (invalid_path_message username msg) ;;; ret false)
              | _ => None
              end).

Definition dir_exists (self : t) (username path_ : string) : M bool :=
  try_except
    (present <- django.exists_ (_user_data_storage self username) path_ ;;
     if present then
       p <- django.lift (path self username path_) ;;
       get (fun w => os.isdir (fs w) p)
     else ret false)
    (fun e => match e with
              | SuspiciousFileOperation msg =>
                  Some (logger WARNING (invalid_path_message username msg) ;;; ret false)
              | _ => None
              end).

Definition open (self : t) (username path_ : string) : M fileobj :=
  present <- exists_ self username path_ ;;
  if present then django.open (_user_data_storage self username) path_
  else raise (ObjectDoesNotExist ("File path does not exist: " +:+ path_)).

Definition save (self : t) (username path_ : string) (file : fileobj)
    (name : option string) : M string :=
  let file_name := match name with Some n => n | None => basename (fo_name file) end in
  let user_data_storage := _user_data_storage self username in
  let file_path := join path_ (django.get_valid_name user_data_storage file_name) in
  input_file_name <- django.save user_data_storage file_path file ;;
  django.lift (django.path user_data_storage input_file_name).

(** [os.makedirs(full_path, mode)] and [os.chmod(full_path, mode)]; the file
    tree has no permission bits. *)
Definition _makedirs (self : t) (username dir_path : string) : M unit :=
  let user_experiment_data_storage := _user_data_storage self username in
  full_path <- django.lift (django.path user_experiment_data_storage dir_path) ;;
  os.makedirs false full_path.

Definition create_user_dir (self : t) (username path_ : string) : M unit :=
  let user_data_storage := _user_data_storage self username in
  present <- django.exists_ user_data_storage path_ ;;
  if negb present then _makedirs self username path_
  else raise (PyException ("Directory " +:+ path_ +:+ " already exists")).

Definition move (self : t)
    (source_username source_path target_username target_dir file_name : string) : M string :=
  source_full_path <- django.lift (path self source_username source_path) ;;
  let user_data_storage := _user_data_storage self target_username in
  let target_path :=
    join target_dir (django.get_valid_name user_data_storage file_name) in
  target_path <- django.get_available_name user_data_storage target_path ;;
  target_full_path <- django.lift (path self target_username target_path) ;;
  django.file_move_safe source_full_path target_full_path ;;;
  ret target_full_path.

(** [external_path] is handed to the file system as it is. *)
Definition move_external (self : t)
    (external_path target_username target_dir file_name : string) : M string :=
  let user_data_storage := _user_data_storage self target_username in
  let target_path :=
    join target_dir (django.get_valid_name user_data_storage file_name) in
  target_path <- django.get_available_name user_data_storage target_path ;;
  present <- dir_exists self target_username target_dir ;;
  (if negb present then create_user_dir self target_username target_dir else ret tt) ;;;
  target_full_path <- django.lift (path self target_username target_path) ;;
  django.file_move_safe external_path target_full_path ;;;
  ret target_full_path.

Definition copy (self : t) (source_username source_path target_username target_path : string)
    (name : option string) : M string :=
  f <- open self source_username source_path ;;
  save self target_username target_path f name.

Definition delete (self : t) (username path_ : string) : M unit :=
  present <- exists_ self username path_ ;;
  if present then
    let user_data_storage := _user_data_storage self username in
    django.delete user_data_storage path_
  else raise (ObjectDoesNotExist ("File path does not exist: " +:+ path_)).

Definition delete_dir (self : t) (username path_ : string) : M unit :=
  present <- dir_exists self username path_ ;;
  if present then
    user_path <- django.lift (path self username path_) ;;
    os.rmtree user_path
  else raise (ObjectDoesNotExist ("File path does not exist: " +:+ path_)).

Definition get_experiment_dir (self : t) (username : string)
    (project_name experiment_name path_ : option string) : M string :=
  let user_experiment_data_storage := _user_data_storage self username in
  experiment_dir <-
    match path_ with
    | None =>
        let proj_dir_name :=
          django.get_valid_name user_experiment_data_storage (django.py_str project_name) in
        present <- django.exists_ user_experiment_data_storage proj_dir_name ;;
        (if negb present then _makedirs self username proj_dir_name else ret tt) ;;;
        let experiment_dir_name :=
          join proj_dir_name
            (django.get_valid_name user_experiment_data_storage
               (django.py_str experiment_name)) in
        experiment_dir_name <-
          django.get_available_name user_experiment_data_storage experiment_dir_name ;;
        django.lift (django.path user_experiment_data_storage experiment_dir_name)
    | Some p =>
        django.lift (django.path user_experiment_data_storage p)
    end ;;
  present <- django.exists_ user_experiment_data_storage experiment_dir ;;
  (if negb present then _makedirs self username experiment_dir else ret tt) ;;;
  ret experiment_dir.

End Datastore.

(** ** The Python object store *)

Module pyheap.

Definition alloc (c : cell) : M loc := fun w =>
  (Return (length (heap w)), set_heap (fun h => h ++ [c]) w).

Definition dangling {A} : M A := raise (TypeError "object of another type").

Definition get_product (l : loc) : M DataProductModel := fun w =>
  match heap w !! l with
  | Some (CProduct p) => (Return p, w)
  | _ => dangling w
  end.

Definition get_replica (l : loc) : M DataReplicaLocationModel := fun w =>
  match heap w !! l with
  | Some (CReplica r) => (Return r, w)
  | _ => dangling w
  end.

Definition get_list (l : loc) : M (list loc) := fun w =>
  match heap w !! l with
  | Some (CList x) => (Return x, w)
  | _ => dangling w
  end.

Definition get_dict (l : loc) : M (gmap string string) := fun w =>
  match heap w !! l with
  | Some (CDict d) => (Return d, w)
  | _ => dangling w
  end.

(** [obj.attr = v]: the object at [l] is rewritten in place. *)
Definition update_product (l : loc) (f : DataProductModel -> DataProductModel) : M unit :=
  p <- get_product l ;;
  modify (set_heap (fun h => <[l := CProduct (f p)]> h)).

(** [d[k] = v] on the dictionary at [l] *)
Definition dict_setitem (l : loc) (k v : string) : M unit :=
  d <- get_dict l ;;
  modify (set_heap (fun h => <[l := CDict (<[k := v]> d)]> h)).

(** [lst.append(x)] on the list at [l] *)
Definition list_append (l : loc) (x : loc) : M unit :=
  xs <- get_list l ;;
  modify (set_heap (fun h => <[l := CList (xs ++ [x])]> h)).

(** [copy.copy(obj)] of a record: a new object with the same attribute
    values, references included. *)
Definition copy_copy (l : loc) : M loc :=
  p <- get_product l ;;
  alloc (CProduct p).

Fixpoint mapM {A B} (f : A -> M B) (xs : list A) : M (list B) :=
  match xs with
  | [] => ret []
  | x :: r => y <- f x ;; ys <- mapM f r ;; ret (y :: ys)
  end.

End pyheap.

Definition with_productUri (v : option string) (p : DataProductModel) :=
  {| productUri := v; gatewayId := gatewayId p; ownerName := ownerName p;
     productName := productName p; dataProductType := dataProductType p;
     productMetadata := productMetadata p; replicaLocations := replicaLocations p |}.
Definition with_ownerName (v : string) (p : DataProductModel) :=
  {| productUri := productUri p; gatewayId := gatewayId p; ownerName := v;
     productName := productName p; dataProductType := dataProductType p;
     productMetadata := productMetadata p; replicaLocations := replicaLocations p |}.
Definition with_productMetadata (v : option loc) (p : DataProductModel) :=
  {| productUri := productUri p; gatewayId := gatewayId p; ownerName := ownerName p;
     productName := productName p; dataProductType := dataProductType p;
     productMetadata := v; replicaLocations := replicaLocations p |}.
Definition with_replicaLocations (v : option loc) (p : DataProductModel) :=
  {| productUri := productUri p; gatewayId := gatewayId p; ownerName := ownerName p;
     productName := productName p; dataProductType := dataProductType p;
     productMetadata := productMetadata p; replicaLocations := v |}.

(** ** The catalog client and the [UserFiles] table *)

Module airavata_client.

(** The record as the client serialises it. *)
Definition snapshot (data_product : loc) : M submission :=
  p <- pyheap.get_product data_product ;;
  md <- match productMetadata p with
        | Some l => d <- pyheap.get_dict l ;; ret (Some d)
        | None => ret None
        end ;;
  reps <- match replicaLocations p with
          | Some l => ls <- pyheap.get_list l ;; pyheap.mapM pyheap.get_replica ls
          | None => ret []
          end ;;
  ret {| sub_product := p; sub_metadata := md; sub_replicas := reps |}.

Definition registerDataProduct (authz_token : string) (data_product : loc) : M string :=
  fault <- get catalog_fault ;;
  match fault with
  | Some e => raise e
  | None =>
      s <- snapshot data_product ;;
      n <- get (fun w => length (catalog w)) ;;
      uri <- get (fun w => catalog_uri w n) ;;
      modify (set_catalog (fun c => c ++ [s])) ;;;
      ret uri
  end.

End airavata_client.

Module models.

Definition matches (user full_path : string) (row : UserFiles) : bool :=
  String.eqb (username row) user && String.eqb (file_path row) full_path.

Definition query {A} (m : M A) : M A :=
  fault <- get db_fault ;;
  match fault with
  | Some e => raise e
  | None => m
  end.

(** [UserFiles.objects.filter(username=.., file_path=..)], evaluated *)
Definition filter_ (user full_path : string) : M (list UserFiles) :=
  query (get (fun w => List.filter (matches user full_path) (user_files w))).

(** [queryset.delete()] *)
Definition delete_matching (user full_path : string) : M unit :=
  query (modify (set_user_files
                   (List.filter (fun row => negb (matches user full_path row))))).

(** [UserFiles(...).save()] *)
Definition save_row (row : UserFiles) : M unit :=
  query (modify (set_user_files (fun rows => rows ++ [row]))).

End models.

(** ** The module's functions *)

(** The request: [request.user.username] and [request.authz_token]; the
    catalog client is part of the world. *)
Record request := {
  user_username : string;
  authz_token : string;
}.

Section user_storage.
Import pystr posixpath.

(** The configuration, and three library calls whose results the module
    only passes on: [urlparse(url).path], [mimetypes.guess_type(path)[0]],
    and whether [open(path, "r").read(1024)] decodes the file's bytes. *)
Variable cfg : settings.
Variable urlparse_path : string -> string.
Variable guess_type : string -> option string.
Variable decodes_as_text : bytes -> bool.

Definition datastore : Datastore.t := Datastore.init cfg None.

(** A [None] where [os.path.join] wants a string *)
Definition str_arg (x : option string) : M string :=
  match x with
  | Some s => ret s
  | None => raise (TypeError "expected str, bytes or os.PathLike object, not NoneType")
  end.

(** The attributes [_create_replica_location] gives the new replica. *)
Definition gateway_replica (full_path file_name : string) : DataReplicaLocationModel :=
  {| storageResourceId := Some (GATEWAY_DATA_STORE_RESOURCE_ID cfg);
     replicaName := Some (file_name +:+ " gateway data store copy");
     replicaLocationCategory := Some GATEWAY_DATA_STORE;
     replicaPersistentType := Some TRANSIENT;
     filePath := Some ("file://" +:+ GATEWAY_DATA_STORE_HOSTNAME cfg +:+ ":" +:+ full_path) |}.

Definition _create_replica_location (full_path file_name : string) : M loc :=
  pyheap.alloc (CReplica (gateway_replica full_path file_name)).

Definition _get_replica_filepath (data_product : loc) : M (option string) :=
  p <- pyheap.get_product data_product ;;
  match replicaLocations p with
  | None => raise (TypeError "'NoneType' object is not iterable")
  | Some l =>
      refs <- pyheap.get_list l ;;
      reps <- pyheap.mapM pyheap.get_replica refs ;;
      let replica_filepaths :=
        List.map filePath
          (List.filter
             (fun rep => match replicaLocationCategory rep with
                         | Some GATEWAY_DATA_STORE => true
                         | _ => false
                         end)
             reps) in
      let replica_filepath :=
        match replica_filepaths with x :: _ => x | [] => None end in
      match replica_filepath with
      | Some s => if String.eqb s "" then ret None else ret (Some (urlparse_path s))
      | None => ret None
      end
  end.

Definition _determine_content_type (full_path : string) (content_type : option string)
  : M (option string) :=
  let result := content_type in
  let result := match result with None => guess_type full_path | Some _ => result end in
  if match result with
     | None => true
     | Some r => String.eqb r "application/octet-stream"
     end
  then
    try_except
      (c <- os.read_bytes full_path ;;
       if decodes_as_text c then ret (Some "text/plain") else raise UnicodeDecodeError)
      (fun e => match e with
                | UnicodeDecodeError =>
                    Some (logger DEBUG ("Failed to read as Unicode text: " +:+ full_path) ;;;
                          ret result)
                | _ => None
                end)
  else ret result.

Definition _create_data_product (user full_path : string) (name content_type : option string)
  : M loc :=
  let file_name := match name with Some n => n | None => basename full_path end in
  data_product <- pyheap.alloc (CProduct
    {| productUri := None; gatewayId := Some (GATEWAY_ID cfg); ownerName := user;
       productName := file_name; dataProductType := Some FILE;
       productMetadata := None; replicaLocations := None |}) ;;
  final_content_type <- _determine_content_type full_path content_type ;;
  match final_content_type with
  | Some ct =>
      d <- pyheap.alloc (CDict {[ "mime-type" := ct ]}) ;;
      pyheap.update_product data_product (with_productMetadata (Some d))
  | None => ret tt
  end ;;;
  data_replica_location <- _create_replica_location full_path file_name ;;
  l <- pyheap.alloc (CList [data_replica_location]) ;;
  pyheap.update_product data_product (with_replicaLocations (Some l)) ;;;
  ret data_product.

Definition _register_data_product (req : request) (full_path : string) (data_product : loc)
  : M string :=
  product_uri <- airavata_client.registerDataProduct (authz_token req) data_product ;;
  models.save_row {| username := user_username req; file_path := full_path;
                     file_dpu := product_uri |} ;;;
  ret product_uri.

Definition _save_data_product (req : request) (full_path : string)
    (name content_type : option string) : M loc :=
  data_product <- _create_data_product (user_username req) full_path name content_type ;;
  product_uri <- _register_data_product req full_path data_product ;;
  pyheap.update_product data_product (with_productUri (Some product_uri)) ;;;
  ret data_product.

Definition _copy_data_product (req : request) (data_product : loc) (full_path : string)
  : M loc :=
  data_product_copy <- pyheap.copy_copy data_product ;;
  pyheap.update_product data_product_copy (with_productUri None) ;;;
  pyheap.update_product data_product_copy (with_ownerName (user_username req)) ;;;
  cp <- pyheap.get_product data_product_copy ;;
  data_replica_location <- _create_replica_location full_path (productName cp) ;;
  l <- pyheap.alloc (CList [data_replica_location]) ;;
  pyheap.update_product data_product_copy (with_replicaLocations (Some l)) ;;;
  ret data_product_copy.

Definition _save_copy_of_data_product (req : request) (full_path : string)
    (data_product : loc) : M loc :=
  data_product_copy <- _copy_data_product req data_product full_path ;;
  product_uri <- _register_data_product req full_path data_product_copy ;;
  pyheap.update_product data_product_copy (with_productUri (Some product_uri)) ;;;
  ret data_product_copy.

Definition _delete_data_product (user full_path : string) : M unit :=
  user_file <- models.filter_ user full_path ;;
  match user_file with
  | _ :: _ => models.delete_matching user full_path
  | [] => ret tt
  end.

Definition _get_data_product_uri (req : request) (full_path : string) : M (option string) :=
  user_file <- models.filter_ (user_username req) full_path ;;
  match user_file with
  | row :: _ => ret (Some (file_dpu row))
  | [] =>
      data_product <- _save_data_product req full_path None None ;;
      p <- pyheap.get_product data_product ;;
      ret (productUri p)
  end.

Definition save (req : request) (path_ : string) (file : fileobj)
    (name content_type : option string) : M loc :=
  full_path <- Datastore.save datastore (user_username req) path_ file name ;;
  _save_data_product req full_path name content_type.

Definition save_input_file (req : request) (file : fileobj)
    (name content_type : option string) : M loc :=
  let file_name := match name with Some n => n | None => basename (fo_name file) end in
  full_path <- Datastore.save datastore (user_username req) TMP_INPUT_FILE_UPLOAD_DIR file None ;;
  _save_data_product req full_path (Some file_name) content_type.

Definition copy_input_file (req : request) (data_product : loc) : M loc :=
  path_ <- _get_replica_filepath data_product ;;
  p <- pyheap.get_product data_product ;;
  source <- str_arg path_ ;;
  full_path <- Datastore.copy datastore (ownerName p) source (user_username req)
                 TMP_INPUT_FILE_UPLOAD_DIR (Some (productName p)) ;;
  _save_copy_of_data_product req full_path data_product.

Definition is_input_file (req : request) (data_product : loc) : M bool :=
  path_ <- _get_replica_filepath data_product ;;
  p <- str_arg path_ ;;
  present <- Datastore.exists_ datastore (user_username req) p ;;
  if present then
    rel_path <- django.lift (Datastore.rel_path datastore (user_username req) p) ;;
    ret (String.eqb (dirname rel_path) TMP_INPUT_FILE_UPLOAD_DIR)
  else ret false.

Definition move_from_filepath (req : request) (source_path target_path : string)
    (name content_type : option string) : M loc :=
  let file_name := match name with Some n => n | None => basename source_path end in
  full_path <- Datastore.move_external datastore source_path (user_username req)
                 target_path file_name ;;
  _save_data_product req full_path (Some file_name) content_type.

Definition move_input_file (req : request) (data_product : loc) (path_ : string) : M loc :=
  source_path <- _get_replica_filepath data_product ;;
  p <- pyheap.get_product data_product ;;
  source <- str_arg source_path ;;
  full_path <- Datastore.move datastore (ownerName p) source (user_username req)
                 path_ (productName p) ;;
  _delete_data_product (ownerName p) source ;;;
  _save_copy_of_data_product req full_path data_product.

Definition move_input_file_from_filepath (req : request) (source_path : string)
    (name content_type : option string) : M loc :=
  let file_name := match name with Some n => n | None => basename source_path end in
  full_path <- Datastore.move_external datastore source_path (user_username req)
                 TMP_INPUT_FILE_UPLOAD_DIR file_name ;;
  _save_data_product req full_path (Some file_name) content_type.

Definition open_file (req : request) (data_product : loc) : M fileobj :=
  path_ <- _get_replica_filepath data_product ;;
  p <- pyheap.get_product data_product ;;
  source <- str_arg path_ ;;
  Datastore.open datastore (ownerName p) source.

Definition exists_ (req : request) (data_product : loc) : M bool :=
  path_ <- _get_replica_filepath data_product ;;
  p <- pyheap.get_product data_product ;;
  source <- str_arg path_ ;;
  Datastore.exists_ datastore (ownerName p) source.

Definition dir_exists (req : request) (path_ : string) : M bool :=
  Datastore.dir_exists datastore (user_username req) path_.

Definition user_file_exists (req : request) (path_ : string) : M (option string) :=
  present <- Datastore.exists_ datastore (user_username req) path_ ;;
  if present then
    full_path <- django.lift (Datastore.path datastore (user_username req) path_) ;;
    _get_data_product_uri req full_path
  else ret None.

Definition delete_dir (req : request) (path_ : string) : M unit :=
  Datastore.delete_dir datastore (user_username req) path_.

Definition delete_failure_message (path_ product_uri : option string) : string :=
  "Unable to delete file " +:+ django.py_str path_
  +:+ " for data product uri " +:+ django.py_str product_uri.

Definition delete (req : request) (data_product : loc) : M unit :=
  path_ <- _get_replica_filepath data_product ;;
  try_except
    (p <- pyheap.get_product data_product ;;
     target <- str_arg path_ ;;
     Datastore.delete datastore (ownerName p) target ;;;
     _delete_data_product (ownerName p) target)
    (fun e =>
       Some (p <- pyheap.get_product data_product ;;
             logger ERROR (delete_failure_message path_ (productUri p)) ;;;
             raise e)).

Definition get_experiment_dir (req : request)
    (project_name experiment_name path_ : option string) : M string :=
  Datastore.get_experiment_dir datastore (user_username req)
    project_name experiment_name path_.

Definition create_user_dir (req : request) (path_ : string) : M unit :=
  Datastore.create_user_dir datastore (user_username req) path_.

Definition get_rel_path (req : request) (path_ : string) : outcome string :=
  Datastore.rel_path datastore (user_username req) path_.

End user_storage.

(** ** Vocabulary of the statements *)

Module spec.
Import pystr posixpath.

(** A component that [normpath] keeps as it is. *)
Definition plain (c : string) : Prop :=
  c <> "" /\ c <> "." /\ c <> ".." /\ has_sep c = false.

(** An absolute path that [normpath] leaves alone. *)
Definition normal (p : string) : Prop :=
  isabs p = true /\ normpath p = p.

(** [full] is the root or lies below it, or the root is a top-most path
    (["/"] or ["//"]), below which everything lies. *)
Definition inside (root full : string) : Prop :=
  full = root \/ startswith full (root +:+ "/") = true \/ dirname root = root.

(** The user's storage root. *)
Definition root (self : Datastore.t) (username : string) : string :=
  django.location (Datastore._user_data_storage self username).

(** The world after the warning that [exists] and [dir_exists] log for a
    rejected path. *)
Definition warn (username msg : string) (w : world) : world :=
  set_log (fun lg => lg ++ [(WARNING, Datastore.invalid_path_message username msg)]) w.

Definition octet_stream : string := "application/octet-stream".

(** The world after the debug message of a failed sniff. *)
Definition sniff_failed (full_path : string) (w : world) : world :=
  set_log (fun lg => lg ++ [(DEBUG, "Failed to read as Unicode text: " +:+ full_path)]) w.

(** The value content-type resolution starts from: the caller's, or else the
    guess from the extension. *)
Definition candidate_type (guess_type : string -> option string) (full_path : string)
    (content_type : option string) : option string :=
  match content_type with Some ct => Some ct | None => guess_type full_path end.

(** The world after [delete] has logged a failure. *)
Definition delete_failed (path_ product_uri : option string) (w : world) : world :=
  set_log (fun lg => lg ++ [(ERROR, delete_failure_message path_ product_uri)]) w.

(** Everything but the file tree, the log and the random source is the
    same in both worlds. *)
Definition same_records (w w' : world) : Prop :=
  heap w' = heap w /\ user_files w' = user_files w /\ db_fault w' = db_fault w /\
  catalog w' = catalog w /\ catalog_fault w' = catalog_fault w.

(** The duplicate as [_copy_data_product] leaves it: the original's
    attribute values, the metadata reference included, with the identifier
    cleared, the owner replaced and a replica list of its own at [l]. *)
Definition unsaved_copy (prod : DataProductModel) (user : string) (l : loc) : DataProductModel :=
  with_replicaLocations (Some l) (with_ownerName user (with_productUri None prod)).

(** The metadata of a record, through its reference. *)
Definition metadata_of (h : list cell) (prod : DataProductModel) : option (gmap string string) :=
  match productMetadata prod with
  | Some m => match h !! m with Some (CDict d) => Some d | _ => None end
  | None => None
  end.

(** [data_product.productMetadata[k] = v] *)
Definition set_metadata (data_product : loc) (k v : string) : M unit :=
  p <- pyheap.get_product data_product ;;
  match productMetadata p with
  | Some m => pyheap.dict_setitem m k v
  | None => raise (TypeError "'NoneType' object does not support item assignment")
  end.

(** [data_product.productMetadata.get(k)] *)
Definition read_metadata (data_product : loc) (k : string) : M (option string) :=
  p <- pyheap.get_product data_product ;;
  match productMetadata p with
  | Some m => d <- pyheap.get_dict m ;; ret (d !! k)
  | None => raise (TypeError "'NoneType' object has no attribute 'get'")
  end.

(** [data_product.replicaLocations.append(x)] *)
Definition append_replica (data_product : loc) (x : loc) : M unit :=
  p <- pyheap.get_product data_product ;;
  match replicaLocations p with
  | Some l => pyheap.list_append l x
  | None => raise (TypeError "'NoneType' object has no attribute 'append'")
  end.

(** The name [get_available_name] tries after [name] is taken, with the
    random string [s]. *)
Definition alternative_name (name s : string) : string :=
  let '(dir_name, file_name) := posixpath.split name in
  let '(file_root, file_ext) := posixpath.splitext file_name in
  posixpath.join dir_name (file_root +:+ "_" +:+ s +:+ file_ext).

(** [w'] differs from [w] by directories that were created, at most. *)
Definition grows (w w' : world) : Prop :=
  w' = set_fs (fun _ => fs w') w /\
  forall k, fs w' !! k = fs w !! k \/ (fs w !! k = None /\ fs w' !! k = Some Dir).

(** [w'] differs from [w] by random strings that were drawn, at most. *)
Definition draws (w w' : world) : Prop :=
  w' = set_rand (fun _ => rand w') w /\ exists used, rand w = used ++ rand w'.

(** The component [makedirs] looks at to decide whether the leaf is ".". *)
Definition final_tail (name : string) : string :=
  let '(head0, tail0) := split name in
  if String.eqb tail0 "" then snd (split head0) else tail0.


(** ["\\" in s], with a single backslash *)
Fixpoint has_backslash (s : string) : bool :=
  match s with
  | EmptyString => false
  | String c r => Ascii.eqb c "\" || has_backslash r
  end.

Definition no_backslashes (l : list string) : Prop :=
  Forall (fun s => has_backslash s = false) l.

(** The path of the entry [x] of the directory [b]. *)
Definition child (b x : string) : string :=
  if endswith_sep b then b +:+ x else b +:+ "/" +:+ x.

(** The last component of [alternative_name]: the random string goes
    before the extension. *)
Definition alternative_leaf (leaf s : string) : string :=
  let '(file_root, file_ext) := posixpath.splitext leaf in
  file_root +:+ "_" +:+ s +:+ file_ext.



(** [w'] differs from [w] in the file tree and in the random strings on
    offer, at most. *)
Definition storage_only (w w' : world) : Prop :=
  w' = set_rand (fun _ => rand w') (set_fs (fun _ => fs w') w).

(** No entry of the tree of [w] is removed or changed in [w']. *)
Definition keeps_entries (w w' : world) : Prop :=
  forall k v, fs w !! k = Some v -> fs w' !! k = Some v.

(** The tree [t'] is [t] with directories added, at most. *)
Definition adds_dirs (t t' : gmap string node) : Prop :=
  forall k, t' !! k = t !! k \/ (t !! k = None /\ t' !! k = Some Dir).

(** The name [_create_data_product] gives the record. *)
Definition product_name (full_path : string) (name : option string) : string :=
  match name with Some n => n | None => basename full_path end.

(** The record of a file, with its metadata dictionary at [md] and its
    replica list at [l]. *)
Definition file_product (cfg : settings) (user file_name : string) (uri : option string)
    (md : option loc) (l : option loc) : DataProductModel :=
  {| productUri := uri; gatewayId := Some (GATEWAY_ID cfg); ownerName := user;
     productName := file_name; dataProductType := Some FILE;
     productMetadata := md; replicaLocations := l |}.

(** The objects [_create_data_product] allocates, from location [n] on: the
    record, its metadata dictionary when a content type was found, its
    replica and its replica list. *)
Definition new_record (cfg : settings) (user full_path : string) (name : option string)
    (ct : option string) (uri : option string) (n : nat) : list cell :=
  let file_name := product_name full_path name in
  match ct with
  | Some t =>
      [CProduct (file_product cfg user file_name uri (Some (n + 1)) (Some (n + 3)));
       CDict {[ "mime-type" := t ]};
       CReplica (gateway_replica cfg full_path file_name);
       CList [n + 2]]
  | None =>
      [CProduct (file_product cfg user file_name uri None (Some (n + 2)));
       CReplica (gateway_replica cfg full_path file_name);
       CList [n + 1]]
  end.

(** What the catalog receives for a new record. *)
Definition new_submission (cfg : settings) (user full_path : string) (name : option string)
    (ct : option string) (n : nat) : submission :=
  let file_name := product_name full_path name in
  {| sub_product :=
       file_product cfg user file_name None
         (match ct with Some _ => Some (n + 1) | None => None end)
         (Some (match ct with Some _ => n + 3 | None => n + 2 end));
     sub_metadata := match ct with Some t => Some {[ "mime-type" := t ]} | None => None end;
     sub_replicas := [gateway_replica cfg full_path file_name] |}.

(** The URL [_create_replica_location] writes for a path. *)
Definition replica_url (cfg : settings) (full_path : string) : string :=
  "file://" +:+ GATEWAY_DATA_STORE_HOSTNAME cfg +:+ ":" +:+ full_path.

(** What content-type resolution returns or raises, read off the file tree. *)
Definition content_type_outcome (guess_type : string -> option string)
    (decodes_as_text : bytes -> bool) (full_path : string) (content_type : option string)
    (t : gmap string node) : outcome (option string) :=
  let candidate := candidate_type guess_type full_path content_type in
  if match candidate with None => true | Some ct => String.eqb ct octet_stream end
  then match t !! full_path with
       | Some (File c) => if decodes_as_text c then Return (Some "text/plain")
                          else Return candidate
       | Some Dir => Raise (IsADirectoryError full_path)
       | None => Raise (FileNotFoundError full_path)
       end
  else Return candidate.

(** What content-type resolution logs. *)
Definition content_type_log (guess_type : string -> option string)
    (decodes_as_text : bytes -> bool) (full_path : string) (content_type : option string)
    (t : gmap string node) : list (level * string) :=
  let candidate := candidate_type guess_type full_path content_type in
  if match candidate with None => true | Some ct => String.eqb ct octet_stream end
  then match t !! full_path with
       | Some (File c) =>
           if decodes_as_text c then []
           else [(DEBUG, "Failed to read as Unicode text: " +:+ full_path)]
       | _ => []
       end
  else [].

Definition no_seps (l : list string) : Prop :=
  Forall (fun s => has_sep s = false) l.

End spec.

(** ** Worlds the statements are tried on *)

Module fixtures.
Import pystr spec.

Definition cfg0 : settings :=
  {| GATEWAY_DATA_STORE_DIR := "/data"; GATEWAY_ID := "gateway";
     GATEWAY_DATA_STORE_RESOURCE_ID := "store-1";
     GATEWAY_DATA_STORE_HOSTNAME := "portal.example.org";
     getcwd := "/srv/portal" |}.

Definition ds0 : Datastore.t := Datastore.init cfg0 None.

Definition hello : bytes := list_byte_of_string "hello".

Definition tree0 : gmap string node :=
  list_to_map [("/", Dir); ("/data", Dir); ("/data/alice", Dir); ("/data/alice/tmp", Dir);
               ("/data/alice/tmp/in.txt", File hello);
               ("/data/bob", Dir); ("/data/bob/tmp", Dir);
               ("/data/bob/tmp/in.txt", File hello);
               ("/var", Dir); ("/var/spool", Dir); ("/var/spool/up.dat", File hello)].

Definition world0 : world :=
  {| fs := tree0; heap := []; user_files := []; db_fault := None; catalog := [];
     catalog_uri := fun n => "airavata-dp://" +:+ pretty.pretty n; catalog_fault := None;
     log := []; rand := ["Xq3kLm9"; "b7TzR2p"] |}.

Definition guess0 (full_path : string) : option string :=
  if String.eqb (snd (posixpath.splitext full_path)) ".csv" then Some "text/csv"
  else if String.eqb (snd (posixpath.splitext full_path)) ".bin" then Some octet_stream
  else None.

Definition tree3 : gmap string node :=
  <["/data/alice/blob.bin" := File hello]> tree0.
Definition world3 : world := set_fs (fun _ => tree3) world0.

(** [urlparse(url).path] on the URLs this module writes,
    [file://host:/absolute/path] with no query and no fragment: what follows
    the host. *)
Fixpoint from_first_sep (s : string) : string :=
  match s with
  | EmptyString => EmptyString
  | String c r => if is_sep c then s else from_first_sep r
  end.
Definition urlparse_path0 (url : string) : string :=
  from_first_sep (String.substring 7 (String.length url - 7) url).

(** A record of bob's staged input file: replica at 0, replica list at 1,
    record at 2. *)
Definition bobs_replica : DataReplicaLocationModel :=
  {| storageResourceId := Some "store-1";
     replicaName := Some "in.txt gateway data store copy";
     replicaLocationCategory := Some GATEWAY_DATA_STORE;
     replicaPersistentType := Some TRANSIENT;
     filePath := Some "file://portal.example.org:/data/bob/tmp/in.txt" |}.
Definition bobs_record : DataProductModel :=
  {| productUri := Some "airavata-dp://bob-1"; gatewayId := Some "gateway";
     ownerName := "bob"; productName := "in.txt"; dataProductType := Some FILE;
     productMetadata := None; replicaLocations := Some 1 |}.
Definition world2 : world :=
  set_heap (fun _ => [CReplica bobs_replica; CList [0]; CProduct bobs_record]) world0.
Definition alice : request := {| user_username := "alice"; authz_token := "token-a" |}.
Definition bob : request := {| user_username := "bob"; authz_token := "token-b" |}.

Definition db_down : exn := ExternalError "could not connect to the database".
(** alice owns a staged file, registered in the table; the database is
    about to fail. *)
Definition alices_replica : DataReplicaLocationModel :=
  {| storageResourceId := Some "store-1";
     replicaName := Some "in.txt gateway data store copy";
     replicaLocationCategory := Some GATEWAY_DATA_STORE;
     replicaPersistentType := Some TRANSIENT;
     filePath := Some "file://portal.example.org:/data/alice/tmp/in.txt" |}.
Definition alices_record : DataProductModel :=
  {| productUri := Some "airavata-dp://alice-1"; gatewayId := Some "gateway";
     ownerName := "alice"; productName := "in.txt"; dataProductType := Some FILE;
     productMetadata := None; replicaLocations := Some 1 |}.
Definition alices_row : UserFiles :=
  {| username := "alice"; file_path := "/data/alice/tmp/in.txt";
     file_dpu := "airavata-dp://alice-1" |}.
Definition world4 : world :=
  {| fs := tree0; heap := [CReplica alices_replica; CList [0]; CProduct alices_record];
     user_files := [alices_row]; db_fault := Some db_down; catalog := [];
     catalog_uri := fun n => "airavata-dp://" +:+ pretty.pretty n; catalog_fault := None;
     log := []; rand := [] |}.

(** bob's record with a metadata dictionary: replica at 0, replica list at
    1, dictionary at 2, record at 3. *)
Definition bobs_csv_record : DataProductModel :=
  {| productUri := Some "airavata-dp://bob-2"; gatewayId := Some "gateway";
     ownerName := "bob"; productName := "in.txt"; dataProductType := Some FILE;
     productMetadata := Some 2; replicaLocations := Some 1 |}.
Definition world5 : world :=
  set_heap (fun _ => [CReplica bobs_replica; CList [0];
                      CDict {[ "mime-type" := "text/csv" ]}; CProduct bobs_csv_record])
    world0.

End fixtures.

(** * Properties *)

Module posixpath_examples.
Import posixpath.

Example join_rel : join "/data/alice" "tmp/x.txt" = "/data/alice/tmp/x.txt".
Proof. reflexivity. Qed.
Example join_absolute : join "/data/alice" "/etc/passwd" = "/etc/passwd".
Proof. reflexivity. Qed.
Example join_empty : join "/data/alice" "" = "/data/alice/".
Proof. reflexivity. Qed.
Example normpath_dots : normpath "/data/alice/../bob/./x" = "/data/bob/x".
Proof. reflexivity. Qed.
Example normpath_two : normpath "//" = "//".
Proof. reflexivity. Qed.
Example normpath_three : normpath "///a//b/" = "/a/b".
Proof. reflexivity. Qed.
Example normpath_rel : normpath "a/../../b" = "../b".
Proof. reflexivity. Qed.
Example normpath_root_up : normpath "/../.." = "/".
Proof. reflexivity. Qed.
Example split_ex : split "/data/alice//x.txt" = ("/data/alice", "x.txt").
Proof. reflexivity. Qed.
Example split_root : split "/x" = ("/", "x").
Proof. reflexivity. Qed.
Example dirname_rel : dirname "tmp/x.txt" = "tmp".
Proof. reflexivity. Qed.
Example dirname_none : dirname "x.txt" = "".
Proof. reflexivity. Qed.
Example splitext_ex : splitext "exp1.tar.gz" = ("exp1.tar", ".gz").
Proof. reflexivity. Qed.
Example splitext_hidden : splitext ".bashrc" = (".bashrc", "").
Proof. reflexivity. Qed.
Example relpath_ex : relpath "/" "/data/alice/tmp/x.txt" "/data/alice" = "tmp/x.txt".
Proof. reflexivity. Qed.
Example relpath_self : relpath "/" "/data/alice" "/data/alice" = ".".
Proof. reflexivity. Qed.

End posixpath_examples.

(** ** Paths *)

Module posixpath_facts.
Import pystr posixpath spec.

Lemma split_sep_nonnil s : split_sep s <> [].
Proof. destruct s as [|c r]; simpl; [congruence|]. destruct (is_sep c); [congruence|]. destruct (split_sep r); congruence. Qed.

Lemma split_sep_no_sep s : Forall (fun c => has_sep c = false) (split_sep s).
Proof.
  induction s as [|c r IH]; simpl.
  - repeat constructor.
  - destruct (is_sep c) eqn:E.
    + constructor; [reflexivity|assumption].
    + destruct (split_sep r) as [|x xs]; inversion IH; subst; constructor; simpl; try rewrite E; auto.
Qed.

Lemma split_sep_cons_sep s : split_sep (String "/" s) = "" :: split_sep s.
Proof. reflexivity. Qed.

Lemma split_sep_no_sep_id c : has_sep c = false -> split_sep c = [c].
Proof.
  induction c as [|a r IH]; simpl; [reflexivity|].
  destruct (is_sep a); simpl; [discriminate|]. intros H. rewrite (IH H). reflexivity.
Qed.

Lemma split_sep_app_sep c s :
  has_sep c = false -> split_sep (c +:+ String "/" s) = c :: split_sep s.
Proof.
  induction c as [|a r IH]; simpl; [reflexivity|].
  destruct (is_sep a); simpl; [discriminate|]. intros H. rewrite (IH H). reflexivity.
Qed.

Lemma split_sep_join comps :
  comps <> [] -> Forall (fun c => has_sep c = false) comps ->
  split_sep (join_sep comps) = comps.
Proof.
  induction comps as [|c [|d rest] IH]; intros Hne HF.
  - congruence.
  - simpl. inversion HF; subst. apply split_sep_no_sep_id; assumption.
  - inversion HF; subst.
    change (join_sep (c :: d :: rest)) with (c +:+ String "/" (join_sep (d :: rest))).
    rewrite split_sep_app_sep by assumption. f_equal. apply IH; [congruence|assumption].
Qed.

Lemma norm_step_plain n stack c : plain c -> norm_step n stack c = c :: stack.
Proof.
  intros (H1 & H2 & H3 & _). unfold norm_step.
  destruct (String.eqb_spec c ""); [contradiction|].
  destruct (String.eqb_spec c "."); [contradiction|].
  destruct (String.eqb_spec c ".."); [contradiction|]. reflexivity.
Qed.

Lemma fold_norm_plain n comps stack :
  Forall plain comps -> fold_left (norm_step n) comps stack = rev comps ++ stack.
Proof.
  revert stack. induction comps as [|c r IH]; intros stack HF; simpl; [reflexivity|].
  inversion HF; subst. rewrite norm_step_plain by assumption. rewrite IH by assumption.
  rewrite <- app_assoc. reflexivity.
Qed.

Lemma norm_step_keeps_plain n stack c :
  n <> 0 -> has_sep c = false -> Forall plain stack -> Forall plain (norm_step n stack c).
Proof.
  intros Hn Hc HF. unfold norm_step.
  destruct (String.eqb_spec c ""); [assumption|].
  destruct (String.eqb_spec c "."); [assumption|]. simpl.
  destruct (String.eqb_spec c "..") as [->|Hdd]; simpl.
  - destruct n; [congruence|]. simpl.
    destruct stack as [|top rest]; simpl; [constructor|].
    inversion HF as [|? ? Htop Hrest]; subst.
    destruct (String.eqb_spec top "..") as [->|]; [destruct Htop as (_ & _ & ? & _); congruence|].
    assumption.
  - constructor; [|assumption]. repeat split; assumption.
Qed.

Lemma fold_norm_keeps_plain n comps stack :
  n <> 0 -> Forall (fun c => has_sep c = false) comps -> Forall plain stack ->
  Forall plain (fold_left (norm_step n) comps stack).
Proof.
  intros Hn. revert stack. induction comps as [|c r IH]; intros stack HF HS; simpl; [assumption|].
  inversion HF; subst. apply IH; [assumption|]. apply norm_step_keeps_plain; assumption.
Qed.

Lemma plain_first_not_sep c : plain c -> exists a r, c = String a r /\ is_sep a = false.
Proof.
  intros (H1 & _ & _ & H4). destruct c as [|a r]; [congruence|].
  exists a, r. split; [reflexivity|]. simpl in H4. destruct (is_sep a); [discriminate|reflexivity].
Qed.

Lemma join_sep_plain_head comps :
  Forall plain comps -> startswith (join_sep comps) "/" = false.
Proof.
  intros HF. destruct comps as [|c rest]; [reflexivity|].
  inversion HF as [|? ? Hc _]; subst. destruct (plain_first_not_sep c Hc) as (a & r & -> & Ha).
  unfold is_sep in Ha. destruct rest; simpl; rewrite Ha; reflexivity.
Qed.

Lemma initial_slashes_built n comps :
  n = 1 \/ n = 2 -> Forall plain comps ->
  initial_slashes (replicate_char n "/" +:+ join_sep comps) = n.
Proof.
  intros Hn HF. pose proof (join_sep_plain_head comps HF) as Hh.
  unfold initial_slashes.
  destruct Hn as [-> | ->]; simpl.
  - destruct (join_sep comps) as [|a r]; [reflexivity|]. simpl in *. rewrite andb_true_r in Hh.
    destruct (Ascii.eqb a "/"); [discriminate|reflexivity].
  - destruct (join_sep comps) as [|a r]; [reflexivity|]. simpl in *. rewrite andb_true_r in Hh.
    destruct (Ascii.eqb a "/"); [discriminate|reflexivity].
Qed.

Lemma fold_norm_built m n comps :
  n = 1 \/ n = 2 -> Forall plain comps ->
  fold_left (norm_step m) (split_sep (replicate_char n "/" +:+ join_sep comps)) []
  = rev comps.
Proof.
  intros Hn HF.
  assert (Hns : Forall (fun c => has_sep c = false) comps).
  { eapply Forall_impl; [exact HF|]. intros c (_ & _ & _ & H). exact H. }
  assert (Hbase : fold_left (norm_step m) (split_sep (join_sep comps)) [] = rev comps).
  { destruct comps as [|c r].
    - reflexivity.
    - rewrite split_sep_join by (congruence || assumption).
      rewrite fold_norm_plain by assumption. apply app_nil_r. }
  destruct Hn as [-> | ->]; simpl; exact Hbase.
Qed.

Lemma built_normal n comps :
  n = 1 \/ n = 2 -> Forall plain comps ->
  normal (replicate_char n "/" +:+ join_sep comps).
Proof.
  intros Hn HF. split.
  - destruct Hn as [-> | ->]; reflexivity.
  - unfold normpath.
    rewrite initial_slashes_built by assumption.
    rewrite fold_norm_built by assumption. rewrite rev_involutive.
    destruct Hn as [-> | ->]; reflexivity.
Qed.

Lemma initial_slashes_abs p : isabs p = true -> initial_slashes p = 1 \/ initial_slashes p = 2.
Proof.
  unfold isabs, initial_slashes. intros ->.
  destruct (startswith p "//" && negb (startswith p "///")); auto.
Qed.

(** [normpath] of an absolute path, as it is built. *)
Lemma normpath_abs_built p :
  isabs p = true ->
  exists n comps, (n = 1 \/ n = 2) /\ Forall plain comps /\
    normpath p = replicate_char n "/" +:+ join_sep comps.
Proof.
  intros Habs. pose proof (initial_slashes_abs p Habs) as Hn.
  exists (initial_slashes p), (rev (fold_left (norm_step (initial_slashes p)) (split_sep p) [])).
  split; [assumption|]. split.
  - apply Forall_rev. apply fold_norm_keeps_plain.
    + destruct Hn; lia.
    + apply split_sep_no_sep.
    + constructor.
  - unfold normpath. destruct p as [|a r]; [discriminate|]. simpl String.eqb. cbv iota.
    destruct Hn as [-> | ->]; reflexivity.
Qed.

Lemma normpath_abs_normal p : isabs p = true -> normal (normpath p).
Proof.
  intros Habs. destruct (normpath_abs_built p Habs) as (n & comps & Hn & HF & ->).
  apply built_normal; assumption.
Qed.

Lemma isabs_join cwd p : isabs cwd = true -> isabs (join cwd p) = true.
Proof.
  unfold isabs, join. intros Hc.
  destruct (startswith p "/") eqn:E; [assumption|].
  destruct cwd as [|a r]; [discriminate|].
  destruct (String.eqb (String a r) "" || endswith_sep (String a r)); simpl in *; assumption.
Qed.

Lemma abspath_normal cwd p : isabs cwd = true -> normal (abspath cwd p).
Proof.
  intros Hc. unfold abspath. destruct (isabs p) eqn:E.
  - apply normpath_abs_normal; assumption.
  - apply normpath_abs_normal, isabs_join; assumption.
Qed.

Lemma abspath_of_normal cwd p : normal p -> abspath cwd p = p.
Proof. intros [Ha Hn]. unfold abspath. rewrite Ha. exact Hn. Qed.

Lemma join_abs a b : isabs b = true -> join a b = b.
Proof. unfold isabs, join. intros ->. reflexivity. Qed.

Lemma append_nil_r s : s +:+ "" = s.
Proof. induction s as [|a r IH]; simpl; [reflexivity|]. f_equal. exact IH. Qed.

Lemma append_assoc a b c : (a +:+ b) +:+ c = a +:+ (b +:+ c).
Proof. induction a as [|x r IH]; simpl; [reflexivity|]. f_equal. exact IH. Qed.

Lemma split_sep_snoc_sep s : split_sep (s +:+ "/") = split_sep s ++ [""].
Proof.
  induction s as [|a r IH]; simpl; [reflexivity|].
  destruct (is_sep a); rewrite IH; [reflexivity|].
  pose proof (split_sep_nonnil r) as Hne.
  destruct (split_sep r); [congruence|reflexivity].
Qed.

Lemma initial_slashes_snoc_sep s :
  s <> "" -> endswith_sep s = false -> initial_slashes (s +:+ "/") = initial_slashes s.
Proof.
  intros Hne He. unfold initial_slashes.
  destruct s as [|a [|b [|c r]]]; [congruence|..]; simpl in *; unfold is_sep in *.
  - rewrite He. reflexivity.
  - rewrite He. destruct (Ascii.eqb a "/"); reflexivity.
  - reflexivity.
Qed.

Lemma normpath_snoc_sep s :
  s <> "" -> endswith_sep s = false -> normpath (s +:+ "/") = normpath s.
Proof.
  intros Hne He. unfold normpath.
  rewrite initial_slashes_snoc_sep by assumption.
  rewrite split_sep_snoc_sep, fold_left_app. simpl.
  destruct s as [|a r]; [congruence|]. reflexivity.
Qed.

Lemma normal_nonempty p : normal p -> p <> "".
Proof. intros [Ha _] ->. discriminate. Qed.

(** Joining the empty path onto a normalised root gives the root back. *)
Lemma abspath_join_empty cwd root : normal root -> abspath cwd (join root "") = root.
Proof.
  intros Hn. pose proof (normal_nonempty root Hn) as Hne.
  destruct Hn as [Ha Hnorm]. unfold join. simpl startswith. cbv iota.
  destruct (String.eqb_spec root ""); [contradiction|]. simpl orb.
  destruct (endswith_sep root) eqn:E.
  - rewrite append_nil_r. unfold abspath. rewrite Ha. exact Hnorm.
  - change (root +:+ "/" +:+ "") with (root +:+ "/").
    unfold abspath.
    assert (isabs (root +:+ "/") = true) as ->.
    { destruct root; [discriminate|]. exact Ha. }
    rewrite normpath_snoc_sep by assumption. exact Hnorm.
Qed.

(** *** [basename] *)

Lemma rpartition_no_sep v : has_sep v = false -> rpartition_sep v = ("", v).
Proof.
  induction v as [|a r IH]; simpl; [reflexivity|].
  destruct (is_sep a); simpl; [discriminate|]. intros H. rewrite (IH H). reflexivity.
Qed.

Lemma rpartition_head_empty s : fst (rpartition_sep s) = "" -> has_sep s = false.
Proof.
  induction s as [|a r IH]; simpl; [reflexivity|].
  destruct (rpartition_sep r) as [h t]. simpl in IH.
  destruct h; [|discriminate].
  destruct (is_sep a); simpl; [discriminate|]. intros _. apply IH. reflexivity.
Qed.

Lemma rpartition_app_sep a n :
  snd (rpartition_sep (a +:+ String "/" n)) = snd (rpartition_sep n).
Proof.
  induction a as [|x r IH]; simpl.
  - destruct (rpartition_sep n) as [h t]. destruct h; reflexivity.
  - destruct (rpartition_sep (r +:+ String "/" n)) as [h t] eqn:E. simpl in IH.
    destruct h.
    + apply (f_equal fst) in E. simpl in E. apply rpartition_head_empty in E.
      exfalso. clear -E. induction r; simpl in E; [discriminate|].
      destruct (is_sep a); [discriminate|auto].
    + exact IH.
Qed.

(** Directory components put before a name do not change its basename. *)
Lemma basename_prefixed dir n : basename (dir +:+ "/" +:+ n) = basename n.
Proof. unfold basename. apply rpartition_app_sep. Qed.

Lemma rpartition_app_no_sep p v :
  has_sep v = false ->
  rpartition_sep (p +:+ v) = (fst (rpartition_sep p), snd (rpartition_sep p) +:+ v).
Proof.
  intros Hv. induction p as [|a r IH]; simpl.
  - apply rpartition_no_sep. exact Hv.
  - rewrite IH. destruct (rpartition_sep r) as [h t]. simpl.
    destruct h; [destruct (is_sep a)|]; reflexivity.
Qed.

Lemma rpartition_endswith_sep p : endswith_sep p = true -> rpartition_sep p = (p, "").
Proof.
  induction p as [|a r IH]; simpl; [discriminate|].
  destruct r as [|b r'].
  - intros ->. reflexivity.
  - intros H. rewrite (IH H). reflexivity.
Qed.

Lemma startswith_sep_has_sep v : has_sep v = false -> startswith v "/" = false.
Proof. destruct v as [|a r]; [reflexivity|]. simpl. unfold is_sep. destruct (Ascii.eqb a "/"); [discriminate|reflexivity]. Qed.


End posixpath_facts.

(** ** The monad *)

Module monad_facts.

Lemma bind_Return {A B} (m : M A) (k : A -> M B) w a w1 :
  m w = (Return a, w1) -> bind m k w = k a w1.
Proof. unfold bind. intros ->. reflexivity. Qed.

Lemma bind_Raise {A B} (m : M A) (k : A -> M B) w e w1 :
  m w = (Raise e, w1) -> bind m k w = (Raise e, w1).
Proof. unfold bind. intros ->. reflexivity. Qed.

Lemma bind_inv_Return {A B} (m : M A) (k : A -> M B) w b w' :
  bind m k w = (Return b, w') ->
  exists a w1, m w = (Return a, w1) /\ k a w1 = (Return b, w').
Proof.
  unfold bind. destruct (m w) as [[a|e] w1]; intros H; [eauto|discriminate].
Qed.

Lemma lift_eq {A} (o : outcome A) w : django.lift o w = (o, w).
Proof. reflexivity. Qed.

End monad_facts.

(** ** The path resolver *)

Module resolver_facts.
Import pystr posixpath spec posixpath_facts django.

Lemma location_normal st : isabs (cwd st) = true -> normal (location st).
Proof. intros H. apply abspath_normal. exact H. Qed.

Lemma safe_join_Raise_kind c base p e :
  safe_join c base p = Raise e -> exists msg, e = SuspiciousFileOperation msg.
Proof.
  unfold safe_join.
  destruct (_ && _ && _); intros H; inversion H. eauto.
Qed.

Lemma path_Raise_kind st name e :
  path st name = Raise e -> exists msg, e = SuspiciousFileOperation msg.
Proof. apply safe_join_Raise_kind. Qed.

Lemma path_Return st name r :
  isabs (cwd st) = true -> path st name = Return r ->
  r = abspath (cwd st) (join (location st) name) /\ normal r /\ inside (location st) r.
Proof.
  intros Habs. unfold path, safe_join.
  rewrite (abspath_of_normal _ _ (location_normal st Habs)).
  destruct (startswith _ _) eqn:E1; simpl.
  - intros H; inversion H; subst. split; [reflexivity|]. split; [apply abspath_normal; assumption|].
    right; left; exact E1.
  - destruct (String.eqb_spec (abspath (cwd st) (join (location st) name)) (location st)) as [E2|E2]; simpl.
    + intros H; inversion H; subst. split; [reflexivity|]. split; [apply abspath_normal; assumption|].
      left; exact E2.
    + destruct (String.eqb_spec (dirname (location st)) (location st)) as [E3|E3]; simpl.
      * intros H; inversion H; subst. split; [reflexivity|]. split; [apply abspath_normal; assumption|].
        right; right; exact E3.
      * discriminate.
Qed.

Lemma path_Raise st name e :
  isabs (cwd st) = true -> path st name = Raise e ->
  ~ inside (location st) (abspath (cwd st) (join (location st) name)).
Proof.
  intros Habs. unfold path, safe_join.
  rewrite (abspath_of_normal _ _ (location_normal st Habs)).
  destruct (startswith _ _) eqn:E1; simpl; [discriminate|].
  destruct (String.eqb_spec (abspath (cwd st) (join (location st) name)) (location st)) as [E2|E2];
    simpl; [discriminate|].
  destruct (String.eqb_spec (dirname (location st)) (location st)) as [E3|E3]; simpl; [discriminate|].
  intros _ [H | [H | H]]; congruence.
Qed.

(** A resolved path resolves to itself. *)
Lemma path_idem st name r :
  isabs (cwd st) = true -> path st name = Return r -> path st r = Return r.
Proof.
  intros Habs H. destruct (path_Return st name r Habs H) as (Hr & Hn & _).
  revert H. unfold path, safe_join.
  rewrite (join_abs (location st) r) by apply Hn.
  rewrite (abspath_of_normal (cwd st) r Hn). rewrite <- Hr. tauto.
Qed.

(** The empty path resolves to the root. *)
Lemma path_empty st : isabs (cwd st) = true -> path st "" = Return (location st).
Proof.
  intros Habs. pose proof (location_normal st Habs) as Hn.
  unfold path, safe_join. rewrite (abspath_join_empty _ _ Hn).
  rewrite (abspath_of_normal _ _ Hn). rewrite String.eqb_refl. simpl.
  rewrite andb_false_r. reflexivity.
Qed.

End resolver_facts.

(** ** The data store *)

Module datastore_facts.
Import pystr posixpath spec posixpath_facts monad_facts resolver_facts.

Lemma exists_Return self u p r w :
  Datastore.path self u p = Return r ->
  Datastore.exists_ self u p w = (Return (os.isfile (fs w) r), w).
Proof.
  intros H. unfold Datastore.exists_, try_except, django.exists_, bind, django.lift, get.
  unfold Datastore.path in H. rewrite H. unfold os.path_exists, os.isfile.
  destruct (fs w !! r) as [[c|]|] eqn:F; unfold Datastore.path; rewrite ?H; cbv beta iota;
    rewrite ?F; reflexivity.
Qed.

Lemma exists_Raise self u p msg w :
  Datastore.path self u p = Raise (SuspiciousFileOperation msg) ->
  Datastore.exists_ self u p w = (Return false, warn u msg w).
Proof.
  intros H. unfold Datastore.exists_, try_except, django.exists_, bind, django.lift, get.
  unfold Datastore.path in H. rewrite H. reflexivity.
Qed.

Lemma dir_exists_Return self u p r w :
  Datastore.path self u p = Return r ->
  Datastore.dir_exists self u p w = (Return (os.isdir (fs w) r), w).
Proof.
  intros H. unfold Datastore.dir_exists, try_except, django.exists_, bind, django.lift, get.
  unfold Datastore.path in H. rewrite H. unfold os.path_exists, os.isdir.
  destruct (fs w !! r) as [[c|]|] eqn:F; unfold Datastore.path; rewrite ?H; cbv beta iota;
    rewrite ?F; reflexivity.
Qed.

Lemma dir_exists_Raise self u p msg w :
  Datastore.path self u p = Raise (SuspiciousFileOperation msg) ->
  Datastore.dir_exists self u p w = (Return false, warn u msg w).
Proof.
  intros H. unfold Datastore.dir_exists, try_except, django.exists_, bind, django.lift, get.
  unfold Datastore.path in H. rewrite H. reflexivity.
Qed.

End datastore_facts.

Import pystr posixpath spec posixpath_facts monad_facts resolver_facts datastore_facts fixtures.

(** ** Existence queries *)

(** ** The resolver *)

Lemma in_subtree_refl r : os.in_subtree r r = true.
Proof. unfold os.in_subtree. rewrite String.eqb_refl. reflexivity. Qed.

(** ** The name of a saved file *)



Lemma basename_no_sep p : has_sep (basename p) = false.
Proof.
  unfold basename. induction p as [|a r IH]; simpl; [reflexivity|].
  destruct (rpartition_sep r) as [h t]. simpl in IH.
  destruct h; [destruct (is_sep a) eqn:E|]; simpl; rewrite ?E, ?IH; reflexivity.
Qed.

Lemma basename_idem p : basename (basename p) = basename p.
Proof. unfold basename at 1. rewrite rpartition_no_sep by apply basename_no_sep. reflexivity. Qed.



(** ** Content types *)

(** ** Staged input files *)

(** The empty path resolves to the user's root. *)
Lemma root_resolves self u :
  isabs (getcwd (Datastore.conf self)) = true ->
  Datastore.path self u "" = Return (root self u).
Proof. intros Habs. exact (path_empty (Datastore._user_data_storage self u) Habs). Qed.

Lemma mapM_get_replica_pure refs w : snd (pyheap.mapM pyheap.get_replica refs w) = w.
Proof.
  revert w. induction refs as [|l r IH]; intros w; simpl; [reflexivity|].
  unfold bind, pyheap.get_replica at 1.
  destruct (heap w !! l) as [[| rep | |]|]; try reflexivity.
  specialize (IH w). destruct (pyheap.mapM pyheap.get_replica r w) as [[ys|e] w1]; simpl in *;
    subst; reflexivity.
Qed.

(** Locating the replica reads the record and changes nothing. *)
Lemma get_replica_filepath_pure url dp w : snd (_get_replica_filepath url dp w) = w.
Proof.
  unfold _get_replica_filepath, bind, pyheap.get_product.
  destruct (heap w !! dp) as [[prod | | |]|]; try reflexivity.
  destruct (replicaLocations prod) as [l|]; [|reflexivity].
  unfold pyheap.get_list. destruct (heap w !! l) as [[| | |refs]|]; try reflexivity.
  pose proof (mapM_get_replica_pure refs w) as Hm.
  destruct (pyheap.mapM pyheap.get_replica refs w) as [[reps|e] w1]; simpl in Hm; subst;
    [|reflexivity].
  destruct (match _ with [] => None | x :: _ => x end) as [s|]; [|reflexivity].
  destruct (String.eqb s ""); reflexivity.
Qed.

Lemma get_replica_filepath_eq url dp w o :
  fst (_get_replica_filepath url dp w) = o -> _get_replica_filepath url dp w = (o, w).
Proof.
  intros H. pose proof (get_replica_filepath_pure url dp w) as Hp.
  destruct (_get_replica_filepath url dp w); simpl in *; subst; reflexivity.
Qed.

Lemma is_input_file_resolved cfg url req dp p full w :
  isabs (getcwd cfg) = true ->
  fst (_get_replica_filepath url dp w) = Return (Some p) ->
  Datastore.path (datastore cfg) (user_username req) p = Return full ->
  is_input_file cfg url req dp w
  = (Return (os.isfile (fs w) full
             && String.eqb (dirname (relpath (getcwd cfg) full
                                       (root (datastore cfg) (user_username req))))
                  TMP_INPUT_FILE_UPLOAD_DIR), w).
Proof.
  intros Habs Hloc Hp. unfold is_input_file.
  rewrite (bind_Return _ _ w (Some p) w) by (apply get_replica_filepath_eq; exact Hloc).
  simpl str_arg. rewrite (bind_Return _ _ w p w) by reflexivity.
  rewrite (bind_Return _ _ w (os.isfile (fs w) full) w) by (apply exists_Return; exact Hp).
  destruct (os.isfile (fs w) full); [|reflexivity].
  unfold bind, django.lift, Datastore.rel_path. rewrite Hp.
  rewrite (root_resolves (datastore cfg) (user_username req) Habs). reflexivity.
Qed.

Lemma is_input_file_rejected cfg url req dp p msg w :
  fst (_get_replica_filepath url dp w) = Return (Some p) ->
  Datastore.path (datastore cfg) (user_username req) p = Raise (SuspiciousFileOperation msg) ->
  is_input_file cfg url req dp w = (Return false, warn (user_username req) msg w).
Proof.
  intros Hloc Hp. unfold is_input_file.
  rewrite (bind_Return _ _ w (Some p) w) by (apply get_replica_filepath_eq; exact Hloc).
  simpl str_arg. rewrite (bind_Return _ _ w p w) by reflexivity.
  rewrite (bind_Return _ _ w false (warn (user_username req) msg w))
    by (apply exists_Raise; exact Hp).
  reflexivity.
Qed.

(** ** Deleting a file *)

Lemma same_records_refl w : same_records w w.
Proof. repeat split. Qed.

Lemma same_records_trans w1 w2 w3 :
  same_records w1 w2 -> same_records w2 w3 -> same_records w1 w3.
Proof. unfold same_records. intuition congruence. Qed.

(** [_Datastore.delete]: either the path resolves to a regular file, which
    is removed, or an exception leaves the tree as it was. *)
Lemma datastore_delete_cases self u p w :
  (exists full c, Datastore.path self u p = Return full /\ fs w !! full = Some (File c) /\
     Datastore.delete self u p w = (Return tt, set_fs (base.delete full) w)) \/
  (exists e w1, Datastore.delete self u p w = (Raise e, w1) /\
     fs w1 = fs w /\ same_records w w1).
Proof.
  unfold Datastore.delete.
  destruct (Datastore.path self u p) as [full|e] eqn:Hp.
  - rewrite (bind_Return _ _ w _ w (exists_Return _ _ _ _ w Hp)).
    unfold os.isfile. destruct (fs w !! full) as [[c|]|] eqn:F.
    + unfold django.delete. destruct (String.eqb p "").
      * right. do 2 eexists. split; [reflexivity|]. split; [reflexivity|apply same_records_refl].
      * left. exists full, c. split; [reflexivity|]. split; [exact F|].
        unfold Datastore.path in Hp. unfold bind, django.lift, try_except, get. rewrite Hp.
        unfold os.isdir, os.remove. rewrite F. cbv beta iota. rewrite F. reflexivity.
    + right. do 2 eexists. split; [reflexivity|]. split; [reflexivity|apply same_records_refl].
    + right. do 2 eexists. split; [reflexivity|]. split; [reflexivity|apply same_records_refl].
  - destruct (path_Raise_kind _ _ _ Hp) as [msg ->].
    rewrite (bind_Return _ _ w _ _ (exists_Raise _ _ _ _ w Hp)).
    right. do 2 eexists. split; [reflexivity|]. split; [reflexivity|repeat split].
Qed.

(** [_delete_data_product]: the rows of (user, path) are removed, unless the
    database fails, which changes nothing. *)
Lemma delete_data_product_cases user full_path w :
  match db_fault w with
  | Some e => _delete_data_product user full_path w = (Raise e, w)
  | None =>
      exists w', _delete_data_product user full_path w = (Return tt, w') /\
        fs w' = fs w /\ heap w' = heap w /\ log w' = log w /\
        user_files w'
        = List.filter (fun row => negb (models.matches user full_path row)) (user_files w)
  end.
Proof.
  unfold _delete_data_product, models.filter_, models.delete_matching, models.query, bind, get.
  destruct (db_fault w) as [e|] eqn:F; [reflexivity|].
  destruct (List.filter (models.matches user full_path) (user_files w)) as [|row rest] eqn:E.
  - exists w. repeat split.
    symmetry. apply forallb_filter_id. apply forallb_forall. intros row Hin.
    destruct (models.matches user full_path row) eqn:Em; [|reflexivity].
    assert (In row []) as [] by (rewrite <- E; apply filter_In; split; assumption).
  - rewrite F. eexists. split; [reflexivity|]. repeat split.
Qed.

(** The file is gone and the association is still there. *)
Example delete_with_database_down :
  exists w', delete cfg0 urlparse_path0 alice 2 world4 = (Raise db_down, w') /\
             fs w' !! "/data/alice/tmp/in.txt" = None /\
             user_files w' = [alices_row] /\
             log w' = [(ERROR, "Unable to delete file /data/alice/tmp/in.txt for data product uri airavata-dp://alice-1")].
Proof. eexists. split; [vm_compute; reflexivity|]. repeat split; vm_compute; reflexivity. Qed.

(** ** Duplicating a record *)

Lemma lookup_ext {A} (h l : list A) i : (h ++ l) !! (length h + i) = l !! i.
Proof. rewrite lookup_app_r by lia. f_equal. lia. Qed.

Lemma lookup_ext0 {A} (h l : list A) : (h ++ l) !! (length h) = l !! 0.
Proof. rewrite <- (lookup_ext h l 0). f_equal. lia. Qed.

Lemma insert_ext {A} (h l : list A) i x :
  <[length h + i := x]> (h ++ l) = h ++ <[i := x]> l.
Proof. rewrite insert_app_r_alt by lia. do 2 f_equal. lia. Qed.

Lemma insert_ext0 {A} (h l : list A) x : <[length h := x]> (h ++ l) = h ++ <[0 := x]> l.
Proof. rewrite <- (insert_ext h l 0). f_equal. lia. Qed.

Ltac heap_simpl :=
  repeat (progress (rewrite ?lookup_ext0, ?insert_ext0, ?lookup_ext, ?insert_ext,
                      ?length_app, <- ?app_assoc; simpl)).

Lemma copy_data_product_spec cfg req dp full_path prod w :
  heap w !! dp = Some (CProduct prod) ->
  let n := length (heap w) in
  _copy_data_product cfg req dp full_path w
  = (Return n,
     set_heap (fun h => h ++ [CProduct (unsaved_copy prod (user_username req) (n + 2));
                              CReplica (gateway_replica cfg full_path (productName prod));
                              CList [n + 1]]) w).
Proof.
  intros Hdp n. subst n.
  destruct w as [fs0 h uf dbf cat curi cf lg rnd]. simpl in *.
  unfold _copy_data_product, _create_replica_location,
    pyheap.copy_copy, pyheap.update_product, pyheap.alloc, pyheap.get_product,
    bind, ret, modify. simpl.
  rewrite Hdp. heap_simpl. unfold set_heap. simpl. heap_simpl.
  replace (length h + 1 + 1) with (length h + 2) by lia. reflexivity.
Qed.

Lemma save_copy_of_data_product_spec cfg req full_path dp prod w :
  heap w !! dp = Some (CProduct prod) ->
  catalog_fault w = None -> db_fault w = None ->
  (forall m, productMetadata prod = Some m -> exists d, heap w !! m = Some (CDict d)) ->
  let n := length (heap w) in
  let uri := catalog_uri w (length (catalog w)) in
  let replica := gateway_replica cfg full_path (productName prod) in
  let unsaved := unsaved_copy prod (user_username req) (n + 2) in
  _save_copy_of_data_product cfg req full_path dp w
  = (Return n,
     {| fs := fs w;
        heap := heap w ++ [CProduct (with_productUri (Some uri) unsaved); CReplica replica;
                           CList [n + 1]];
        user_files := user_files w ++ [{| username := user_username req;
                                          file_path := full_path; file_dpu := uri |}];
        db_fault := db_fault w;
        catalog := catalog w ++ [{| sub_product := unsaved;
                                    sub_metadata := metadata_of (heap w) prod;
                                    sub_replicas := [replica] |}];
        catalog_uri := catalog_uri w; catalog_fault := catalog_fault w;
        log := log w; rand := rand w |}).
Proof.
  intros Hdp Hcf Hdf Hmd n uri replica unsaved. subst n uri replica unsaved.
  unfold _save_copy_of_data_product.
  rewrite (bind_Return _ _ w _ _ (copy_data_product_spec cfg req dp full_path prod w Hdp)).
  destruct w as [fs0 h uf dbf cat curi cf lg rnd]. simpl in *. subst.
  unfold _register_data_product, airavata_client.registerDataProduct, airavata_client.snapshot,
    models.save_row, models.query, pyheap.update_product, pyheap.get_product,
    pyheap.get_list, pyheap.get_dict, pyheap.mapM, pyheap.get_replica,
    bind, ret, get, modify, raise, set_heap, set_catalog, set_user_files. simpl.
  heap_simpl. unfold metadata_of.
  destruct (productMetadata prod) as [m|] eqn:Hm; simpl.
  - destruct (Hmd m eq_refl) as [d Hd]. rewrite (lookup_app_l_Some _ _ _ _ Hd), Hd. simpl.
    heap_simpl. reflexivity.
  - heap_simpl. reflexivity.
Qed.

(** ** The storage *)

Lemma set_fs_same w : set_fs (fun _ => fs w) w = w.
Proof. destruct w; reflexivity. Qed.

Lemma set_rand_same w : set_rand (fun _ => rand w) w = w.
Proof. destruct w; reflexivity. Qed.

Lemma grows_refl w : grows w w.
Proof. split; [symmetry; apply set_fs_same|]. intros k. left. reflexivity. Qed.

Lemma grows_trans w1 w2 w3 : grows w1 w2 -> grows w2 w3 -> grows w1 w3.
Proof.
  intros [E1 H1] [E2 H2]. split.
  - rewrite E2 at 1. rewrite E1. destruct w1; reflexivity.
  - intros k. destruct (H1 k) as [A|[A B]], (H2 k) as [C|[C D]].
    + left. congruence.
    + right. split; congruence.
    + right. split; congruence.
    + congruence.
Qed.

Lemma grows_keeps w w' k v : grows w w' -> fs w !! k = Some v -> fs w' !! k = Some v.
Proof. intros [_ H] Hk. destruct (H k) as [A|[A _]]; congruence. Qed.


Lemma grows_rand w w' : grows w w' -> rand w' = rand w.
Proof. intros [E _]. rewrite E. reflexivity. Qed.

Lemma draws_refl w : draws w w.
Proof. split; [symmetry; apply set_rand_same|]. exists []. reflexivity. Qed.

Lemma draws_trans w1 w2 w3 : draws w1 w2 -> draws w2 w3 -> draws w1 w3.
Proof.
  intros [E1 [u1 H1]] [E2 [u2 H2]]. split.
  - rewrite E2 at 1. rewrite E1. destruct w1; reflexivity.
  - exists (u1 ++ u2). rewrite H1, H2. apply app_assoc.
Qed.

Lemma draws_fs w w' : draws w w' -> fs w' = fs w.
Proof. intros [E _]. rewrite E. reflexivity. Qed.

Lemma draws_In w w' s : draws w w' -> In s (rand w') -> In s (rand w).
Proof. intros [_ [u H]] Hin. rewrite H. apply in_or_app. right. exact Hin. Qed.

Lemma django_exists_Return st name full w :
  django.path st name = Return full ->
  django.exists_ st name w = (Return (os.path_exists (fs w) full), w).
Proof. intros H. unfold django.exists_, bind, django.lift, get. rewrite H. reflexivity. Qed.

Lemma django_exists_Raise st name e w :
  django.path st name = Raise e -> django.exists_ st name w = (Raise e, w).
Proof. intros H. unfold django.exists_, bind, django.lift. rewrite H. reflexivity. Qed.

(** The loop of [get_available_name] returns a name that resolves to a
    path where nothing is: the name it was given, or one made with a random
    string it drew. *)
Lemma get_available_name_loop_spec n st dir_name file_root file_ext name w r w' :
  django.get_available_name_loop n st dir_name file_root file_ext name w = (Return r, w') ->
  draws w w' /\
  (exists full, django.path st r = Return full /\ fs w !! full = None) /\
  ((r = name /\ w' = w) \/
   (exists full, django.path st name = Return full /\ os.path_exists (fs w) full = true) /\
   exists s, In s (rand w) /\ r = join dir_name (file_root +:+ "_" +:+ s +:+ file_ext)).
Proof.
  revert name w. induction n as [|k IH]; intros name w; simpl; unfold bind at 1.
  - destruct (django.path st name) as [full|e] eqn:Hp.
    + rewrite (django_exists_Return _ _ _ w Hp).
      unfold os.path_exists. destruct (fs w !! full) eqn:F; [discriminate|].
      intros H; inversion H; subst. split; [apply draws_refl|]. split; [eauto|]. left. auto.
    + rewrite (django_exists_Raise _ _ _ w Hp). discriminate.
  - destruct (django.path st name) as [full|e] eqn:Hp.
    + rewrite (django_exists_Return _ _ _ w Hp).
      destruct (os.path_exists (fs w) full) eqn:F.
      * unfold bind, django.get_random_string.
        destruct (rand w) as [|s rest] eqn:R; [discriminate|].
        intros H. apply IH in H. destruct H as (Hd & (full' & Hp' & Hf') & Hr).
        assert (Hd0 : draws w (set_rand (fun _ => rest) w)).
        { split; [destruct w; reflexivity|]. exists [s]. simpl. rewrite R. reflexivity. }
        split; [exact (draws_trans _ _ _ Hd0 Hd)|]. split; [exists full'; auto|].
        right. split; [eauto|].
        destruct Hr as [[-> _]|(_ & s' & Hin & ->)].
        -- exists s. split; [left; reflexivity|reflexivity].
        -- exists s'. split; [right; exact Hin|reflexivity].
      * unfold os.path_exists in F. destruct (fs w !! full) eqn:F'; [discriminate|].
        intros H; inversion H; subst. split; [apply draws_refl|]. split; [eauto|]. left. auto.
    + rewrite (django_exists_Raise _ _ _ w Hp). discriminate.
Qed.

Lemma get_available_name_spec st name w r w' :
  django.get_available_name st name w = (Return r, w') ->
  draws w w' /\
  (exists full, django.path st r = Return full /\ fs w !! full = None) /\
  ((r = name /\ w' = w) \/
   (exists full, django.path st name = Return full /\ os.path_exists (fs w) full = true) /\
   exists s, In s (rand w) /\ r = alternative_name name s).
Proof.
  unfold django.get_available_name, alternative_name.
  destruct (split name) as [dir_name file_name].
  destruct (splitext file_name) as [file_root file_ext].
  unfold bind, get. apply get_available_name_loop_spec.
Qed.

(** ** Creating directories *)

Lemma join_sep_snoc cs c : cs <> [] -> join_sep (cs ++ [c]) = join_sep cs +:+ "/" +:+ c.
Proof.
  induction cs as [|x [|y r] IH]; intros Hne; [congruence|reflexivity|].
  change (join_sep ((x :: y :: r) ++ [c])) with (x +:+ "/" +:+ join_sep ((y :: r) ++ [c])).
  rewrite IH by congruence.
  change (join_sep (x :: y :: r)) with (x +:+ "/" +:+ join_sep (y :: r)).
  rewrite !append_assoc. reflexivity.
Qed.

(** The last component of a normalised absolute path is a plain name, unless
    the path is a top-most one. *)
Lemma normal_basename name :
  normal name -> name = "/" \/ name = "//" \/ plain (basename name).
Proof.
  intros [Habs Hn]. destruct (normpath_abs_built name Habs) as (n & comps & Hcase & HF & E).
  rewrite Hn in E. subst name.
  destruct comps as [|c cs _] using rev_ind.
  - destruct Hcase as [-> | ->]; auto.
  - right. right.
    apply Forall_app in HF. destruct HF as [_ Hc]. inversion Hc as [|? ? Hp _]; subst.
    assert (Hb : forall pre, basename (pre +:+ "/" +:+ c) = c).
    { intros pre. rewrite basename_prefixed. unfold basename.
      rewrite rpartition_no_sep by apply Hp. reflexivity. }
    destruct cs as [|x r].
    + destruct Hcase as [-> | ->]; simpl app; unfold join_sep.
      * change (replicate_char 1 "/" +:+ c) with ("" +:+ "/" +:+ c). rewrite Hb. exact Hp.
      * change (replicate_char 2 "/" +:+ c) with ("/" +:+ "/" +:+ c). rewrite Hb. exact Hp.
    + rewrite join_sep_snoc by congruence. rewrite <- append_assoc. rewrite Hb. exact Hp.
Qed.

Lemma mkdir_spec p w r w' :
  os.mkdir p w = (r, w') ->
  grows w w' /\ (r = Return tt -> os.isdir (fs w') p = true).
Proof.
  unfold os.mkdir. destruct (fs w !! p) eqn:F.
  - intros H; inversion H; subst. split; [apply grows_refl|discriminate].
  - destruct (fs w !! dirname p) as [[c|]|]; intros H; inversion H; subst;
      try (split; [apply grows_refl|discriminate]).
    split.
    + split; [destruct w; reflexivity|]. intros k. simpl.
      destruct (decide (p = k)) as [->|Hne].
      * right. rewrite lookup_insert_eq. auto.
      * left. apply lookup_insert_ne. exact Hne.
    + intros _. unfold os.isdir. simpl. rewrite lookup_insert_eq. reflexivity.
Qed.

Lemma mkdir_leaf_spec ok name w r w' :
  os.mkdir_leaf ok name w = (r, w') ->
  grows w w' /\ (r = Return tt -> os.isdir (fs w') name = true).
Proof.
  unfold os.mkdir_leaf, try_except.
  destruct (os.mkdir name w) as [[[]|e] w1] eqn:E.
  - intros H; inversion H; subst. exact (mkdir_spec _ _ _ _ E).
  - destruct (mkdir_spec _ _ _ _ E) as [Hg _].
    destruct (is_OSError e).
    + unfold bind, get. destruct (ok && os.isdir (fs w1) name) eqn:D.
      * intros H; inversion H; subst. split; [exact Hg|]. intros _.
        apply andb_true_iff in D. apply D.
      * intros H; inversion H; subst. split; [exact Hg|discriminate].
    + intros H; inversion H; subst. split; [exact Hg|discriminate].
Qed.

Lemma makedirs_rec_spec n ok name w r w' :
  os.makedirs_rec n ok name w = (r, w') ->
  grows w w' /\
  (r = Return tt -> final_tail name <> "." -> os.isdir (fs w') name = true).
Proof.
  revert name w r w'. induction n as [|k IH]; intros name w r w'; simpl;
    unfold final_tail; destruct (split name) as [head0 tail0].
  - destruct (if String.eqb tail0 "" then split head0 else (head0, tail0)) as [head tail].
    unfold bind at 1. unfold get at 1.
    destruct (negb (String.eqb head "") && negb (String.eqb tail "")
              && negb (os.path_exists (fs w) head));
      intros H; apply mkdir_leaf_spec in H; tauto.
  - destruct (if String.eqb tail0 "" then split head0 else (head0, tail0)) as [head tail] eqn:Eht.
    assert (Etail : (if String.eqb tail0 "" then snd (split head0) else tail0) = tail).
    { destruct (String.eqb tail0 ""); [rewrite Eht; reflexivity|congruence]. }
    rewrite Etail.
    unfold bind at 1. unfold get at 1.
    destruct (negb (String.eqb head "") && negb (String.eqb tail "")
              && negb (os.path_exists (fs w) head)).
    + unfold bind, try_except.
      destruct (os.makedirs_rec k ok head w) as [[[]|e] w1] eqn:E;
        destruct (IH _ _ _ _ E) as [Hg _].
      * destruct (String.eqb_spec tail ".") as [->|Hne].
        -- intros H; inversion H; subst. split; [exact Hg|]. intros _ Hc. congruence.
        -- intros H. apply mkdir_leaf_spec in H. destruct H as [Hg2 Hd].
           split; [exact (grows_trans _ _ _ Hg Hg2)|tauto].
      * destruct e; try (intros H; inversion H; subst; split; [exact Hg|discriminate]).
        unfold ret.
        destruct (String.eqb_spec tail ".") as [->|Hne].
        -- intros H; inversion H; subst. split; [exact Hg|]. intros _ Hc. congruence.
        -- intros H. apply mkdir_leaf_spec in H. destruct H as [Hg2 Hd].
           split; [exact (grows_trans _ _ _ Hg Hg2)|tauto].
    + intros H; apply mkdir_leaf_spec in H; tauto.
Qed.

Lemma normal_final_tail name : normal name -> final_tail name <> ".".
Proof.
  intros Hn. destruct (normal_basename name Hn) as [-> | [-> | Hp]]; [discriminate..|].
  unfold final_tail. unfold basename in Hp. unfold split.
  destruct (rpartition_sep name) as [h t]. simpl in Hp.
  assert (Ht : String.eqb t "" = false) by (apply String.eqb_neq, Hp).
  destruct (negb (String.eqb h "") && negb (all_sep h)); rewrite Ht; apply Hp.
Qed.

(** [_makedirs] that returns has made the directory of the resolved path. *)
Lemma _makedirs_spec self u dir_path w r w' :
  isabs (getcwd (Datastore.conf self)) = true ->
  Datastore._makedirs self u dir_path w = (r, w') ->
  grows w w' /\
  (r = Return tt ->
   exists full, Datastore.path self u dir_path = Return full /\ os.isdir (fs w') full = true).
Proof.
  intros Habs. unfold Datastore._makedirs, bind, django.lift.
  destruct (django.path (Datastore._user_data_storage self u) dir_path) as [full|e] eqn:Hp.
  - intros H. unfold os.makedirs in H. apply makedirs_rec_spec in H. destruct H as [Hg Hd].
    split; [exact Hg|]. intros Hr. exists full. split; [exact Hp|].
    apply Hd; [exact Hr|]. apply normal_final_tail.
    apply (path_Return (Datastore._user_data_storage self u) _ _ Habs Hp).
  - intros H; inversion H; subst. split; [apply grows_refl|discriminate].
Qed.

(** ** Experiment directories *)



(** ** Saving and opening *)

Lemma replace_no_backslash s : has_backslash s = false -> replace_char "\" "/" s = s.
Proof.
  induction s as [|c r IH]; simpl; [reflexivity|].
  destruct (Ascii.eqb c "\"); simpl; [discriminate|]. intros H. rewrite (IH H). reflexivity.
Qed.

Lemma has_backslash_app a b : has_backslash (a +:+ b) = has_backslash a || has_backslash b.
Proof.
  induction a as [|c r IH]; simpl; [reflexivity|]. rewrite IH. apply orb_assoc.
Qed.

Lemma rpartition_sep_app s : fst (rpartition_sep s) +:+ snd (rpartition_sep s) = s.
Proof.
  induction s as [|c r IH]; simpl; [reflexivity|].
  destruct (rpartition_sep r) as [h t]. simpl in IH.
  destruct h; [destruct (is_sep c)|]; simpl in *; rewrite ?IH; reflexivity.
Qed.

Lemma rstrip_sep_backslash s : has_backslash s = false -> has_backslash (rstrip_sep s) = false.
Proof.
  induction s as [|c r IH]; simpl; [reflexivity|].
  intros H. apply orb_false_iff in H. destruct H as [Hc Hr]. specialize (IH Hr).
  destruct (rstrip_sep r); [destruct (is_sep c)|]; simpl in *; rewrite ?Hc, ?IH; reflexivity.
Qed.

Lemma split_backslash p :
  has_backslash p = false ->
  has_backslash (fst (split p)) = false /\ has_backslash (snd (split p)) = false.
Proof.
  intros H. rewrite <- (rpartition_sep_app p), has_backslash_app in H.
  apply orb_false_iff in H. destruct H as [Hh Ht]. unfold split.
  destruct (rpartition_sep p) as [h t]. simpl in *.
  destruct (negb (String.eqb h "") && negb (all_sep h)); simpl; split; auto.
  apply rstrip_sep_backslash. exact Hh.
Qed.

Lemma rpartition_dot_app s h t : rpartition_dot s = Some (h, t) -> h +:+ t = s.
Proof.
  revert h t. induction s as [|c r IH]; simpl; [discriminate|]. intros h t.
  destruct (rpartition_dot r) as [[h' t']|].
  - intros H; inversion H; subst. simpl. rewrite (IH h' t eq_refl). reflexivity.
  - destruct (Ascii.eqb c "."); [|discriminate]. intros H; inversion H; subst. reflexivity.
Qed.

Lemma splitext_backslash p :
  has_backslash p = false ->
  has_backslash (fst (splitext p)) = false /\ has_backslash (snd (splitext p)) = false.
Proof.
  intros H. unfold splitext.
  pose proof (rpartition_sep_app p) as Hp.
  destruct (rpartition_sep p) as [head tail]. simpl in Hp.
  destruct (rpartition_dot tail) as [[root ext]|] eqn:E; [|simpl; auto].
  destruct (all_dots root); [simpl; auto|]. simpl.
  apply rpartition_dot_app in E. subst tail p.
  rewrite !has_backslash_app in *. apply orb_false_iff in H. destruct H as [H1 H2].
  apply orb_false_iff in H2. destruct H2 as [H2 H3]. rewrite H1, H2, H3. auto.
Qed.

Lemma join_backslash a b :
  has_backslash a = false -> has_backslash b = false -> has_backslash (join a b) = false.
Proof.
  intros Ha Hb. unfold join. destruct (startswith b "/"); [exact Hb|].
  destruct (String.eqb a "" || endswith_sep a); rewrite !has_backslash_app, ?Ha, ?Hb; reflexivity.
Qed.

Lemma alternative_name_backslash name s :
  has_backslash name = false -> has_backslash s = false ->
  has_backslash (alternative_name name s) = false.
Proof.
  intros Hn Hs. unfold alternative_name.
  destruct (split_backslash name Hn) as [Hd Hf].
  destruct (split name) as [dir_name file_name]. simpl in *.
  destruct (splitext_backslash file_name Hf) as [Hr He].
  destruct (splitext file_name) as [file_root file_ext]. simpl in *.
  apply join_backslash; [exact Hd|].
  rewrite has_backslash_app, Hr. simpl. rewrite has_backslash_app, Hs, He. reflexivity.
Qed.

Lemma get_valid_filename_backslash s : has_backslash (django.get_valid_filename s) = false.
Proof.
  unfold django.get_valid_filename.
  generalize (replace_char " " "_" (django.strip s)). intros t.
  induction t as [|c r IH]; simpl; [reflexivity|].
  destruct (_ || _) eqn:K; [|exact IH]. simpl. rewrite IH, orb_false_r.
  destruct (Ascii.eqb_spec c "\") as [->|]; [discriminate K|reflexivity].
Qed.

Lemma draws_no_backslashes w w' : draws w w' -> no_backslashes (rand w) -> no_backslashes (rand w').
Proof. intros [_ [u H]] HF. rewrite H in HF. apply Forall_app in HF. apply HF. Qed.

Lemma get_available_name_backslash st name w r w' :
  django.get_available_name st name w = (Return r, w') ->
  has_backslash name = false -> no_backslashes (rand w) ->
  has_backslash r = false /\ no_backslashes (rand w').
Proof.
  intros H Hn HF. destruct (get_available_name_spec st _ _ _ _ H) as (Hd & _ & Hform).
  split; [|exact (draws_no_backslashes _ _ Hd HF)].
  destruct Hform as [[-> _]|(_ & s & Hin & ->)]; [exact Hn|].
  apply alternative_name_backslash; [exact Hn|].
  unfold no_backslashes in HF. rewrite Forall_forall in HF. apply HF.
  apply list_elem_of_In. exact Hin.
Qed.



(** ** Top-most roots *)

Lemma length_append a b : String.length (a +:+ b) = String.length a + String.length b.
Proof. induction a as [|c r IH]; simpl; [reflexivity|]. rewrite IH. reflexivity. Qed.

Lemma rstrip_sep_length s : String.length (rstrip_sep s) <= String.length s.
Proof.
  induction s as [|c r IH]; simpl; [lia|].
  destruct (rstrip_sep r); [destruct (is_sep c)|]; simpl in *; lia.
Qed.

Lemma split_length p :
  String.length (fst (split p)) + String.length (snd (split p)) <= String.length p.
Proof.
  unfold split. pose proof (rpartition_sep_app p) as H.
  destruct (rpartition_sep p) as [h t]. simpl in H.
  rewrite <- H, length_append.
  destruct (negb (String.eqb h "") && negb (all_sep h)); simpl; [|lia].
  pose proof (rstrip_sep_length h). lia.
Qed.

(** A normalised root is its own parent exactly when it is ["/"] or
    ["//"]. *)
Lemma topmost_normal root :
  normal root -> (dirname root = root <-> root = "/" \/ root = "//").
Proof.
  intros Hn. split.
  - intros Hd. destruct (normal_basename root Hn) as [H|[H|Hp]]; auto.
    exfalso. pose proof (split_length root) as Hl. unfold dirname in Hd. rewrite Hd in Hl.
    assert (Hb : snd (split root) = basename root).
    { unfold split, basename. destruct (rpartition_sep root) as [h t].
      destruct (negb (String.eqb h "") && negb (all_sep h)); reflexivity. }
    rewrite Hb in Hl. destruct Hp as (Hne & _). destruct (basename root); [congruence|].
    simpl in Hl. lia.
  - intros [-> | ->]; reflexivity.
Qed.

(** ** The directory part of a joined name *)

Lemma endswith_sep_snoc a : endswith_sep (a +:+ "/") = true.
Proof.
  induction a as [|c r IH]; [reflexivity|].
  change (String c r +:+ "/") with (String c (r +:+ "/")).
  destruct r; [reflexivity|]. exact IH.
Qed.



(** ** The depth of [makedirs] *)

Lemma makedirs_head_shorter name head0 tail0 head tail :
  split name = (head0, tail0) ->
  (if String.eqb tail0 "" then split head0 else (head0, tail0)) = (head, tail) ->
  String.eqb tail "" = false ->
  String.length head < String.length name.
Proof.
  intros Hs Hht Ht. pose proof (split_length name) as Hl. rewrite Hs in Hl. simpl in Hl.
  destruct (String.eqb tail0 "") eqn:E.
  - pose proof (split_length head0) as Hl0. rewrite Hht in Hl0. simpl in Hl0.
    destruct tail; [discriminate|]. simpl in Hl0. lia.
  - injection Hht as -> ->. destruct tail; [discriminate|]. simpl in Hl. lia.
Qed.

(** The bound [makedirs] gives to its recursion is never reached: any
    larger bound gives the same result. *)
Lemma makedirs_rec_enough n m ok name w :
  String.length name <= n -> String.length name <= m ->
  os.makedirs_rec n ok name w = os.makedirs_rec m ok name w.
Proof.
  revert m name w. induction n as [|k IH]; intros m name w Hn Hm.
  - destruct name; [|simpl in Hn; lia]. destruct m; reflexivity.
  - destruct m as [|j].
    + destruct name; [|simpl in Hm; lia]. reflexivity.
    + simpl. destruct (split name) as [head0 tail0] eqn:Hs.
      destruct (if String.eqb tail0 "" then split head0 else (head0, tail0)) as [head tail] eqn:Hht.
      unfold bind at 1 3. unfold get at 1 2.
      destruct (String.eqb tail "") eqn:Ht; [rewrite andb_false_r; reflexivity|].
      destruct (negb (String.eqb head "") && negb false && negb (os.path_exists (fs w) head));
        [|reflexivity].
      pose proof (makedirs_head_shorter _ _ _ _ _ Hs Hht Ht) as Hlt.
      unfold bind, try_except. rewrite (IH j head w) by lia. reflexivity.
Qed.

(** ** Entries of a directory *)

Lemma has_sep_app a b : has_sep (a +:+ b) = has_sep a || has_sep b.
Proof. induction a as [|c r IH]; simpl; [reflexivity|]. rewrite IH. apply orb_assoc. Qed.

Lemma endswith_sep_app a c :
  c <> "" -> endswith_sep (a +:+ c) = endswith_sep c.
Proof.
  intros Hc. induction a as [|x r IH]; [reflexivity|].
  change (String x r +:+ c) with (String x (r +:+ c)).
  simpl. destruct (r +:+ c) eqn:E; [|exact IH].
  destruct r; [simpl in E; congruence|discriminate].
Qed.

Lemma no_sep_endswith c : has_sep c = false -> endswith_sep c = false.
Proof.
  induction c as [|x r IH]; [reflexivity|]. simpl. intros H.
  apply orb_false_iff in H. destruct H as [Hx Hr]. destruct r; [exact Hx|]. exact (IH Hr).
Qed.

Lemma plain_endswith a c : plain c -> endswith_sep (a +:+ c) = false.
Proof.
  intros (Hne & _ & _ & Hs). rewrite endswith_sep_app by exact Hne.
  apply no_sep_endswith. exact Hs.
Qed.

Lemma normal_built b :
  normal b ->
  exists n comps, (n = 1 \/ n = 2) /\ Forall plain comps /\
                  b = replicate_char n "/" +:+ join_sep comps.
Proof.
  intros [Ha Hn]. destruct (normpath_abs_built b Ha) as (n & comps & H1 & H2 & H3).
  rewrite Hn in H3. eauto.
Qed.

Lemma child_built n comps x :
  n = 1 \/ n = 2 -> Forall plain comps -> plain x ->
  child (replicate_char n "/" +:+ join_sep comps) x
  = replicate_char n "/" +:+ join_sep (comps ++ [x]).
Proof.
  intros Hn HF Hx. unfold child.
  destruct comps as [|c cs _] using rev_ind.
  - destruct Hn as [-> | ->]; reflexivity.
  - apply Forall_app in HF. destruct HF as [_ Hc]. inversion Hc as [|? ? Hp _]; subst.
    assert (E : endswith_sep (replicate_char n "/" +:+ join_sep (cs ++ [c])) = false).
    { destruct cs as [|y r].
      - simpl. apply plain_endswith. exact Hp.
      - rewrite join_sep_snoc by congruence. rewrite <- !append_assoc.
        apply plain_endswith. exact Hp. }
    rewrite E. rewrite (join_sep_snoc (cs ++ [c])) by (destruct cs; discriminate).
    rewrite !append_assoc. reflexivity.
Qed.

Lemma child_normal b x : normal b -> plain x -> normal (child b x).
Proof.
  intros Hb Hx. destruct (normal_built b Hb) as (n & comps & Hn & HF & ->).
  rewrite child_built by assumption. apply built_normal; [exact Hn|].
  apply Forall_app. split; [exact HF|]. constructor; [exact Hx|constructor].
Qed.

Lemma child_endswith b x : plain x -> endswith_sep (child b x) = false.
Proof.
  intros Hx. unfold child. destruct (endswith_sep b); [|rewrite <- append_assoc];
    apply plain_endswith; exact Hx.
Qed.

Lemma plain_no_leading_sep x : plain x -> startswith x "/" = false.
Proof. intros (_ & _ & _ & H). apply startswith_sep_has_sep. exact H. Qed.


Lemma normal_trailing_sep b : normal b -> endswith_sep b = true -> b = "/" \/ b = "//".
Proof.
  intros Hb He. destruct (normal_built b Hb) as (n & comps & Hn & HF & ->).
  destruct comps as [|c cs _] using rev_ind.
  - destruct Hn as [-> | ->]; auto.
  - exfalso. apply Forall_app in HF. destruct HF as [_ Hc]. inversion Hc as [|? ? Hp _]; subst.
    destruct cs as [|y r].
    + simpl in He. rewrite plain_endswith in He by exact Hp. discriminate.
    + rewrite join_sep_snoc in He by congruence. rewrite <- !append_assoc in He.
      rewrite plain_endswith in He by exact Hp. discriminate.
Qed.

Lemma all_sep_snoc b : endswith_sep b = false -> b <> "" -> all_sep (b +:+ "/") = false.
Proof.
  induction b as [|c r IH]; [congruence|]. intros He _.
  change (String c r +:+ "/") with (String c (r +:+ "/")). simpl.
  destruct r as [|d r'].
  - simpl in He. rewrite He. reflexivity.
  - rewrite IH; [apply andb_false_r|exact He|discriminate].
Qed.

Lemma rstrip_sep_snoc b : endswith_sep b = false -> rstrip_sep (b +:+ "/") = b.
Proof.
  induction b as [|c r IH]; [reflexivity|]. intros He.
  change (String c r +:+ "/") with (String c (r +:+ "/")). simpl.
  destruct r as [|d r'].
  - simpl in *. rewrite He. reflexivity.
  - rewrite IH by exact He. reflexivity.
Qed.

(** Splitting the path of an entry gives the directory and the entry. *)
Lemma split_child b x :
  (b = "/" \/ b = "//" \/ (b <> "" /\ endswith_sep b = false)) -> has_sep x = false ->
  split (child b x) = (b, x).
Proof.
  intros Hb Hx. unfold child, split.
  destruct Hb as [-> | [-> | [Hne He]]].
  - simpl. rewrite rpartition_no_sep by exact Hx. reflexivity.
  - simpl. rewrite rpartition_no_sep by exact Hx. reflexivity.
  - rewrite He. rewrite <- append_assoc. rewrite rpartition_app_no_sep by exact Hx.
    rewrite rpartition_endswith_sep by apply endswith_sep_snoc. simpl fst. simpl snd.
    destruct (String.eqb_spec (b +:+ "/") "") as [E|_].
    + destruct b; discriminate.
    + rewrite all_sep_snoc by assumption. simpl. rewrite rstrip_sep_snoc by exact He.
      reflexivity.
Qed.

Lemma normal_cases b :
  normal b -> b = "/" \/ b = "//" \/ (b <> "" /\ endswith_sep b = false).
Proof.
  intros Hb. destruct (endswith_sep b) eqn:E.
  - destruct (normal_trailing_sep b Hb E); auto.
  - right. right. split; [apply normal_nonempty; exact Hb|reflexivity].
Qed.


Lemma startswith_app a b : startswith (a +:+ b) a = true.
Proof.
  induction a as [|c r IH]; [destruct b; reflexivity|].
  change (String c r +:+ b) with (String c (r +:+ b)). simpl.
  rewrite Ascii.eqb_refl. exact IH.
Qed.

Lemma startswith_app_l a b p : startswith a p = true -> startswith (a +:+ b) p = true.
Proof.
  revert a. induction p as [|c r IH]; intros a; [reflexivity|].
  destruct a as [|d a']; [discriminate|].
  change (String d a' +:+ b) with (String d (a' +:+ b)). simpl.
  intros H. apply andb_true_iff in H. destruct H as [H1 H2]. rewrite H1, (IH _ H2). reflexivity.
Qed.




Lemma join_plain x y : plain x -> plain y -> join x y = x +:+ "/" +:+ y.
Proof.
  intros Hx Hy. unfold join. rewrite (plain_no_leading_sep y Hy).
  destruct Hx as (Hne & _ & _ & Hs). destruct (String.eqb_spec x ""); [contradiction|].
  rewrite (no_sep_endswith x Hs). reflexivity.
Qed.

(** A plain name below a plain name resolves to the entry of the entry. *)
Lemma path_child2 st x y :
  isabs (django.cwd st) = true -> plain x -> plain y ->
  django.path st (join x y) = Return (child (child (django.location st) x) y).
Proof.
  intros Habs Hx Hy. pose proof (location_normal st Habs) as Hn.
  pose proof (child_normal _ _ Hn Hx) as Hn1. pose proof (child_normal _ _ Hn1 Hy) as Hn2.
  assert (Hj : join (django.location st) (join x y) = child (child (django.location st) x) y).
  { rewrite (join_plain x y Hx Hy). unfold join.
    assert (startswith (x +:+ "/" +:+ y) "/" = false) as ->.
    { destruct Hx as (Hne & _ & _ & Hs). destruct x as [|c r]; [congruence|]. simpl in *.
      apply orb_false_iff in Hs. destruct Hs as [Hc _]. unfold is_sep in Hc. rewrite Hc.
      reflexivity. }
    destruct (String.eqb_spec (django.location st) "") as [E|_];
      [exfalso; exact (normal_nonempty _ Hn E)|]. simpl orb.
    unfold child at 1. rewrite (child_endswith _ x Hx). unfold child.
    destruct (endswith_sep (django.location st)); rewrite !append_assoc; reflexivity. }
  unfold django.path, django.safe_join.
  rewrite (abspath_of_normal _ _ Hn). rewrite Hj. rewrite (abspath_of_normal _ _ Hn2).
  destruct (normal_cases _ Hn) as [E | [E | [_ E]]].
  - rewrite E. simpl. rewrite !andb_false_r. reflexivity.
  - rewrite E. simpl. rewrite !andb_false_r. reflexivity.
  - unfold child at 1. rewrite (child_endswith _ x Hx).
    rewrite startswith_app_l; [reflexivity|].
    unfold child. rewrite E. rewrite <- append_assoc. apply startswith_app.
Qed.

(** ** Alternative names *)

Lemma split_join_plain x y : plain x -> plain y -> split (join x y) = (x, y).
Proof.
  intros Hx Hy. rewrite (join_plain x y Hx Hy).
  destruct Hx as (Hne & _ & _ & Hs).
  pose proof (split_child x y) as H. unfold child in H.
  rewrite (no_sep_endswith x Hs) in H. apply H; [|apply Hy].
  right. right. split; [exact Hne|reflexivity].
Qed.

Lemma alternative_name_join x y s :
  plain x -> plain y -> alternative_name (join x y) s = join x (alternative_leaf y s).
Proof.
  intros Hx Hy. unfold alternative_name, alternative_leaf.
  rewrite (split_join_plain x y Hx Hy). destruct (splitext y). reflexivity.
Qed.

Lemma splitext_no_sep y :
  has_sep y = false ->
  has_sep (fst (splitext y)) = false /\ has_sep (snd (splitext y)) = false /\
  fst (splitext y) +:+ snd (splitext y) = y.
Proof.
  intros H. unfold splitext. rewrite rpartition_no_sep by exact H.
  destruct (rpartition_dot y) as [[root ext]|] eqn:E.
  - destruct (all_dots root); simpl.
    + rewrite append_nil_r. auto.
    + apply rpartition_dot_app in E. subst y. rewrite has_sep_app in H.
      apply orb_false_iff in H. tauto.
  - simpl. rewrite append_nil_r. auto.
Qed.

Lemma underscore_inside r t :
  r +:+ "_" +:+ t <> "" /\ r +:+ "_" +:+ t <> "." /\ r +:+ "_" +:+ t <> "..".
Proof.
  destruct r as [|a [|b [|c r]]]; repeat split; try discriminate;
    simpl; intros H; inversion H; subst; try discriminate.
Qed.

Lemma alternative_leaf_plain y s :
  has_sep y = false -> has_sep s = false -> plain (alternative_leaf y s).
Proof.
  intros Hy Hs. unfold alternative_leaf.
  destruct (splitext_no_sep y Hy) as (Hr & He & _).
  destruct (splitext y) as [r e]. simpl in *.
  destruct (underscore_inside r (s +:+ e)) as (H1 & H2 & H3).
  repeat split; try assumption.
  rewrite has_sep_app, Hr. simpl. rewrite has_sep_app, Hs, He. reflexivity.
Qed.


(** ** Steps of [get_experiment_dir] *)






(** ** Two calls of [get_experiment_dir] *)

Section two_calls.
Variables (self : Datastore.t) (u : string) (proj exp : option string).
Hypothesis Habs : isabs (getcwd (Datastore.conf self)) = true.

Local Abbreviation st := (Datastore._user_data_storage self u).
Local Abbreviation pd := (django.get_valid_filename (django.py_str proj)).
Local Abbreviation ve := (django.get_valid_filename (django.py_str exp)).
Local Abbreviation project := (child (root self u) pd).
Local Abbreviation experiment := (child project ve).

Hypothesis Hpd : plain pd.
Hypothesis Hve : plain ve.












End two_calls.

(** ** Deleting a directory *)

(** [delete_dir] on any path that resolves to a directory removes the tree
    at the resolved path. *)
Lemma delete_dir_removes self u p r w :
  Datastore.path self u p = Return r -> os.isdir (fs w) r = true ->
  Datastore.delete_dir self u p w
  = (Return tt, set_fs (filter (fun kv => os.in_subtree r kv.1 = false)) w).
Proof.
  intros Hp Hd. unfold Datastore.delete_dir.
  rewrite (bind_Return _ _ w true w) by (rewrite (dir_exists_Return _ _ _ _ _ Hp), Hd; reflexivity).
  cbv beta iota. rewrite (bind_Return _ _ w r w) by (rewrite Hp; reflexivity).
  unfold os.rmtree. unfold os.isdir in Hd.
  destruct (fs w !! r) as [[c|]|]; try discriminate. reflexivity.
Qed.


(** * The claims *)

(** ** C1 *)




(** ** C2 *)

(** C2, as stated, fails: the existence check is against the acting user,
    not the record's owner.  bob's staged file exists for bob, its owner,
    directly under his "tmp", yet [is_input_file] is false for alice and
    true for bob. *)
Lemma C2_counterexample :
  fst (_get_replica_filepath urlparse_path0 2 world2) = Return (Some "/data/bob/tmp/in.txt") /\
  (exists prod, heap world2 !! 2 = Some (CProduct prod) /\ ownerName prod = "bob") /\
  Datastore.exists_ ds0 "bob" "/data/bob/tmp/in.txt" world2 = (Return true, world2) /\
  Datastore.rel_path ds0 "bob" "/data/bob/tmp/in.txt" = Return "tmp/in.txt" /\
  dirname "tmp/in.txt" = TMP_INPUT_FILE_UPLOAD_DIR /\
  fst (is_input_file cfg0 urlparse_path0 alice 2 world2) = Return false /\
  fst (is_input_file cfg0 urlparse_path0 bob 2 world2) = Return true.
Proof.
  split; [reflexivity|]. split; [eexists; split; reflexivity|].
  split; [vm_compute; reflexivity|]. repeat split; vm_compute; reflexivity.
Qed.

(** C2, amended.  For a record whose replica path is located,
    [is_input_file] returns true if and only if that path exists as a file
    for the acting user, the user of the request, whoever owns the record,
    and the directory part of the path taken relative to the acting user's
    root is "tmp". *)
Theorem C2_is_input_file_of_the_acting_user
    (cfg : settings) (url : string -> string) (req : request) (dp : loc) (p : string)
    (w : world) :
  isabs (getcwd cfg) = true ->
  fst (_get_replica_filepath url dp w) = Return (Some p) ->
  exists b,
    fst (is_input_file cfg url req dp w) = Return b /\
    fs (snd (is_input_file cfg url req dp w)) = fs w /\
    (b = true <->
     fst (Datastore.exists_ (datastore cfg) (user_username req) p w) = Return true /\
     exists rel, Datastore.rel_path (datastore cfg) (user_username req) p = Return rel /\
                 dirname rel = TMP_INPUT_FILE_UPLOAD_DIR).
Proof.
  intros Habs Hloc.
  destruct (Datastore.path (datastore cfg) (user_username req) p) as [full|e] eqn:Hp.
  - rewrite (is_input_file_resolved cfg url req dp p full w Habs Hloc Hp).
    rewrite (exists_Return _ _ _ _ w Hp). simpl fst. simpl snd.
    assert (Hr : Datastore.rel_path (datastore cfg) (user_username req) p
                 = Return (relpath (getcwd cfg) full (root (datastore cfg) (user_username req)))).
    { unfold Datastore.rel_path. rewrite Hp.
      rewrite (root_resolves (datastore cfg) (user_username req) Habs). reflexivity. }
    rewrite Hr. eexists. split; [reflexivity|]. split; [reflexivity|].
    rewrite andb_true_iff. split.
    + intros [H1 H2]. split; [rewrite H1; reflexivity|].
      eexists. split; [reflexivity|]. apply String.eqb_eq. exact H2.
    + intros [H1 (rel & H2 & H3)]. inversion H1 as [H1']. inversion H2; subst rel.
      split; [reflexivity|]. rewrite H1' in *. apply String.eqb_eq. exact H3.
  - destruct (path_Raise_kind _ _ _ Hp) as [msg ->].
    rewrite (is_input_file_rejected cfg url req dp p msg w Hloc Hp).
    rewrite (exists_Raise _ _ _ _ w Hp). simpl. exists false. split; [reflexivity|].
    split; [reflexivity|]. split; [discriminate|]. intros [H _]. discriminate.
Qed.

Lemma C2_is_input_file_of_the_acting_user_witness :
  exists b,
    fst (is_input_file cfg0 urlparse_path0 alice 2 world2) = Return b /\
    fs (snd (is_input_file cfg0 urlparse_path0 alice 2 world2)) = fs world2 /\
    (b = true <->
     fst (Datastore.exists_ (datastore cfg0) (user_username alice) "/data/bob/tmp/in.txt" world2)
     = Return true /\
     exists rel,
       Datastore.rel_path (datastore cfg0) (user_username alice) "/data/bob/tmp/in.txt"
       = Return rel /\
       dirname rel = TMP_INPUT_FILE_UPLOAD_DIR).
Proof.
  apply (C2_is_input_file_of_the_acting_user cfg0 urlparse_path0 alice 2 "/data/bob/tmp/in.txt"
           world2); reflexivity.
Defined.

(** ** C3 *)

(** C3, as stated, fails twice: a caller's generic binary type is replaced
    by text/plain when the file reads as text, and a guessed generic binary
    type is kept, not left unset, when the file does not. *)
Lemma C3_counterexample :
  _determine_content_type guess0 (fun _ => true) "/data/alice/tmp/in.txt"
    (Some "application/octet-stream") world0
  = (Return (Some "text/plain"), world0) /\
  _determine_content_type guess0 (fun _ => false) "/data/alice/blob.bin" None world3
  = (Return (Some "application/octet-stream"), sniff_failed "/data/alice/blob.bin" world3).
Proof. split; reflexivity. Qed.

(** C3, amended.  Resolution starts from the caller's value, or from the
    guess by extension when the caller gave none.  A value other than the
    generic binary type is returned without the file being read.  With no
    value, or with the generic binary type (the caller's included), the file
    is read as text: on success the result is text/plain, on a decoding error
    the starting value is kept (nothing, or the generic binary type) and the
    failure is logged; an error of the file system propagates. *)
Theorem C3_content_type_resolution
    (guess_type : string -> option string) (decodes_as_text : bytes -> bool)
    (full_path : string) (content_type : option string) (w : world) :
  let candidate := candidate_type guess_type full_path content_type in
  _determine_content_type guess_type decodes_as_text full_path content_type w
  = if match candidate with None => true | Some ct => String.eqb ct octet_stream end
    then match fs w !! full_path with
         | Some (File c) =>
             if decodes_as_text c then (Return (Some "text/plain"), w)
             else (Return candidate, sniff_failed full_path w)
         | Some Dir => (Raise (IsADirectoryError full_path), w)
         | None => (Raise (FileNotFoundError full_path), w)
         end
    else (Return candidate, w).
Proof.
  intros candidate.
  assert (Hc : match content_type with Some _ => content_type | None => guess_type full_path end
               = candidate) by (destruct content_type; reflexivity).
  unfold _determine_content_type. rewrite Hc. fold octet_stream.
  destruct (match candidate with None => true | Some ct => String.eqb ct octet_stream end);
    [|reflexivity].
  unfold try_except, bind, os.read_bytes.
  destruct (fs w !! full_path) as [[c|]|]; try reflexivity.
  destruct (decodes_as_text c); reflexivity.
Qed.

(** ** C4 *)

(** C4, as stated, fails in its last words: no failing [delete] changes the
    PathIndex, so the file is never left in place with the association
    gone. *)
Lemma C4_counterexample :
  ~ exists (cfg : settings) (url : string -> string) (req : request) (dp : loc)
           (w w' : world) (e : exn),
      delete cfg url req dp w = (Raise e, w') /\ user_files w' <> user_files w.
Proof.
  intros (cfg & url & req & dp & w & w' & e & Hd & Hu). apply Hu. clear Hu.
  revert Hd. unfold delete.
  pose proof (get_replica_filepath_pure url dp w) as Hpure.
  unfold bind at 1. destruct (_get_replica_filepath url dp w) as [[path_|e0] w0]; simpl in Hpure;
    subst w0; [|intros H; inversion H; reflexivity].
  unfold try_except. unfold bind at 1. unfold pyheap.get_product at 1.
  destruct (heap w !! dp) as [[prod| | |]|] eqn:Hh;
    try (unfold pyheap.dangling, raise; unfold bind, pyheap.get_product; rewrite Hh;
         intros H; inversion H; reflexivity).
  destruct path_ as [p|]; simpl str_arg.
  2:{ unfold bind at 1. unfold raise at 1. unfold bind, pyheap.get_product. rewrite Hh. simpl.
      intros H; inversion H; reflexivity. }
  unfold bind at 1. unfold ret at 1. unfold bind at 1.
  destruct (datastore_delete_cases (datastore cfg) (ownerName prod) p w)
    as [(full & c & _ & _ & ->) | (e1 & w1 & -> & _ & Hs)].
  - pose proof (delete_data_product_cases (ownerName prod) p (set_fs (base.delete full) w)) as Hc.
    simpl db_fault in Hc. destruct (db_fault w) as [e2|].
    + rewrite Hc. unfold bind, pyheap.get_product. simpl. rewrite Hh. simpl.
      intros H; inversion H; reflexivity.
    + destruct Hc as (w2 & -> & _). discriminate.
  - destruct Hs as (Hheap & Hfiles & _).
    unfold bind, pyheap.get_product. rewrite Hheap, Hh. simpl.
    intros H; inversion H; simpl. exact Hfiles.
Qed.

(** C4, amended.  [delete] removes the file first and the association
    second.  When removing the file raises, nothing has been removed and
    the association is not touched; when removing the association raises,
    the file stays removed and the association stays in place.  Either way
    the failure is logged with the path and the record's identifier and the
    same exception is raised again.  No failure leaves the file in place
    with the association gone. *)
Theorem C4_delete_then_unregister
    (cfg : settings) (url : string -> string) (req : request) (dp : loc)
    (prod : DataProductModel) (p : string) (w : world) :
  fst (_get_replica_filepath url dp w) = Return (Some p) ->
  heap w !! dp = Some (CProduct prod) ->
  let owner := ownerName prod in
  let failed := delete_failed (Some p) (productUri prod) in
  match Datastore.delete (datastore cfg) owner p w with
  | (Raise e, w1) =>
      delete cfg url req dp w = (Raise e, failed w1) /\
      fs w1 = fs w /\ user_files w1 = user_files w
  | (Return _, w1) =>
      (exists full c, Datastore.path (datastore cfg) owner p = Return full /\
                      fs w !! full = Some (File c) /\ w1 = set_fs (base.delete full) w) /\
      match _delete_data_product owner p w1 with
      | (Raise e, w2) =>
          delete cfg url req dp w = (Raise e, failed w1) /\ w2 = w1
      | (Return _, w2) =>
          delete cfg url req dp w = (Return tt, w2) /\ fs w2 = fs w1 /\
          user_files w2
          = List.filter (fun row => negb (models.matches owner p row)) (user_files w)
      end
  end.
Proof.
  intros Hloc Hh owner failed. subst owner failed. unfold delete.
  rewrite (bind_Return _ _ w (Some p) w) by (apply get_replica_filepath_eq; exact Hloc).
  unfold try_except, bind, str_arg, raise, logger, modify, pyheap.get_product.
  unfold ret. rewrite Hh. cbv beta iota.
  destruct (datastore_delete_cases (datastore cfg) (ownerName prod) p w)
    as [(full & c & Hp & Hf & ->) | (e1 & w1 & -> & Hfs & Hs)].
  - split; [exists full, c; auto|].
    pose proof (delete_data_product_cases (ownerName prod) p (set_fs (base.delete full) w)) as Hc.
    simpl db_fault in Hc. destruct (db_fault w) as [e2|].
    + rewrite Hc. split; [|reflexivity]. simpl. rewrite Hh. reflexivity.
    + destruct Hc as (w2 & -> & Hfs & _ & _ & Hu). auto.
  - destruct Hs as (Hheap & Hfiles & _). split; [|auto].
    rewrite Hheap, Hh. reflexivity.
Qed.

Lemma C4_delete_then_unregister_witness :
  match Datastore.delete (datastore cfg0) "alice" "/data/alice/tmp/in.txt" world4 with
  | (Raise e, w1) =>
      delete cfg0 urlparse_path0 alice 2 world4
      = (Raise e, delete_failed (Some "/data/alice/tmp/in.txt") (Some "airavata-dp://alice-1") w1) /\
      fs w1 = fs world4 /\ user_files w1 = user_files world4
  | (Return _, w1) =>
      (exists full c, Datastore.path (datastore cfg0) "alice" "/data/alice/tmp/in.txt" = Return full /\
                      fs world4 !! full = Some (File c) /\ w1 = set_fs (base.delete full) world4) /\
      match _delete_data_product "alice" "/data/alice/tmp/in.txt" w1 with
      | (Raise e, w2) =>
          delete cfg0 urlparse_path0 alice 2 world4
          = (Raise e, delete_failed (Some "/data/alice/tmp/in.txt")
                        (Some "airavata-dp://alice-1") w1) /\ w2 = w1
      | (Return _, w2) =>
          delete cfg0 urlparse_path0 alice 2 world4 = (Return tt, w2) /\ fs w2 = fs w1 /\
          user_files w2
          = List.filter (fun row => negb (models.matches "alice" "/data/alice/tmp/in.txt" row))
              (user_files world4)
      end
  end.
Proof.
  apply (C4_delete_then_unregister cfg0 urlparse_path0 alice 2 alices_record
           "/data/alice/tmp/in.txt" world4); reflexivity.
Defined.

(** ** C5 *)

(** C5, as stated, fails: the duplicate shares the original's metadata
    dictionary, and writing to it through the duplicate changes what the
    original reads. *)
Lemma C5_counterexample :
  exists cp w1 w2,
    _save_copy_of_data_product cfg0 alice "/data/alice/tmp/in.txt" 3 world5 = (Return cp, w1) /\
    cp <> 3 /\
    fst (read_metadata 3 "mime-type" w1) = Return (Some "text/csv") /\
    set_metadata cp "mime-type" "text/plain" w1 = (Return tt, w2) /\
    fst (read_metadata 3 "mime-type" w2) = Return (Some "text/plain").
Proof.
  do 3 eexists. split; [vm_compute; reflexivity|].
  split; [discriminate|]. split; [vm_compute; reflexivity|].
  split; vm_compute; reflexivity.
Qed.

(** C5, amended.  The duplicate is a shallow copy.  It is a new record
    whose identifier is cleared before submission, whose owner is the acting
    user and whose replica list is a new list holding one new replica that
    points at the new full path; it is submitted to the catalog, a PathIndex
    row is added, and it then carries the identifier the catalog returned.
    Assigning to the duplicate's attributes or appending to its replica list
    changes no object that existed before.  The metadata dictionary is not
    copied: the duplicate refers to the original's, and writing to it
    through the duplicate changes the original's metadata. *)
Theorem C5_duplicate_is_a_shallow_copy
    (cfg : settings) (req : request) (full_path : string) (dp : loc)
    (prod : DataProductModel) (w : world) :
  heap w !! dp = Some (CProduct prod) ->
  catalog_fault w = None -> db_fault w = None ->
  (forall m, productMetadata prod = Some m -> exists d, heap w !! m = Some (CDict d)) ->
  let n := length (heap w) in
  let uri := catalog_uri w (length (catalog w)) in
  let replica := gateway_replica cfg full_path (productName prod) in
  let unsaved := unsaved_copy prod (user_username req) (n + 2) in
  exists w',
    _save_copy_of_data_product cfg req full_path dp w = (Return n, w') /\
    n <> dp /\
    heap w' = heap w ++ [CProduct (with_productUri (Some uri) unsaved); CReplica replica;
                         CList [n + 1]] /\
    productUri unsaved = None /\
    ownerName unsaved = user_username req /\
    filePath replica
    = Some ("file://" +:+ GATEWAY_DATA_STORE_HOSTNAME cfg +:+ ":" +:+ full_path) /\
    catalog w' = catalog w ++ [{| sub_product := unsaved;
                                  sub_metadata := metadata_of (heap w) prod;
                                  sub_replicas := [replica] |}] /\
    user_files w' = user_files w ++ [{| username := user_username req;
                                        file_path := full_path; file_dpu := uri |}] /\
    (forall f x r w'',
       pyheap.update_product n f w' = (r, w'') \/ append_replica n x w' = (r, w'') ->
       forall l, l < n -> heap w'' !! l = heap w !! l) /\
    productMetadata unsaved = productMetadata prod /\
    (forall m d k v,
       productMetadata prod = Some m -> heap w !! m = Some (CDict d) ->
       exists w'', set_metadata n k v w' = (Return tt, w'') /\
                   heap w'' !! m = Some (CDict (<[k := v]> d)) /\
                   fst (read_metadata dp k w'') = Return (Some v)).
Proof.
  intros Hdp Hcf Hdf Hmd n uri replica unsaved.
  eexists. split;
    [exact (save_copy_of_data_product_spec cfg req full_path dp prod w Hdp Hcf Hdf Hmd)|].
  assert (Hlt : dp < n) by (apply lookup_lt_Some in Hdp; exact Hdp).
  split; [lia|]. simpl heap. simpl catalog. simpl user_files.
  subst unsaved replica uri. unfold n in *. clear n.
  repeat (split; [reflexivity|]). split; [|split; [reflexivity|]].
  - intros f x r w'' [H|H] l Hl.
    + revert H. unfold pyheap.update_product, pyheap.get_product, bind, modify. simpl.
      rewrite lookup_ext0. simpl. intros H; inversion H; subst; clear H. simpl.
      rewrite list_lookup_insert_ne by lia. apply lookup_app_l. exact Hl.
    + revert H. unfold append_replica, pyheap.list_append, pyheap.get_list,
        pyheap.get_product, bind, modify. simpl.
      rewrite lookup_ext0. simpl. rewrite (lookup_ext (heap w) _ 2). simpl.
      intros H; inversion H; subst; clear H. simpl.
      rewrite list_lookup_insert_ne by lia. apply lookup_app_l. exact Hl.
  - intros m d k v Hm Hd.
    assert (Hmn : m < length (heap w)) by (apply lookup_lt_Some in Hd; exact Hd).
    unfold set_metadata, read_metadata, pyheap.dict_setitem, pyheap.get_dict,
      pyheap.get_product, bind, modify, ret. simpl.
    rewrite lookup_ext0. simpl. rewrite Hm. simpl.
    rewrite (lookup_app_l_Some _ _ _ _ Hd). simpl.
    eexists. split; [reflexivity|]. simpl.
    rewrite list_lookup_insert_eq by (rewrite length_app; simpl; lia).
    split; [reflexivity|].
    destruct (decide (dp = m)) as [->|Hne]; [congruence|].
    rewrite list_lookup_insert_ne by congruence.
    rewrite (lookup_app_l_Some _ _ _ _ Hdp). simpl. rewrite Hm. simpl.
    rewrite list_lookup_insert_eq by (rewrite length_app; simpl; lia).
    simpl. rewrite lookup_insert_eq. reflexivity.
Qed.

Lemma C5_duplicate_is_a_shallow_copy_witness :
  exists w',
    _save_copy_of_data_product cfg0 alice "/data/alice/tmp/in.txt" 3 world5
    = (Return (length (heap world5)), w') /\
    fst (read_metadata 3 "mime-type" w') = Return (Some "text/csv").
Proof.
  destruct (C5_duplicate_is_a_shallow_copy cfg0 alice "/data/alice/tmp/in.txt" 3
              bobs_csv_record world5) as (w' & H & _).
  - reflexivity.
  - reflexivity.
  - reflexivity.
  - intros m Hm. inversion Hm; subst. eexists. reflexivity.
  - exists w'. split; [exact H|].
    vm_compute in H. inversion H; subst. vm_compute. reflexivity.
Defined.

(** ** C6 *)

(** C6. For a path the resolver rejects, [exists] and [dir_exists] return
    false and log a warning that carries the rejection, without raising; for
    a path it accepts they leave the world alone and return true exactly
    when the resolved path, which lies inside the user's root, is a regular
    file, respectively a directory. *)
Theorem C6_existence_queries (self : Datastore.t) (username p : string) (w : world) :
  isabs (getcwd (Datastore.conf self)) = true ->
  match Datastore.path self username p with
  | Raise e =>
      exists msg, e = SuspiciousFileOperation msg /\
        ~ inside (root self username)
            (abspath (getcwd (Datastore.conf self)) (join (root self username) p)) /\
        Datastore.exists_ self username p w = (Return false, warn username msg w) /\
        Datastore.dir_exists self username p w = (Return false, warn username msg w)
  | Return full =>
      inside (root self username) full /\
      Datastore.exists_ self username p w = (Return (os.isfile (fs w) full), w) /\
      Datastore.dir_exists self username p w = (Return (os.isdir (fs w) full), w)
  end.
Proof.
  intros Habs. destruct (Datastore.path self username p) as [full|e] eqn:E.
  - split.
    + apply (path_Return (Datastore._user_data_storage self username) p full Habs E).
    + split; [apply exists_Return|apply dir_exists_Return]; exact E.
  - destruct (path_Raise_kind _ _ _ E) as [msg ->]. exists msg. split; [reflexivity|].
    split; [exact (path_Raise (Datastore._user_data_storage self username) p _ Habs E)|].
    split; [apply exists_Raise|apply dir_exists_Raise]; exact E.
Qed.

Lemma C6_existence_queries_witness :
  isabs (getcwd (Datastore.conf ds0)) = true /\
  (exists msg,
     Datastore.exists_ ds0 "alice" "../bob/tmp/in.txt" world0
     = (Return false, warn "alice" msg world0) /\
     Datastore.dir_exists ds0 "alice" "../bob/tmp/in.txt" world0
     = (Return false, warn "alice" msg world0)) /\
  Datastore.exists_ ds0 "alice" "tmp/in.txt" world0 = (Return true, world0) /\
  Datastore.dir_exists ds0 "alice" "tmp" world0 = (Return true, world0).
Proof.
  split; [reflexivity|].
  pose proof (C6_existence_queries ds0 "alice" "../bob/tmp/in.txt" world0 eq_refl) as H1.
  pose proof (C6_existence_queries ds0 "alice" "tmp/in.txt" world0 eq_refl) as H2.
  pose proof (C6_existence_queries ds0 "alice" "tmp" world0 eq_refl) as H3.
  split; [|split].
  - destruct (Datastore.path ds0 "alice" "../bob/tmp/in.txt") as [full|e] eqn:E;
      [vm_compute in E; discriminate|].
    destruct H1 as (msg & _ & _ & Ha & Hb). exists msg. split; assumption.
  - change (Datastore.path ds0 "alice" "tmp/in.txt")
      with (@Return string "/data/alice/tmp/in.txt") in H2.
    destruct H2 as (_ & Ha & _). rewrite Ha. reflexivity.
  - change (Datastore.path ds0 "alice" "tmp") with (@Return string "/data/alice/tmp") in H3.
    destruct H3 as (_ & _ & Hb). rewrite Hb. reflexivity.
Defined.

(** ** C7 *)




(** ** C8 *)



(** ** C9 *)



(** ** C10 *)

(** C10.  When the user's root is a directory, the empty path resolves to
    the root, [dir_exists] of it is true, and [delete_dir] of it returns
    having removed the root and everything below it and nothing else.
    [delete_dir] does the same with whatever directory its path resolves to:
    nothing in it tells the root from a subdirectory. *)
Theorem C10_delete_dir_of_empty_path (self : Datastore.t) (username : string) (w : world) :
  isabs (getcwd (Datastore.conf self)) = true ->
  os.isdir (fs w) (root self username) = true ->
  Datastore.path self username "" = Return (root self username) /\
  Datastore.dir_exists self username "" w = (Return true, w) /\
  (exists w',
     Datastore.delete_dir self username "" w = (Return tt, w') /\
     (forall k, os.in_subtree (root self username) k = true -> fs w' !! k = None) /\
     (forall k, os.in_subtree (root self username) k = false -> fs w' !! k = fs w !! k)) /\
  (forall p r, Datastore.path self username p = Return r -> os.isdir (fs w) r = true ->
     Datastore.delete_dir self username p w
     = (Return tt, set_fs (filter (fun kv => os.in_subtree r kv.1 = false)) w)).
Proof.
  intros Habs Hd.
  assert (Hp : Datastore.path self username "" = Return (root self username))
    by exact (path_empty (Datastore._user_data_storage self username) Habs).
  split; [exact Hp|].
  split; [rewrite (dir_exists_Return _ _ _ _ _ Hp), Hd; reflexivity|].
  split.
  - eexists. split; [apply delete_dir_removes; eassumption|]. simpl. split; intros k Hk.
    + apply map_lookup_filter_None. right. intros x _ Hx. simpl in Hx. congruence.
    + destruct (fs w !! k) as [x|] eqn:F.
      * apply map_lookup_filter_Some. split; [exact F|exact Hk].
      * apply map_lookup_filter_None. left. exact F.
  - intros p r. apply delete_dir_removes.
Qed.

Lemma C10_delete_dir_of_empty_path_witness :
  os.isdir (fs world0) (root ds0 "alice") = true /\
  exists w',
    Datastore.delete_dir ds0 "alice" "" world0 = (Return tt, w') /\
    fs w' !! "/data/alice" = None /\
    fs w' !! "/data/alice/tmp/in.txt" = None /\
    fs w' !! "/data/bob/tmp/in.txt" = Some (File hello).
Proof.
  split; [reflexivity|].
  destruct (C10_delete_dir_of_empty_path ds0 "alice" world0 eq_refl eq_refl)
    as (_ & _ & (w' & Hd & Hin & Hout) & _).
  exists w'. split; [exact Hd|]. split; [|split].
  - apply Hin. reflexivity.
  - apply Hin. reflexivity.
  - rewrite Hout by reflexivity. reflexivity.
Defined.

(** * Further properties *)

Lemma storage_only_refl w : storage_only w w.
Proof. unfold storage_only. destruct w; reflexivity. Qed.

Lemma storage_only_trans w1 w2 w3 :
  storage_only w1 w2 -> storage_only w2 w3 -> storage_only w1 w3.
Proof.
  unfold storage_only. intros E1 E2. destruct w1, w2, w3. simpl in *.
  unfold set_rand, set_fs in *. simpl in *. inversion E1; inversion E2; subst. reflexivity.
Qed.

Lemma grows_storage_only w w' : grows w w' -> storage_only w w'.
Proof.
  intros [E _]. unfold storage_only. destruct w, w'. simpl in *.
  unfold set_fs in E. simpl in E. inversion E; subst. reflexivity.
Qed.

Lemma draws_storage_only w w' : draws w w' -> storage_only w w'.
Proof.
  intros [E _]. unfold storage_only. destruct w, w'. simpl in *.
  unfold set_rand in E. simpl in E. inversion E; subst. reflexivity.
Qed.

Lemma keeps_entries_refl w : keeps_entries w w.
Proof. intros k v H. exact H. Qed.

Lemma keeps_entries_trans w1 w2 w3 :
  keeps_entries w1 w2 -> keeps_entries w2 w3 -> keeps_entries w1 w3.
Proof. intros H1 H2 k v H. apply H2, H1, H. Qed.

Lemma grows_keeps_entries w w' : grows w w' -> keeps_entries w w'.
Proof. intros Hg k v H. exact (grows_keeps _ _ _ _ Hg H). Qed.

Lemma draws_keeps_entries w w' : draws w w' -> keeps_entries w w'.
Proof. intros Hd k v H. rewrite (draws_fs _ _ Hd). exact H. Qed.

(** Whatever its outcome, the loop of [get_available_name] only draws
    random strings. *)
Lemma get_available_name_loop_draws n st dir_name file_root file_ext name w r w' :
  django.get_available_name_loop n st dir_name file_root file_ext name w = (r, w') ->
  draws w w'.
Proof.
  revert name w. induction n as [|k IH]; intros name w; simpl; unfold bind at 1.
  - destruct (django.path st name) as [full|e] eqn:Hp.
    + rewrite (django_exists_Return _ _ _ w Hp).
      destruct (os.path_exists (fs w) full); intros H; inversion H; subst; apply draws_refl.
    + rewrite (django_exists_Raise _ _ _ w Hp). intros H; inversion H; subst. apply draws_refl.
  - destruct (django.path st name) as [full|e] eqn:Hp.
    + rewrite (django_exists_Return _ _ _ w Hp).
      destruct (os.path_exists (fs w) full).
      * unfold bind, django.get_random_string.
        destruct (rand w) as [|s rest] eqn:R.
        -- intros H; inversion H; subst. apply draws_refl.
        -- intros H. apply IH in H.
           refine (draws_trans _ _ _ _ H).
           split; [destruct w; reflexivity|]. exists [s]. simpl. rewrite R. reflexivity.
      * intros H; inversion H; subst. apply draws_refl.
    + rewrite (django_exists_Raise _ _ _ w Hp). intros H; inversion H; subst. apply draws_refl.
Qed.

Lemma get_available_name_draws st name w r w' :
  django.get_available_name st name w = (r, w') -> draws w w'.
Proof.
  unfold django.get_available_name.
  destruct (split name) as [dir_name file_name].
  destruct (splitext file_name) as [file_root file_ext].
  unfold bind, get. apply get_available_name_loop_draws.
Qed.

(** Whatever its outcome, the loop of [_save] has written at most one file,
    at a path a name resolves to and where nothing was. *)
Lemma _save_loop_adds n st name full content w r w' :
  django.path st name = Return full ->
  django._save_loop n st name full content w = (r, w') ->
  storage_only w w' /\
  (fs w' = fs w \/
   exists p nm, django.path st nm = Return p /\ fs w !! p = None /\
                fs w' = <[p := File (fo_content content)]> (fs w)).
Proof.
  revert name full w. induction n as [|k IH]; intros name full w Hp; simpl;
    unfold try_except, bind, os.create_excl.
  - destruct (fs w !! full) eqn:F.
    + unfold raise. intros H; inversion H; subst. split; [apply storage_only_refl|auto].
    + destruct (fs w !! dirname full) as [[c|]|]; intros H; inversion H; subst;
        try (split; [apply storage_only_refl|auto]).
      split; [unfold storage_only; destruct w; reflexivity|].
      right. exists full, name. auto.
  - destruct (fs w !! full) eqn:F.
    + destruct (django.get_available_name st name w) as [[name'|e] w1] eqn:Ha.
      * pose proof (get_available_name_draws _ _ _ _ _ Ha) as Hd.
        unfold django.lift. destruct (django.path st name') as [full'|e] eqn:Hp'.
        -- intros H. destruct (IH _ _ _ Hp' H) as [Hs Hf].
           split; [exact (storage_only_trans _ _ _ (draws_storage_only _ _ Hd) Hs)|].
           rewrite (draws_fs _ _ Hd) in Hf. exact Hf.
        -- intros H; inversion H; subst.
           split; [exact (draws_storage_only _ _ Hd)|]. left. exact (draws_fs _ _ Hd).
      * pose proof (get_available_name_draws _ _ _ _ _ Ha) as Hd.
        intros H; inversion H; subst.
        split; [exact (draws_storage_only _ _ Hd)|]. left. exact (draws_fs _ _ Hd).
    + destruct (fs w !! dirname full) as [[c|]|]; intros H; inversion H; subst;
        try (split; [apply storage_only_refl|auto]).
      split; [unfold storage_only; destruct w; reflexivity|].
      right. exists full, name. auto.
Qed.

Lemma grows_adds_dirs w w' : grows w w' -> adds_dirs (fs w) (fs w').
Proof. intros [_ H]. exact H. Qed.

Lemma adds_dirs_refl t : adds_dirs t t.
Proof. intros k. left. reflexivity. Qed.

Lemma adds_dirs_keeps t t' k v : adds_dirs t t' -> t !! k = Some v -> t' !! k = Some v.
Proof. intros H Hk. destruct (H k) as [A|[A _]]; congruence. Qed.

(** Whatever its outcome, [FileSystemStorage.save] has made directories and
    written at most one file, where nothing was. *)
Lemma django_save_adds st name content w r w' :
  django.save st name content w = (r, w') ->
  storage_only w w' /\
  exists t, adds_dirs (fs w) t /\
    (fs w' = t \/
     exists p nm, django.path st nm = Return p /\ t !! p = None /\
                  fs w' = <[p := File (fo_content content)]> t).
Proof.
  unfold django.save, bind.
  destruct (django.get_available_name st name w) as [[name'|e] w1] eqn:Ha;
    pose proof (get_available_name_draws _ _ _ _ _ Ha) as Hd.
  2:{ intros H; inversion H; subst. split; [exact (draws_storage_only _ _ Hd)|].
      exists (fs w). split; [apply adds_dirs_refl|]. left. exact (draws_fs _ _ Hd). }
  assert (Hback : forall wx, grows w1 wx -> adds_dirs (fs w) (fs wx)).
  { intros wx Hg. rewrite <- (draws_fs _ _ Hd). apply grows_adds_dirs, Hg. }
  unfold django._save, bind, django.lift.
  destruct (django.path st name') as [full|e] eqn:Hp.
  2:{ intros H; inversion H; subst. split; [exact (draws_storage_only _ _ Hd)|].
      exists (fs w'). split; [apply Hback, grows_refl|]. left. reflexivity. }
  unfold try_except.
  destruct (os.makedirs true (dirname full) w1) as [[[]|e] w2] eqn:Hm;
    pose proof (makedirs_rec_spec _ _ _ _ _ _ Hm) as [Hg _].
  2:{ assert (Hs : storage_only w w2)
        by exact (storage_only_trans _ _ _ (draws_storage_only _ _ Hd)
                    (grows_storage_only _ _ Hg)).
      destruct e; unfold raise; intros H; inversion H; subst;
        (split; [exact Hs|]); exists (fs w'); (split; [apply Hback, Hg|]); left; reflexivity. }
  unfold get.
  destruct (django._save_loop (S (length (rand w2))) st name' full content w2)
    as [[nm|e] w3] eqn:Hl;
    destruct (_save_loop_adds _ _ _ _ _ _ _ _ Hp Hl) as [Hs3 Hf];
    unfold ret; intros H; inversion H; subst;
    (split; [exact (storage_only_trans _ _ _
                      (storage_only_trans _ _ _ (draws_storage_only _ _ Hd)
                         (grows_storage_only _ _ Hg)) Hs3)|]);
    exists (fs w2); (split; [apply Hback, Hg|]); exact Hf.
Qed.

Lemma adds_file_keeps t t' p x k v :
  adds_dirs t t' -> t' !! p = None -> t !! k = Some v -> (<[p := x]> t') !! k = Some v.
Proof.
  intros Ha Hp Hk. pose proof (adds_dirs_keeps _ _ _ _ Ha Hk) as Hk'.
  rewrite lookup_insert_ne; [exact Hk'|]. intros ->. congruence.
Qed.

(** Whatever its outcome, [_Datastore.save] has made directories and written
    at most one file, inside the user's root and where nothing was. *)
Lemma datastore_save_adds self u path_ file name w r w' :
  isabs (getcwd (Datastore.conf self)) = true ->
  Datastore.save self u path_ file name w = (r, w') ->
  storage_only w w' /\ keeps_entries w w' /\
  exists t, adds_dirs (fs w) t /\
    (fs w' = t \/
     exists p, inside (root self u) p /\ t !! p = None /\
               fs w' = <[p := File (fo_content file)]> t).
Proof.
  intros Habs. unfold Datastore.save.
  set (st := Datastore._user_data_storage self u). unfold bind.
  destruct (django.save st _ file w) as [r0 w0] eqn:Hs.
  destruct (django_save_adds _ _ _ _ _ _ Hs) as (Hso & t & Ha & Hf).
  intros H. assert (w0 = w').
  { destruct r0; [rewrite lift_eq in H|]; inversion H; reflexivity. }
  subst w0. split; [exact Hso|]. split.
  - intros k v Hk. destruct Hf as [->|(p & nm & _ & Hp & ->)].
    + exact (adds_dirs_keeps _ _ _ _ Ha Hk).
    + exact (adds_file_keeps _ _ _ _ _ _ Ha Hp Hk).
  - exists t. split; [exact Ha|]. destruct Hf as [Hf|(p & nm & Hpn & Hp & Hf)]; [auto|].
    right. exists p. split; [apply (path_Return st nm p Habs Hpn)|auto].
Qed.

(** [file_move_safe] of a regular file to a path where nothing is: the file
    is renamed when the directory of the new path is there, and otherwise
    the call raises and leaves the world as it is. *)
Lemma file_move_safe_file old new c w :
  fs w !! old = Some (File c) -> fs w !! new = None ->
  django.file_move_safe old new w
  = match fs w !! dirname new with
    | Some Dir => (Return tt, set_fs (fun f => <[new := File c]> (base.delete old f)) w)
    | Some (File _) => (Raise (NotADirectoryError new), w)
    | None => (Raise (FileNotFoundError new), w)
    end.
Proof.
  intros Ho Hn.
  assert (Hne : String.eqb old new = false).
  { apply String.eqb_neq. intros ->. congruence. }
  unfold django.file_move_safe, bind, get, try_except, os.access, os.rename, os.path_exists,
    os.read_bytes, os.create_excl, ret, raise. unfold get.
  rewrite Hne, andb_false_r.
  destruct (fs w !! dirname new) as [[c'|]|] eqn:Hd;
    repeat (cbv beta iota; simpl is_OSError; rewrite ?Ho, ?Hn, ?Hne, ?Hd); reflexivity.
Qed.

(** [file_move_safe] to a path where something is raises and leaves the
    world as it is, unless both paths are the same existing path. *)
Lemma file_move_safe_taken old new x w :
  fs w !! new = Some x -> old <> new ->
  exists e, django.file_move_safe old new w = (Raise e, w).
Proof.
  intros Hn Hne.
  assert (Hb : String.eqb old new = false) by (apply String.eqb_neq; exact Hne).
  unfold django.file_move_safe, bind, get, try_except, os.access, os.rename, os.path_exists,
    os.read_bytes, os.create_excl, ret, raise. unfold get.
  rewrite Hb, andb_false_r.
  destruct (fs w !! old) as [[c|]|] eqn:Ho;
    repeat (cbv beta iota; simpl is_OSError; rewrite ?Hn, ?Ho); eauto.
Qed.

(** [_Datastore.move] of a regular file. *)
Lemma move_file_spec self su sp tu td fname src c w :
  isabs (getcwd (Datastore.conf self)) = true ->
  Datastore.path self su sp = Return src -> fs w !! src = Some (File c) ->
  match Datastore.move self su sp tu td fname w with
  | (Return tgt, w') =>
      storage_only w w' /\ inside (root self tu) tgt /\
      fs w !! tgt = None /\ os.isdir (fs w) (dirname tgt) = true /\
      fs w' = <[tgt := File c]> (base.delete src (fs w))
  | (Raise e, w') => storage_only w w' /\ fs w' = fs w
  end.
Proof.
  intros Habs Hs Hc. unfold Datastore.move.
  rewrite (bind_Return _ _ w src w) by (rewrite lift_eq, Hs; reflexivity).
  set (st := Datastore._user_data_storage self tu).
  unfold bind at 1.
  destruct (django.get_available_name st _ w) as [[nm|e] w1] eqn:Ha;
    pose proof (get_available_name_draws _ _ _ _ _ Ha) as Hd.
  2:{ split; [exact (draws_storage_only _ _ Hd)|exact (draws_fs _ _ Hd)]. }
  destruct (get_available_name_spec _ _ _ _ _ Ha) as (_ & (tgt & Hp & Hfree) & _).
  unfold Datastore.path at 1. fold st.
  rewrite (bind_Return _ _ w1 tgt w1) by (rewrite lift_eq, Hp; reflexivity).
  unfold bind.
  rewrite (file_move_safe_file src tgt c w1)
    by (rewrite (draws_fs _ _ Hd); assumption).
  rewrite (draws_fs _ _ Hd). unfold os.isdir.
  destruct (fs w !! dirname tgt) as [[c'|]|] eqn:Hdir;
    try (split; [exact (draws_storage_only _ _ Hd)|exact (draws_fs _ _ Hd)]).
  unfold ret. split.
  - refine (storage_only_trans _ _ _ (draws_storage_only _ _ Hd) _).
    unfold storage_only. destruct w1; reflexivity.
  - split; [apply (path_Return st nm tgt Habs Hp)|].
    split; [exact Hfree|]. split; [rewrite Hdir; reflexivity|].
    simpl. rewrite (draws_fs _ _ Hd). reflexivity.
Qed.

(** [create_user_dir]: a rejected path and a path where something is are
    refused with the world left as it is; otherwise directories are made,
    and when the call returns the directory is there. *)
Lemma create_user_dir_cases self u p w :
  isabs (getcwd (Datastore.conf self)) = true ->
  match Datastore.path self u p with
  | Raise e => Datastore.create_user_dir self u p w = (Raise e, w)
  | Return full =>
      if os.path_exists (fs w) full
      then Datastore.create_user_dir self u p w
           = (Raise (PyException ("Directory " +:+ p +:+ " already exists")), w)
      else exists r w', Datastore.create_user_dir self u p w = (r, w') /\ grows w w' /\
                        (r = Return tt -> os.isdir (fs w') full = true)
  end.
Proof.
  intros Habs. unfold Datastore.create_user_dir, Datastore.path.
  set (st := Datastore._user_data_storage self u).
  destruct (django.path st p) as [full|e] eqn:Hp.
  - pose proof (django_exists_Return _ _ _ w Hp) as He.
    destruct (os.path_exists (fs w) full).
    + rewrite (bind_Return _ _ _ _ _ He). reflexivity.
    + destruct (Datastore._makedirs self u p w) as [r w'] eqn:Hm.
      exists r, w'. split; [rewrite (bind_Return _ _ _ _ _ He); exact Hm|].
      destruct (_makedirs_spec self u p w r w' Habs Hm) as [Hg Hd].
      split; [exact Hg|]. intros Hr. destruct (Hd Hr) as (full' & Hp' & Hdir).
      unfold Datastore.path in Hp'. fold st in Hp'. congruence.
  - apply bind_Raise. apply django_exists_Raise. exact Hp.
Qed.

(** [_Datastore.move_external] of a regular file. *)
Lemma move_external_file_spec self ext tu td fname c w :
  isabs (getcwd (Datastore.conf self)) = true ->
  fs w !! ext = Some (File c) ->
  match Datastore.move_external self ext tu td fname w with
  | (Return tgt, w') =>
      storage_only w w' /\ inside (root self tu) tgt /\
      exists t, adds_dirs (fs w) t /\ t !! tgt = None /\ os.isdir t (dirname tgt) = true /\
                fs w' = <[tgt := File c]> (base.delete ext t)
  | (Raise e, w') => adds_dirs (fs w) (fs w')
  end.
Proof.
  intros Habs Hc. unfold Datastore.move_external.
  set (st := Datastore._user_data_storage self tu).
  unfold bind at 1.
  destruct (django.get_available_name st _ w) as [[nm|e] w1] eqn:Ha;
    pose proof (get_available_name_draws _ _ _ _ _ Ha) as Hd.
  2:{ rewrite (draws_fs _ _ Hd). apply adds_dirs_refl. }
  destruct (get_available_name_spec _ _ _ _ _ Ha) as (_ & (tgt & Hp & Hfree) & _).
  assert (Hne : ext <> tgt) by (intros ->; congruence).
  (* the target directory *)
  pose proof (create_user_dir_cases self tu td w1 Habs) as Hcr.
  destruct (Datastore.path self tu td) as [dfull|e] eqn:Hpd.
  2:{ destruct (path_Raise_kind _ _ _ Hpd) as [msg ->].
      rewrite (bind_Return _ _ w1 false (warn tu msg w1))
        by (apply dir_exists_Raise; exact Hpd).
      simpl negb. cbv iota.
      assert (Hcr' : Datastore.create_user_dir self tu td (warn tu msg w1)
                     = (Raise (SuspiciousFileOperation msg), warn tu msg w1)).
      { pose proof (create_user_dir_cases self tu td (warn tu msg w1) Habs) as H.
        rewrite Hpd in H. exact H. }
      rewrite (bind_Raise _ _ _ _ _ Hcr'). simpl. rewrite (draws_fs _ _ Hd).
      apply adds_dirs_refl. }
  rewrite (bind_Return _ _ w1 _ w1 (dir_exists_Return _ _ _ _ w1 Hpd)).
  assert (Hstep : exists r w2,
             (if negb (os.isdir (fs w1) dfull)
              then Datastore.create_user_dir self tu td else ret tt) w1 = (r, w2) /\
             grows w1 w2).
  { destruct (os.isdir (fs w1) dfull) eqn:Hdir; simpl negb; cbv iota.
    - exists (Return tt), w1. split; [reflexivity|apply grows_refl].
    - destruct (os.path_exists (fs w1) dfull).
      + eexists _, w1. split; [exact Hcr|apply grows_refl].
      + destruct Hcr as (r & w2 & H1 & H2 & _). exists r, w2. auto. }
  destruct Hstep as (r & w2 & Hstep & Hg).
  assert (Hgd : adds_dirs (fs w) (fs w2)).
  { rewrite <- (draws_fs _ _ Hd). apply grows_adds_dirs, Hg. }
  destruct r as [[]|e].
  2:{ rewrite (bind_Raise _ _ _ _ _ Hstep). exact Hgd. }
  rewrite (bind_Return _ _ _ _ _ Hstep).
  unfold Datastore.path at 1. fold st.
  rewrite (bind_Return _ _ w2 tgt w2) by (rewrite lift_eq, Hp; reflexivity).
  unfold bind.
  assert (Hc2 : fs w2 !! ext = Some (File c)) by exact (adds_dirs_keeps _ _ _ _ Hgd Hc).
  destruct (fs w2 !! tgt) as [x|] eqn:Ht.
  - destruct (file_move_safe_taken ext tgt x w2 Ht Hne) as [e ->]. exact Hgd.
  - rewrite (file_move_safe_file ext tgt c w2 Hc2 Ht).
    destruct (fs w2 !! dirname tgt) as [[c'|]|] eqn:Hdir; try exact Hgd.
    unfold ret. split.
    + refine (storage_only_trans _ _ _ (draws_storage_only _ _ Hd) _).
      refine (storage_only_trans _ _ _ (grows_storage_only _ _ Hg) _).
      unfold storage_only. destruct w2; reflexivity.
    + split; [apply (path_Return st nm tgt Habs Hp)|].
      exists (fs w2). split; [exact Hgd|]. split; [exact Ht|].
      split; [unfold os.isdir; rewrite Hdir; reflexivity|reflexivity].
Qed.

(** The path [_Datastore.move] returns resolves to itself. *)
Lemma move_returns_resolved self su sp tu td fname w tgt w' :
  isabs (getcwd (Datastore.conf self)) = true ->
  Datastore.move self su sp tu td fname w = (Return tgt, w') ->
  Datastore.path self tu tgt = Return tgt.
Proof.
  intros Habs Em. unfold Datastore.move in Em.
  apply bind_inv_Return in Em. destruct Em as (s0 & wa & _ & Em).
  apply bind_inv_Return in Em. destruct Em as (nm & wb & _ & Em).
  apply bind_inv_Return in Em. destruct Em as (t0 & wc & Hl & Em).
  rewrite lift_eq in Hl. injection Hl as Hl _.
  apply bind_inv_Return in Em. destruct Em as ([] & wd & _ & Em).
  injection Em as <- _.
  exact (path_idem (Datastore._user_data_storage self tu) _ _ Habs Hl).
Qed.

(** The loop of [_save] that returns has written one file, where the name
    it returns resolves to and where nothing was. *)
Lemma _save_loop_returns n st name full content w r w' :
  django.path st name = Return full ->
  django._save_loop n st name full content w = (Return r, w') ->
  has_backslash name = false -> no_backslashes (rand w) ->
  has_backslash r = false /\
  exists p, django.path st r = Return p /\ fs w !! p = None /\
            os.isdir (fs w) (dirname p) = true /\
            fs w' = <[p := File (fo_content content)]> (fs w).
Proof.
  revert name full w. induction n as [|k IH]; intros name full w Hp; simpl;
    unfold try_except, bind at 1, os.create_excl.
  - destruct (fs w !! full) eqn:F; [discriminate|].
    destruct (fs w !! dirname full) as [[c|]|] eqn:D; try discriminate.
    unfold ret. intros H Hn _. inversion H; subst. split; [exact Hn|].
    exists full. split; [exact Hp|]. split; [exact F|].
    split; [unfold os.isdir; rewrite D; reflexivity|reflexivity].
  - destruct (fs w !! full) eqn:F.
    + intros H Hn HF.
      apply bind_inv_Return in H. destruct H as (name' & w1 & Hav & H).
      apply bind_inv_Return in H. destruct H as (full1 & w2 & Hl & H).
      rewrite lift_eq in Hl. injection Hl as Hp1 Hw. subst w2.
      destruct (get_available_name_backslash st _ _ _ _ Hav Hn HF) as [Hn' HF'].
      pose proof (get_available_name_draws _ _ _ _ _ Hav) as Hd.
      destruct (IH name' full1 w1 Hp1 H Hn' HF') as (Hb & p & H1 & H2 & H3 & H4).
      rewrite (draws_fs _ _ Hd) in H2, H3, H4. split; [exact Hb|]. exists p. auto.
    + destruct (fs w !! dirname full) as [[c|]|] eqn:D; try discriminate.
      unfold ret. intros H Hn _. inversion H; subst. split; [exact Hn|].
      exists full. split; [exact Hp|]. split; [exact F|].
      split; [unfold os.isdir; rewrite D; reflexivity|reflexivity].
Qed.

(** [FileSystemStorage.save] that returns has made directories and written
    one file, where the name it returns resolves to and where nothing was. *)
Lemma django_save_returns st name content w r w' :
  django.save st name content w = (Return r, w') ->
  has_backslash name = false -> no_backslashes (rand w) ->
  storage_only w w' /\
  exists p t, django.path st r = Return p /\ adds_dirs (fs w) t /\ t !! p = None /\
              os.isdir t (dirname p) = true /\
              fs w' = <[p := File (fo_content content)]> t.
Proof.
  intros H Hn HF.
  split; [exact (proj1 (django_save_adds _ _ _ _ _ _ H))|].
  unfold django.save, django._save in H.
  apply bind_inv_Return in H. destruct H as (name1 & w1 & Hav & H).
  destruct (get_available_name_backslash st _ _ _ _ Hav Hn HF) as [Hn1 HF1].
  pose proof (get_available_name_draws _ _ _ _ _ Hav) as Hd.
  apply bind_inv_Return in H. destruct H as (full1 & w2 & Hl & H).
  rewrite lift_eq in Hl. injection Hl as Hp1 Hw. subst w2.
  apply bind_inv_Return in H. destruct H as ([] & w3 & Hmk & H).
  assert (Hg : grows w1 w3).
  { revert Hmk. unfold try_except, os.makedirs.
    destruct (os.makedirs_rec _ _ _ w1) as [[[]|e] wx] eqn:E.
    - intros Hx; inversion Hx; subst. apply makedirs_rec_spec in E. apply E.
    - destruct e; discriminate. }
  apply bind_inv_Return in H. destruct H as (n & w4 & Hget & H).
  injection Hget as Hn4 Hw4. subst w4 n.
  apply bind_inv_Return in H. destruct H as (name2 & w5 & Hloop & H).
  injection H as Hr Hw. subst w5.
  rewrite <- (grows_rand _ _ Hg) in HF1.
  destruct (_save_loop_returns _ _ _ _ _ _ _ _ Hp1 Hloop Hn1 HF1)
    as (Hn2 & p & Hp2 & Hfree & Hdir & Hfs).
  rewrite (replace_no_backslash _ Hn2) in Hr. subst r.
  exists p, (fs w3). split; [exact Hp2|]. split; [|auto].
  rewrite <- (draws_fs _ _ Hd). apply grows_adds_dirs, Hg.
Qed.

(** [_Datastore.save] that returns, for a directory path and random strings
    without a backslash. *)
Lemma datastore_save_returns self u path_ file name w full w' :
  isabs (getcwd (Datastore.conf self)) = true ->
  has_backslash path_ = false -> no_backslashes (rand w) ->
  Datastore.save self u path_ file name w = (Return full, w') ->
  storage_only w w' /\ inside (root self u) full /\
  exists t, adds_dirs (fs w) t /\ t !! full = None /\ os.isdir t (dirname full) = true /\
            fs w' = <[full := File (fo_content file)]> t.
Proof.
  intros Habs Hb HF H. unfold Datastore.save in H.
  set (st := Datastore._user_data_storage self u) in *.
  apply bind_inv_Return in H. destruct H as (nm & w1 & Hs & H).
  rewrite lift_eq in H. injection H as Hp Hw. subst w1.
  assert (Hnb : has_backslash
                  (join path_ (django.get_valid_name st
                                 match name with Some n => n | None => basename (fo_name file) end))
                = false)
    by (apply join_backslash; [exact Hb|apply get_valid_filename_backslash]).
  destruct (django_save_returns _ _ _ _ _ _ Hs Hnb HF) as (Hso & p & t & Hp' & Hrest).
  assert (p = full) by congruence. subst p.
  split; [exact Hso|]. split; [apply (path_Return st nm full Habs Hp)|].
  exists t. exact Hrest.
Qed.

(** [_Datastore.open] of a path that resolves to a regular file. *)
Lemma open_file_at self u p full c w :
  Datastore.path self u p = Return full -> fs w !! full = Some (File c) ->
  Datastore.open self u p w = (Return {| fo_name := full; fo_content := c |}, w).
Proof.
  intros Hp Hf. unfold Datastore.open.
  rewrite (bind_Return _ _ w true w)
    by (rewrite (exists_Return _ _ _ _ w Hp); unfold os.isfile; rewrite Hf; reflexivity).
  unfold django.open, bind, django.lift, os.read_bytes.
  unfold Datastore.path in Hp. rewrite Hp, Hf. reflexivity.
Qed.

(** [_Datastore.open] of a path that does not resolve to a regular file. *)
Lemma open_refused self u p w :
  match Datastore.path self u p with
  | Return full =>
      os.isfile (fs w) full = false ->
      Datastore.open self u p w
      = (Raise (ObjectDoesNotExist ("File path does not exist: " +:+ p)), w)
  | Raise e =>
      exists msg, e = SuspiciousFileOperation msg /\
        Datastore.open self u p w
        = (Raise (ObjectDoesNotExist ("File path does not exist: " +:+ p)), warn u msg w)
  end.
Proof.
  destruct (Datastore.path self u p) as [full|e] eqn:Hp.
  - intros Hf. unfold Datastore.open.
    rewrite (bind_Return _ _ w false w)
      by (rewrite (exists_Return _ _ _ _ w Hp), Hf; reflexivity).
    reflexivity.
  - destruct (path_Raise_kind _ _ _ Hp) as [msg ->]. exists msg. split; [reflexivity|].
    unfold Datastore.open.
    rewrite (bind_Return _ _ w false (warn u msg w)) by (apply exists_Raise; exact Hp).
    reflexivity.
Qed.

(** ** Relative paths *)

Lemma split_sep_app a s : split_sep (a +:+ String "/" s) = split_sep a ++ split_sep s.
Proof.
  induction a as [|c r IH]; simpl; [reflexivity|].
  rewrite IH. destruct (is_sep c); [reflexivity|].
  pose proof (split_sep_nonnil r) as Hne.
  destruct (split_sep r); [congruence|reflexivity].
Qed.

Lemma nonempty_comps_app a s :
  nonempty_comps (a +:+ String "/" s) = nonempty_comps a ++ nonempty_comps s.
Proof. unfold nonempty_comps. rewrite split_sep_app. apply List.filter_app. Qed.

Lemma filter_nonempty_plain comps :
  Forall plain comps -> List.filter (fun x => negb (String.eqb x "")) comps = comps.
Proof.
  induction 1 as [|c r Hc _ IH]; simpl; [reflexivity|].
  destruct (String.eqb_spec c "") as [->|_]; [destruct Hc as [Hc _]; congruence|].
  simpl. rewrite IH. reflexivity.
Qed.

Lemma nonempty_comps_join comps :
  Forall plain comps -> nonempty_comps (join_sep comps) = comps.
Proof.
  intros HF. unfold nonempty_comps. destruct comps as [|c r]; [reflexivity|].
  rewrite split_sep_join.
  - apply filter_nonempty_plain, HF.
  - congruence.
  - eapply Forall_impl; [exact HF|]. intros x (_ & _ & _ & H). exact H.
Qed.

Lemma nonempty_comps_built n comps :
  Forall plain comps -> nonempty_comps (replicate_char n "/" +:+ join_sep comps) = comps.
Proof.
  intros HF. induction n as [|k IH]; simpl.
  - apply nonempty_comps_join, HF.
  - unfold nonempty_comps in *. simpl. exact IH.
Qed.

Lemma drop_common_app l r : drop_common l (l ++ r) = ([], r).
Proof.
  induction l as [|x l IH]; simpl; [destruct r; reflexivity|].
  rewrite String.eqb_refl. exact IH.
Qed.

Lemma join_sep_app l r :
  l <> [] -> r <> [] -> join_sep (l ++ r) = join_sep l +:+ "/" +:+ join_sep r.
Proof.
  intros Hl Hr. induction l as [|x [|y l] IH]; [congruence| |].
  - destruct r; [congruence|reflexivity].
  - change (join_sep ((x :: y :: l) ++ r)) with (x +:+ "/" +:+ join_sep ((y :: l) ++ r)).
    rewrite IH by congruence.
    change (join_sep (x :: y :: l)) with (x +:+ "/" +:+ join_sep (y :: l)).
    rewrite !append_assoc. reflexivity.
Qed.

Lemma startswith_split s pre : startswith s pre = true -> exists rest, s = pre +:+ rest.
Proof.
  revert s. induction pre as [|b pre IH]; intros s H.
  - exists s. reflexivity.
  - destruct s as [|a s]; [discriminate|]. simpl in H.
    apply andb_true_iff in H. destruct H as [Hab Hs].
    apply Ascii.eqb_eq in Hab. subst b.
    destruct (IH _ Hs) as [rest ->]. exists rest. reflexivity.
Qed.

Lemma initial_slashes_built_app n comps s :
  n = 1 \/ n = 2 -> Forall plain comps -> comps <> [] ->
  initial_slashes ((replicate_char n "/" +:+ join_sep comps) +:+ s) = n.
Proof.
  intros Hn HF Hne. destruct comps as [|c rest]; [congruence|].
  inversion HF as [|? ? Hc _]; subst. destruct (plain_first_not_sep c Hc) as (a & r & -> & Ha).
  unfold is_sep in Ha. unfold initial_slashes.
  destruct Hn as [-> | ->]; destruct rest; simpl; rewrite Ha; reflexivity.
Qed.

(** A normalised path that is not a top-most one has components. *)
Lemma normal_built_nonempty b :
  normal b -> dirname b <> b ->
  exists n comps, (n = 1 \/ n = 2) /\ Forall plain comps /\ comps <> [] /\
                  b = replicate_char n "/" +:+ join_sep comps.
Proof.
  intros Hn Hd. destruct (normal_built b Hn) as (n & comps & Hc & HF & E).
  exists n, comps. split; [exact Hc|]. split; [exact HF|]. split; [|exact E].
  intros ->. apply Hd. apply (topmost_normal b Hn).
  subst b. destruct Hc as [-> | ->]; auto.
Qed.

Lemma built_endswith n comps :
  Forall plain comps -> comps <> [] ->
  endswith_sep (replicate_char n "/" +:+ join_sep comps) = false.
Proof.
  intros HF Hne. destruct comps as [|c cs _] using rev_ind; [congruence|].
  apply Forall_app in HF. destruct HF as [_ Hc]. inversion Hc as [|? ? Hp _]; subst.
  destruct cs as [|x r].
  - simpl app. unfold join_sep. apply plain_endswith, Hp.
  - rewrite join_sep_snoc by congruence. rewrite <- !append_assoc. apply plain_endswith, Hp.
Qed.

Lemma normpath_snoc_dot s :
  s <> "" -> endswith_sep s = false -> normpath (s +:+ "/.") = normpath s.
Proof.
  intros Hne He. unfold normpath.
  assert (Hi : initial_slashes (s +:+ "/.") = initial_slashes s).
  { unfold initial_slashes.
    destruct s as [|a [|b [|c r]]]; [congruence|..]; simpl in *; unfold is_sep in *.
    - rewrite He. reflexivity.
    - rewrite He. destruct (Ascii.eqb a "/"); reflexivity.
    - reflexivity. }
  rewrite Hi. change (s +:+ "/.") with (s +:+ String "/" ".").
  rewrite split_sep_app, fold_left_app. simpl.
  destruct s as [|a r]; [congruence|]. reflexivity.
Qed.

(** The components of the path relative to a root, for a path inside it. *)
Lemma inside_comps root full :
  normal root -> normal full -> dirname root <> root ->
  full = root \/ startswith full (root +:+ "/") = true ->
  exists n rc R, (n = 1 \/ n = 2) /\ Forall plain rc /\ rc <> [] /\ Forall plain R /\
    root = replicate_char n "/" +:+ join_sep rc /\
    full = replicate_char n "/" +:+ join_sep (rc ++ R).
Proof.
  intros Hr Hf Hd Hin.
  destruct (normal_built_nonempty root Hr Hd) as (n & rc & Hn & Hrc & Hne & Er).
  exists n, rc. destruct Hin as [->|Hs].
  - exists []. rewrite app_nil_r. repeat (split; [solve [auto]|]). exact Er.
  - destruct (normal_built full Hf) as (m & fc & Hm & Hfc & Ef).
    destruct (startswith_split _ _ Hs) as [rest Erest].
    assert (Emn : m = n).
    { rewrite <- (initial_slashes_built m fc Hm Hfc), <- Ef, Erest, Er.
      rewrite append_assoc. apply initial_slashes_built_app; assumption. }
    subst m.
    assert (Ec : fc = rc ++ nonempty_comps rest).
    { rewrite <- (nonempty_comps_built n fc Hfc), <- Ef, Erest.
      rewrite append_assoc. change ("/" +:+ rest) with (String "/" rest).
      rewrite nonempty_comps_app, Er, nonempty_comps_built by assumption. reflexivity. }
    exists (nonempty_comps rest). rewrite <- Ec.
    split; [exact Hn|]. split; [exact Hrc|]. split; [exact Hne|].
    split; [|auto]. rewrite Ec in Hfc. apply Forall_app in Hfc. apply Hfc.
Qed.

Lemma relpath_built cwd n rc R :
  n = 1 \/ n = 2 -> Forall plain rc -> Forall plain R ->
  relpath cwd (replicate_char n "/" +:+ join_sep (rc ++ R)) (replicate_char n "/" +:+ join_sep rc)
  = match R with [] => "." | _ => join_sep R end.
Proof.
  intros Hn Hrc HR.
  assert (HF : Forall plain (rc ++ R)) by (apply Forall_app; auto).
  unfold relpath.
  rewrite !abspath_of_normal by (apply built_normal; assumption).
  rewrite !nonempty_comps_built by assumption.
  rewrite drop_common_app. simpl. reflexivity.
Qed.

(** Inside a root that is not a top-most path, the relative path of a
    normalised path leads back to it. *)
Lemma relpath_inside cwd root full :
  normal root -> normal full -> dirname root <> root ->
  full = root \/ startswith full (root +:+ "/") = true ->
  abspath cwd (join root (relpath cwd full root)) = full /\
  isabs (relpath cwd full root) = false /\
  (relpath cwd full root = "." <-> full = root).
Proof.
  intros Hr Hf Hd Hin.
  destruct (inside_comps root full Hr Hf Hd Hin)
    as (n & rc & R & Hn & Hrc & Hne & HR & Er & Ef).
  pose proof (built_endswith n rc Hrc Hne) as Hend. rewrite <- Er in Hend.
  pose proof (normal_nonempty root Hr) as Hroot.
  assert (Erel : relpath cwd full root = match R with [] => "." | _ => join_sep R end).
  { rewrite Ef, Er. apply relpath_built; assumption. }
  rewrite Erel. clear Erel.
  destruct R as [|x R'].
  - rewrite app_nil_r in Ef. assert (full = root) by congruence. subst full.
    split; [|split; [reflexivity|split; auto]].
    unfold join. simpl startswith. cbv iota.
    destruct (String.eqb_spec root ""); [contradiction|]. rewrite Hend. simpl orb. cbv iota.
    unfold abspath.
    assert (isabs (root +:+ "/" +:+ ".") = true) as ->.
    { destruct Hr as [Ha _]. destruct root; [discriminate|]. exact Ha. }
    change (root +:+ "/" +:+ ".") with (root +:+ "/.").
    rewrite normpath_snoc_dot by assumption. rewrite H. apply Hr.
  - assert (Hx : startswith (join_sep (x :: R')) "/" = false)
      by (apply join_sep_plain_head; exact HR).
    assert (Ejoin : join root (join_sep (x :: R')) = full).
    { unfold join. rewrite Hx.
      destruct (String.eqb_spec root ""); [contradiction|]. rewrite Hend. simpl orb. cbv iota.
      rewrite Ef, Er, join_sep_app by congruence. rewrite !append_assoc. reflexivity. }
    split; [rewrite Ejoin; apply abspath_of_normal, Hf|].
    split; [exact Hx|].
    split.
    + intros E. exfalso. inversion HR as [|? ? Hp _]; subst x0 l.
      destruct R' as [|y R'']; simpl in E.
      * destruct Hp as (_ & Hp & _). congruence.
      * destruct x as [|a [|b x']]; simpl in E; discriminate.
    + intros E. exfalso. rewrite E in Ef.
      assert (Hc : nonempty_comps root = rc ++ x :: R').
      { rewrite Ef. apply nonempty_comps_built. apply Forall_app; auto. }
      rewrite Er, nonempty_comps_built in Hc by assumption.
      apply (f_equal (@length string)) in Hc. rewrite length_app in Hc. simpl in Hc. lia.
Qed.

(** ** Records *)

Lemma set_log_nil w : set_log (fun lg => lg ++ []) w = w.
Proof. destruct w. unfold set_log. simpl. rewrite app_nil_r. reflexivity. Qed.

(** Content-type resolution reads the file tree and appends to the log. *)
Lemma determine_content_type_eq guess dec full_path ct w :
  _determine_content_type guess dec full_path ct w
  = (content_type_outcome guess dec full_path ct (fs w),
     set_log (fun lg => lg ++ content_type_log guess dec full_path ct (fs w)) w).
Proof.
  unfold content_type_outcome, content_type_log.
  assert (Hc : match ct with Some _ => ct | None => guess full_path end
               = candidate_type guess full_path ct) by (destruct ct; reflexivity).
  unfold _determine_content_type. rewrite Hc. fold octet_stream.
  destruct (match candidate_type guess full_path ct with
            | None => true | Some ct => String.eqb ct octet_stream end);
    [|rewrite set_log_nil; reflexivity].
  unfold try_except, bind, os.read_bytes.
  destruct (fs w !! full_path) as [[c|]|]; try (rewrite set_log_nil; reflexivity).
  destruct (dec c); [rewrite set_log_nil|]; reflexivity.
Qed.

Lemma create_data_product_spec cfg guess dec user full_path name ct w :
  let n := length (heap w) in
  let lg := content_type_log guess dec full_path ct (fs w) in
  _create_data_product cfg guess dec user full_path name ct w
  = match content_type_outcome guess dec full_path ct (fs w) with
    | Return t =>
        (Return n,
         set_log (fun l => l ++ lg)
           (set_heap (fun h => h ++ new_record cfg user full_path name t None n) w))
    | Raise e =>
        (Raise e,
         set_log (fun l => l ++ lg)
           (set_heap (fun h => h ++ [CProduct (file_product cfg user
                                                 (product_name full_path name)
                                                 None None None)]) w))
    end.
Proof.
  intros n lg. subst n lg.
  unfold _create_data_product. unfold bind at 1. unfold pyheap.alloc at 1.
  unfold bind at 1. rewrite determine_content_type_eq. simpl fs.
  destruct (content_type_outcome guess dec full_path ct (fs w)) as [[t|]|e];
    [| |reflexivity];
    destruct w as [fs0 h uf dbf cat curi cf lg rnd]; simpl;
    unfold _create_replica_location, pyheap.update_product, pyheap.alloc, pyheap.get_product,
      bind, ret, modify, set_log, set_heap, new_record, file_product, product_name; simpl;
    heap_simpl; unfold set_heap; simpl; heap_simpl.
  - unfold with_replicaLocations, with_productMetadata. simpl.
    replace (length h + 2 + 1) with (length h + 3) by lia. reflexivity.
  - unfold with_replicaLocations. simpl.
    replace (length h + 1 + 1) with (length h + 2) by lia. reflexivity.
Qed.

(** [_save_data_product], by what the catalog and the database do. *)
Lemma save_data_product_spec cfg guess dec req full_path name ct t w :
  content_type_outcome guess dec full_path ct (fs w) = Return t ->
  let n := length (heap w) in
  let uri := catalog_uri w (length (catalog w)) in
  let user := user_username req in
  let lg := content_type_log guess dec full_path ct (fs w) in
  let created :=
    set_log (fun l => l ++ lg)
      (set_heap (fun h => h ++ new_record cfg user full_path name t None n) w) in
  _save_data_product cfg guess dec req full_path name ct w
  = match catalog_fault w with
    | Some e => (Raise e, created)
    | None =>
        match db_fault w with
        | Some e =>
            (Raise e,
             set_catalog (fun c => c ++ [new_submission cfg user full_path name t n]) created)
        | None =>
            (Return n,
             {| fs := fs w;
                heap := heap w ++ new_record cfg user full_path name t (Some uri) n;
                user_files := user_files w ++ [{| username := user; file_path := full_path;
                                                  file_dpu := uri |}];
                db_fault := None;
                catalog := catalog w ++ [new_submission cfg user full_path name t n];
                catalog_uri := catalog_uri w; catalog_fault := None;
                log := log w ++ lg; rand := rand w |})
        end
    end.
Proof.
  intros Ht n uri user lg created. subst n uri user lg created.
  unfold _save_data_product. unfold bind at 1.
  rewrite create_data_product_spec, Ht.
  destruct w as [fs0 h uf dbf cat curi cf lg rnd]. simpl.
  unfold _register_data_product, airavata_client.registerDataProduct, bind at 1. simpl.
  unfold bind at 1. unfold get at 1. simpl.
  destruct cf as [e|]; [reflexivity|].
  destruct t as [t|];
    unfold airavata_client.snapshot,
      models.save_row, models.query, pyheap.update_product, pyheap.get_product,
      pyheap.get_list, pyheap.get_dict, pyheap.mapM, pyheap.get_replica,
      bind, ret, get, modify, raise, set_heap, set_log, set_catalog, set_user_files,
      new_record, new_submission; simpl;
    heap_simpl; destruct dbf as [e|]; simpl; heap_simpl; reflexivity.
Qed.

Lemma replica_url_nonempty cfg full_path : String.eqb (replica_url cfg full_path) "" = false.
Proof. reflexivity. Qed.

(** A new record is located at the URL written for its path. *)
Lemma get_replica_filepath_new cfg url user full_path name t uri h w :
  heap w = h ++ new_record cfg user full_path name t uri (length h) ->
  _get_replica_filepath url (length h) w
  = (Return (Some (url (replica_url cfg full_path))), w).
Proof.
  intros Hh. destruct w as [fs0 h0 uf dbf cat curi cf lg rnd]. simpl in Hh. subst h0.
  unfold _get_replica_filepath, pyheap.get_product, pyheap.get_list, pyheap.mapM,
    pyheap.get_replica, bind, ret.
  destruct t as [t|]; unfold new_record; simpl; heap_simpl; reflexivity.
Qed.

Lemma get_product_new cfg user full_path name t uri h w :
  heap w = h ++ new_record cfg user full_path name t uri (length h) ->
  exists md l,
    pyheap.get_product (length h) w
    = (Return (file_product cfg user (product_name full_path name) uri md l), w).
Proof.
  intros Hh. unfold pyheap.get_product. rewrite Hh.
  destruct t as [t|]; unfold new_record; heap_simpl; eauto.
Qed.

(** ** Copying, and directories asked for by path *)

Lemma copy_of_file self su sp tu tp name src c w :
  Datastore.path self su sp = Return src -> fs w !! src = Some (File c) ->
  Datastore.copy self su sp tu tp name w
  = Datastore.save self tu tp {| fo_name := src; fo_content := c |} name w.
Proof.
  intros Hp Hf. unfold Datastore.copy.
  rewrite (bind_Return _ _ _ _ _ (open_file_at self su sp src c w Hp Hf)). reflexivity.
Qed.


(** [_Datastore.delete] and [_Datastore.delete_dir], by what the path
    resolves to. *)
Lemma delete_of_file self u p full c w :
  Datastore.path self u p = Return full -> fs w !! full = Some (File c) -> p <> "" ->
  Datastore.delete self u p w = (Return tt, set_fs (base.delete full) w).
Proof.
  intros Hp Hf Hne.
  destruct (datastore_delete_cases self u p w)
    as [(full' & c' & Hp' & _ & H) | (e & w1 & H & _)].
  - rewrite H. congruence.
  - exfalso. revert H. unfold Datastore.delete.
    rewrite (bind_Return _ _ w _ w (exists_Return _ _ _ _ w Hp)).
    unfold os.isfile. rewrite Hf. unfold django.delete.
    destruct (String.eqb_spec p ""); [contradiction|].
    unfold Datastore.path in Hp. unfold bind, django.lift, try_except, get. rewrite Hp.
    unfold os.isdir, os.remove. rewrite Hf. cbv beta iota. rewrite Hf. discriminate.
Qed.

Lemma delete_refused self u p full w :
  Datastore.path self u p = Return full -> os.isfile (fs w) full = false ->
  Datastore.delete self u p w
  = (Raise (ObjectDoesNotExist ("File path does not exist: " +:+ p)), w).
Proof.
  intros Hp Hf. unfold Datastore.delete.
  rewrite (bind_Return _ _ w _ w (exists_Return _ _ _ _ w Hp)). rewrite Hf. reflexivity.
Qed.

Lemma delete_dir_refused self u p full w :
  Datastore.path self u p = Return full -> os.isdir (fs w) full = false ->
  Datastore.delete_dir self u p w
  = (Raise (ObjectDoesNotExist ("File path does not exist: " +:+ p)), w).
Proof.
  intros Hp Hf. unfold Datastore.delete_dir.
  rewrite (bind_Return _ _ w _ w (dir_exists_Return _ _ _ _ w Hp)). rewrite Hf. reflexivity.
Qed.

Lemma delete_rejected self u p msg w :
  Datastore.path self u p = Raise (SuspiciousFileOperation msg) ->
  Datastore.delete self u p w
  = (Raise (ObjectDoesNotExist ("File path does not exist: " +:+ p)), warn u msg w) /\
  Datastore.delete_dir self u p w
  = (Raise (ObjectDoesNotExist ("File path does not exist: " +:+ p)), warn u msg w).
Proof.
  intros Hp. unfold Datastore.delete, Datastore.delete_dir.
  rewrite (bind_Return _ _ w _ _ (exists_Raise _ _ _ _ w Hp)).
  rewrite (bind_Return _ _ w _ _ (dir_exists_Raise _ _ _ _ w Hp)). split; reflexivity.
Qed.

(** ** [rel_path] *)

Lemma path_of_final st name name' full :
  django.path st name = Return full ->
  abspath (django.cwd st) (join (django.location st) name') = full ->
  django.path st name' = Return full.
Proof.
  unfold django.path, django.safe_join. intros H E.
  set (base := abspath (django.cwd st) (django.location st)) in *.
  set (f := abspath (django.cwd st) (join (django.location st) name)) in *.
  assert (Hf : f = full).
  { destruct (negb (startswith f (base +:+ "/")) && negb (String.eqb f base)
              && negb (String.eqb (dirname base) base)); [discriminate|].
    injection H as ->. reflexivity. }
  rewrite Hf in H. rewrite E. exact H.
Qed.

Lemma rel_path_spec self u p full :
  isabs (getcwd (Datastore.conf self)) = true ->
  dirname (root self u) <> root self u ->
  Datastore.path self u p = Return full ->
  let rel := relpath (getcwd (Datastore.conf self)) full (root self u) in
  Datastore.rel_path self u p = Return rel /\
  Datastore.path self u rel = Return full /\
  Datastore.rel_path self u rel = Return rel /\
  isabs rel = false /\
  (rel = "." <-> full = root self u).
Proof.
  intros Habs Htop Hp rel.
  set (st := Datastore._user_data_storage self u).
  assert (Hrel : Datastore.rel_path self u p = Return rel).
  { unfold Datastore.rel_path. rewrite Hp, (root_resolves self u Habs). reflexivity. }
  destruct (path_Return st p full Habs Hp) as (_ & Hn & Hin).
  assert (Hin' : full = root self u \/ startswith full (root self u +:+ "/") = true).
  { destruct Hin as [H|[H|H]]; [auto|auto|contradiction]. }
  destruct (relpath_inside (getcwd (Datastore.conf self)) (root self u) full
              (location_normal st Habs) Hn Htop Hin') as (Hback & Hnabs & Hdot).
  assert (Hp2 : Datastore.path self u rel = Return full)
    by exact (path_of_final st p rel full Hp Hback).
  split; [exact Hrel|]. split; [exact Hp2|].
  split; [|split; [exact Hnabs|exact Hdot]].
  unfold Datastore.rel_path. rewrite Hp2, (root_resolves self u Habs). reflexivity.
Qed.

(** ** Where a saved file lands *)

Lemma draws_no_seps w w' : draws w w' -> no_seps (rand w) -> no_seps (rand w').
Proof. intros [_ [u H]] HF. rewrite H in HF. apply Forall_app in HF. apply HF. Qed.

Lemma get_available_name_in_dir st x leaf w r w' :
  plain x -> plain leaf -> no_seps (rand w) ->
  django.get_available_name st (join x leaf) w = (Return r, w') ->
  no_seps (rand w') /\ exists leaf', plain leaf' /\ r = join x leaf'.
Proof.
  intros Hx Hl HF H.
  destruct (get_available_name_spec st _ _ _ _ H) as (Hd & _ & Hform).
  split; [exact (draws_no_seps _ _ Hd HF)|].
  destruct Hform as [[-> _]|(_ & s & Hin & ->)]; [eauto|].
  rewrite alternative_name_join by assumption.
  exists (alternative_leaf leaf s). split; [|reflexivity].
  apply alternative_leaf_plain; [apply Hl|].
  unfold no_seps in HF. rewrite Forall_forall in HF. apply HF.
  apply list_elem_of_In. exact Hin.
Qed.

Lemma _save_loop_in_dir n st x leaf full content w r w' :
  plain x -> plain leaf -> no_seps (rand w) ->
  django._save_loop n st (join x leaf) full content w = (Return r, w') ->
  exists leaf', plain leaf' /\ r = join x leaf'.
Proof.
  intros Hx. revert leaf full w. induction n as [|k IH]; intros leaf full w Hl HF; simpl;
    unfold try_except, bind at 1, os.create_excl.
  - destruct (fs w !! full) eqn:F; [discriminate|].
    destruct (fs w !! dirname full) as [[c|]|] eqn:D; try discriminate.
    unfold ret. intros H. inversion H; subst. eauto.
  - destruct (fs w !! full) eqn:F.
    + intros H.
      apply bind_inv_Return in H. destruct H as (name' & w1 & Hav & H).
      apply bind_inv_Return in H. destruct H as (full1 & w2 & Hlift & H).
      rewrite lift_eq in Hlift. injection Hlift as Hp1 Hw. subst w2.
      destruct (get_available_name_in_dir st x leaf w name' w1 Hx Hl HF Hav)
        as (HF1 & leaf1 & Hl1 & ->).
      exact (IH leaf1 full1 w1 Hl1 HF1 H).
    + destruct (fs w !! dirname full) as [[c|]|] eqn:D; try discriminate.
      unfold ret. intros H. inversion H; subst. eauto.
Qed.

Lemma plain_no_backslash_join x leaf :
  has_backslash x = false -> has_backslash leaf = false ->
  has_backslash (join x leaf) = false.
Proof. apply join_backslash. Qed.

Lemma django_save_in_dir st x v content w r w' :
  plain x -> plain v -> no_seps (rand w) ->
  has_backslash x = false -> has_backslash v = false -> no_backslashes (rand w) ->
  django.save st (join x v) content w = (Return r, w') ->
  exists leaf, plain leaf /\ r = join x leaf.
Proof.
  intros Hx Hv HS Hbx Hbv HB H.
  assert (Hn : has_backslash (join x v) = false) by (apply join_backslash; assumption).
  unfold django.save, django._save in H.
  apply bind_inv_Return in H. destruct H as (name1 & w1 & Hav & H).
  destruct (get_available_name_backslash st _ _ _ _ Hav Hn HB) as [Hn1 HB1].
  destruct (get_available_name_in_dir st x v w name1 w1 Hx Hv HS Hav) as (HS1 & leaf1 & Hl1 & ->).
  apply bind_inv_Return in H. destruct H as (full1 & w2 & Hl & H).
  rewrite lift_eq in Hl. injection Hl as Hp1 Hw. subst w2.
  apply bind_inv_Return in H. destruct H as ([] & w3 & Hmk & H).
  assert (Hg : grows w1 w3).
  { revert Hmk. unfold try_except, os.makedirs.
    destruct (os.makedirs_rec _ _ _ w1) as [[[]|e] wx] eqn:E.
    - intros Hx'; inversion Hx'; subst. apply makedirs_rec_spec in E. apply E.
    - destruct e; discriminate. }
  apply bind_inv_Return in H. destruct H as (n & w4 & Hget & H).
  injection Hget as Hn4 Hw4. subst w4 n.
  apply bind_inv_Return in H. destruct H as (name2 & w5 & Hloop & H).
  injection H as Hr Hw. subst w5.
  rewrite <- (grows_rand _ _ Hg) in HS1, HB1.
  destruct (_save_loop_returns _ _ _ _ _ _ _ _ Hp1 Hloop Hn1 HB1) as (Hn2 & _).
  destruct (_save_loop_in_dir _ _ _ _ _ _ _ _ _ Hx Hl1 HS1 Hloop) as (leaf2 & Hl2 & ->).
  rewrite (replace_no_backslash _ Hn2) in Hr. subst r. eauto.
Qed.

(** A file saved into a directory named by one plain component lands in
    that directory of the user's root. *)
Lemma datastore_save_in_dir self u x file name w full w' :
  isabs (getcwd (Datastore.conf self)) = true ->
  plain x -> has_backslash x = false ->
  plain (django.get_valid_filename
           match name with Some n => n | None => basename (fo_name file) end) ->
  no_seps (rand w) -> no_backslashes (rand w) ->
  Datastore.save self u x file name w = (Return full, w') ->
  exists leaf, plain leaf /\ full = child (child (root self u) x) leaf.
Proof.
  intros Habs Hx Hbx Hv HS HB H. unfold Datastore.save in H.
  set (st := Datastore._user_data_storage self u) in *.
  apply bind_inv_Return in H. destruct H as (nm & w1 & Hs & H).
  rewrite lift_eq in H. injection H as Hp Hw. subst w1.
  unfold django.get_valid_name in Hs.
  destruct (django_save_in_dir st x _ file w nm w' Hx Hv HS Hbx
              (get_valid_filename_backslash _) HB Hs) as (leaf & Hl & ->).
  exists leaf. split; [exact Hl|].
  rewrite (path_child2 st x leaf Habs Hx Hl) in Hp. injection Hp as <-. reflexivity.
Qed.

(** The path of an entry of a first-level directory, relative to the root. *)
Lemma relpath_child2 cwd root x leaf :
  normal root -> plain x -> plain leaf ->
  relpath cwd (child (child root x) leaf) root = x +:+ "/" +:+ leaf /\
  dirname (relpath cwd (child (child root x) leaf) root) = x.
Proof.
  intros Hr Hx Hl.
  destruct (normal_built root Hr) as (n & rc & Hn & Hrc & ->).
  rewrite (child_built n rc x Hn Hrc Hx).
  rewrite (child_built n (rc ++ [x]) leaf Hn) by (try apply Forall_app; auto).
  rewrite <- app_assoc. simpl app.
  rewrite relpath_built by (auto; repeat constructor; assumption).
  change (join_sep [x; leaf]) with (x +:+ "/" +:+ leaf).
  split; [reflexivity|].
  rewrite <- (join_plain x leaf Hx Hl). unfold dirname.
  rewrite (split_join_plain x leaf Hx Hl). reflexivity.
Qed.

(** ** Registered files *)

(** [_save_data_product] that returns. *)
Lemma save_data_product_inv cfg guess dec req full_path name ct w dp w' :
  _save_data_product cfg guess dec req full_path name ct w = (Return dp, w') ->
  exists t,
    content_type_outcome guess dec full_path ct (fs w) = Return t /\
    catalog_fault w = None /\ db_fault w = None /\ dp = length (heap w) /\
    let uri := catalog_uri w (length (catalog w)) in
    let user := user_username req in
    w' = {| fs := fs w;
            heap := heap w ++ new_record cfg user full_path name t (Some uri) (length (heap w));
            user_files := user_files w ++ [{| username := user; file_path := full_path;
                                              file_dpu := uri |}];
            db_fault := None;
            catalog := catalog w
                       ++ [new_submission cfg user full_path name t (length (heap w))];
            catalog_uri := catalog_uri w; catalog_fault := None;
            log := log w ++ content_type_log guess dec full_path ct (fs w);
            rand := rand w |}.
Proof.
  intros H.
  destruct (content_type_outcome guess dec full_path ct (fs w)) as [t|e] eqn:Ht.
  - rewrite (save_data_product_spec cfg guess dec req full_path name ct t w Ht) in H.
    destruct (catalog_fault w) as [e|] eqn:Hc; [discriminate|].
    destruct (db_fault w) as [e|] eqn:Hd; [discriminate|].
    injection H as <- <-. exists t. auto.
  - exfalso. revert H. unfold _save_data_product. unfold bind at 1.
    rewrite create_data_product_spec, Ht. discriminate.
Qed.

Lemma lookup_new_file t full x : (<[full := x]> t : gmap string node) !! full = Some x.
Proof. apply lookup_insert_eq. Qed.

(** What [save] has done when it returns. *)
Lemma save_inv cfg guess dec req path_ file name ct w dp w' :
  isabs (getcwd cfg) = true ->
  has_backslash path_ = false -> no_backslashes (rand w) ->
  save cfg guess dec req path_ file name ct w = (Return dp, w') ->
  exists full w1 t tree,
    Datastore.save (datastore cfg) (user_username req) path_ file name w = (Return full, w1) /\
    inside (root (datastore cfg) (user_username req)) full /\
    Datastore.path (datastore cfg) (user_username req) full = Return full /\
    adds_dirs (fs w) tree /\ tree !! full = None /\
    fs w' = <[full := File (fo_content file)]> tree /\
    dp = length (heap w) /\
    heap w' = heap w ++ new_record cfg (user_username req) full name t
                          (Some (catalog_uri w (length (catalog w)))) (length (heap w)) /\
    user_files w' = user_files w ++ [{| username := user_username req; file_path := full;
                                        file_dpu := catalog_uri w (length (catalog w)) |}] /\
    catalog w' = catalog w ++ [new_submission cfg (user_username req) full name t
                                 (length (heap w))] /\
    db_fault w' = None /\ catalog_fault w' = None /\
    content_type_outcome guess dec full ct (fs w1) = Return t.
Proof.
  intros Habs Hb HB H. unfold save in H.
  apply bind_inv_Return in H. destruct H as (full & w1 & Hs & H).
  destruct (datastore_save_returns (datastore cfg) _ _ _ _ _ _ _ Habs Hb HB Hs)
    as (Hso & Hin & tree & Ha & Hfree & _ & Hfs).
  destruct (save_data_product_inv _ _ _ _ _ _ _ _ _ _ H) as (t & Ht & Hcf & Hdf & Hdp & Hw).
  assert (Hrec : heap w1 = heap w /\ catalog w1 = catalog w /\ user_files w1 = user_files w /\
                 catalog_uri w1 = catalog_uri w).
  { unfold storage_only in Hso. rewrite Hso. auto. }
  destruct Hrec as (Hh & Hc & Hu & Hcu).
  exists full, w1, t, tree. split; [exact Hs|]. split; [exact Hin|].
  split.
  { unfold Datastore.save in Hs.
    apply bind_inv_Return in Hs. destruct Hs as (nm & wx & _ & Hs).
    rewrite lift_eq in Hs. injection Hs as Hp _.
    exact (path_idem (Datastore._user_data_storage (datastore cfg) (user_username req)) _ _ Habs Hp). }
  split; [exact Ha|]. split; [exact Hfree|].
  cbv zeta in Hw. rewrite Hw. simpl. rewrite Hh, Hc, Hu, Hcu. rewrite Hh in Hdp. repeat (split; [solve [auto]|]). exact Ht.
Qed.

(** ** Saving under a name that is free, or taken once *)





Lemma content_type_outcome_file guess dec full_path ct t c :
  t !! full_path = Some (File c) ->
  exists r, content_type_outcome guess dec full_path ct t = Return r.
Proof.
  intros Hf. unfold content_type_outcome. rewrite Hf.
  destruct (match candidate_type guess full_path ct with
            | None => true | Some x => String.eqb x octet_stream end); [|eauto].
  destruct (dec c); eauto.
Qed.


(** ** Files *)

(** X1.  Whatever its outcome, [_Datastore.save] removes nothing and
    overwrites nothing: every entry of the file tree is still there,
    unchanged.  What is new is directories and at most one file, which holds
    the bytes of the file object and lies inside the user's root where
    nothing was.  Outside the tree only the supply of random strings has
    changed. *)
Theorem X1_save_only_adds
    (self : Datastore.t) (u path_ : string) (file : fileobj) (name : option string)
    (w : world) :
  isabs (getcwd (Datastore.conf self)) = true ->
  let w' := snd (Datastore.save self u path_ file name w) in
  storage_only w w' /\ keeps_entries w w' /\
  exists t, adds_dirs (fs w) t /\
    (fs w' = t \/
     exists p, inside (root self u) p /\ t !! p = None /\
               fs w' = <[p := File (fo_content file)]> t).
Proof.
  intros Habs w'. subst w'.
  destruct (Datastore.save self u path_ file name w) as [r w'] eqn:E.
  exact (datastore_save_adds self u path_ file name w r w' Habs E).
Qed.

Lemma X1_save_only_adds_witness :
  isabs (getcwd (Datastore.conf ds0)) = true /\
  fst (Datastore.save ds0 "alice" "tmp" {| fo_name := "in.txt"; fo_content := [] |} None world0)
  = Return "/data/alice/tmp/in_Xq3kLm9.txt" /\
  keeps_entries world0
    (snd (Datastore.save ds0 "alice" "tmp" {| fo_name := "in.txt"; fo_content := [] |} None
            world0)).
Proof.
  split; [reflexivity|]. split; [vm_compute; reflexivity|].
  apply (X1_save_only_adds ds0 "alice" "tmp" {| fo_name := "in.txt"; fo_content := [] |} None
           world0 eq_refl).
Defined.



(** X3.  [_Datastore.move] of a regular file either relocates it or leaves
    the file tree as it is.  When it returns, the path it returns lies
    inside the target user's root, nothing was there, its directory was
    there already (the call makes none), and the tree is the old one with
    the file taken from the source path and put at the returned path.  When
    it raises, the tree is unchanged.  Either way only the tree and the
    supply of random strings can have changed. *)
Theorem X3_move_relocates_or_leaves
    (self : Datastore.t) (su sp tu td fname src : string) (c : bytes) (w : world) :
  isabs (getcwd (Datastore.conf self)) = true ->
  Datastore.path self su sp = Return src -> fs w !! src = Some (File c) ->
  match Datastore.move self su sp tu td fname w with
  | (Return tgt, w') =>
      storage_only w w' /\ inside (root self tu) tgt /\
      fs w !! tgt = None /\ os.isdir (fs w) (dirname tgt) = true /\
      fs w' = <[tgt := File c]> (base.delete src (fs w))
  | (Raise e, w') => storage_only w w' /\ fs w' = fs w
  end.
Proof. exact (move_file_spec self su sp tu td fname src c w). Qed.

Lemma X3_move_relocates_or_leaves_witness :
  exists w',
    Datastore.move ds0 "alice" "tmp/in.txt" "bob" "tmp" "in.txt" world0
    = (Return "/data/bob/tmp/in_Xq3kLm9.txt", w') /\
    fs w' = <["/data/bob/tmp/in_Xq3kLm9.txt" := File hello]>
              (base.delete "/data/alice/tmp/in.txt" (fs world0)) /\
    fst (Datastore.move ds0 "alice" "tmp/in.txt" "bob" "outbox" "in.txt" world0)
    = Raise (FileNotFoundError "/data/bob/outbox/in.txt").
Proof.
  pose proof (X3_move_relocates_or_leaves ds0 "alice" "tmp/in.txt" "bob" "tmp" "in.txt"
                "/data/alice/tmp/in.txt" hello world0 eq_refl eq_refl eq_refl) as H.
  destruct (Datastore.move ds0 "alice" "tmp/in.txt" "bob" "tmp" "in.txt" world0)
    as [[tgt|e] w'] eqn:E; [|vm_compute in E; discriminate].
  assert (tgt = "/data/bob/tmp/in_Xq3kLm9.txt") by (vm_compute in E; congruence). subst tgt.
  exists w'. split; [reflexivity|]. split; [apply H|]. vm_compute. reflexivity.
Defined.

(** X4.  [_Datastore.move_external] of a regular file, from any path
    whatever: when it returns, the path it returns lies inside the target
    user's root, and the tree is the old one with directories added (the
    target directory is made when it is not there), the file taken from the
    external path and put at the returned path, where nothing was.  When it
    raises, the tree is the old one with directories added at most: the
    external file is still in place. *)
Theorem X4_move_external_takes_the_file_in
    (self : Datastore.t) (ext tu td fname : string) (c : bytes) (w : world) :
  isabs (getcwd (Datastore.conf self)) = true ->
  fs w !! ext = Some (File c) ->
  match Datastore.move_external self ext tu td fname w with
  | (Return tgt, w') =>
      storage_only w w' /\ inside (root self tu) tgt /\
      exists t, adds_dirs (fs w) t /\ t !! tgt = None /\ os.isdir t (dirname tgt) = true /\
                fs w' = <[tgt := File c]> (base.delete ext t)
  | (Raise e, w') => adds_dirs (fs w) (fs w') /\ fs w' !! ext = Some (File c)
  end.
Proof.
  intros Habs Hc.
  pose proof (move_external_file_spec self ext tu td fname c w Habs Hc) as H.
  destruct (Datastore.move_external self ext tu td fname w) as [[tgt|e] w']; [exact H|].
  split; [exact H|]. exact (adds_dirs_keeps _ _ _ _ H Hc).
Qed.

Lemma X4_move_external_takes_the_file_in_witness :
  exists w',
    Datastore.move_external ds0 "/var/spool/up.dat" "alice" "inbox/new" "up.dat" world0
    = (Return "/data/alice/inbox/new/up.dat", w') /\
    fs w' !! "/data/alice/inbox/new/up.dat" = Some (File hello) /\
    fs w' !! "/var/spool/up.dat" = None /\
    os.isdir (fs w') "/data/alice/inbox" = true.
Proof.
  pose proof (X4_move_external_takes_the_file_in ds0 "/var/spool/up.dat" "alice" "inbox/new"
                "up.dat" hello world0 eq_refl eq_refl) as H.
  destruct (Datastore.move_external ds0 "/var/spool/up.dat" "alice" "inbox/new" "up.dat" world0)
    as [[tgt|e] w'] eqn:E; [|vm_compute in E; discriminate].
  assert (tgt = "/data/alice/inbox/new/up.dat") by (vm_compute in E; congruence). subst tgt.
  destruct H as (_ & _ & t & Ha & Hfree & _ & Hfs).
  exists w'. split; [reflexivity|]. split; [rewrite Hfs; apply lookup_insert_eq|].
  assert (Ew : w' = snd (Datastore.move_external ds0 "/var/spool/up.dat" "alice" "inbox/new"
                           "up.dat" world0)) by (rewrite E; reflexivity).
  split; rewrite Ew; vm_compute; reflexivity.
Defined.

(** X5.  [_Datastore.copy] reads the source through [open] and hands the
    file object to [save].  A source path that the resolver rejects, or
    that resolves to no regular file, makes the call raise
    [ObjectDoesNotExist] with the tree as it was.  For a source that is a
    regular file, a target directory path and random strings without a
    backslash, a call that returns has written the source's bytes at the
    path it returns, inside the target user's root and where nothing was;
    the source and every other entry are as they were. *)
Theorem X5_copy_keeps_the_source
    (self : Datastore.t) (su sp tu tp : string) (name : option string) (w : world) :
  isabs (getcwd (Datastore.conf self)) = true ->
  has_backslash tp = false -> no_backslashes (rand w) ->
  match Datastore.path self su sp with
  | Return src =>
      match fs w !! src with
      | Some (File c) =>
          Datastore.copy self su sp tu tp name w
          = Datastore.save self tu tp {| fo_name := src; fo_content := c |} name w /\
          forall tgt w',
            Datastore.copy self su sp tu tp name w = (Return tgt, w') ->
            fs w !! tgt = None /\ fs w' !! tgt = Some (File c) /\
            fs w' !! src = Some (File c) /\
            inside (root self tu) tgt /\ keeps_entries w w' /\ storage_only w w'
      | _ =>
          Datastore.copy self su sp tu tp name w
          = (Raise (ObjectDoesNotExist ("File path does not exist: " +:+ sp)), w)
      end
  | Raise e =>
      exists msg, e = SuspiciousFileOperation msg /\
        Datastore.copy self su sp tu tp name w
        = (Raise (ObjectDoesNotExist ("File path does not exist: " +:+ sp)), warn su msg w)
  end.
Proof.
  intros Habs Hb HB.
  pose proof (open_refused self su sp w) as Hop.
  destruct (Datastore.path self su sp) as [src|e] eqn:Hp.
  - destruct (fs w !! src) as [[c|]|] eqn:Hf.
    + pose proof (copy_of_file self su sp tu tp name src c w Hp Hf) as Ec.
      split; [exact Ec|]. intros tgt w' H. rewrite Ec in H.
      destruct (datastore_save_returns self tu tp _ name w tgt w' Habs Hb HB H)
        as (Hso & Hin & t & Ha & Hfree & _ & Hfs).
      destruct (datastore_save_adds self tu tp _ name w _ w' Habs H) as (_ & Hk & _).
      assert (Hnone : fs w !! tgt = None).
      { destruct (Ha tgt) as [E|[E _]]; [rewrite <- E; exact Hfree|exact E]. }
      split; [exact Hnone|]. split; [rewrite Hfs; apply lookup_insert_eq|].
      split; [exact (Hk _ _ Hf)|]. auto.
    + unfold Datastore.copy. rewrite (bind_Raise _ _ _ _ _ (Hop ltac:(unfold os.isfile; rewrite Hf; reflexivity))).
      reflexivity.
    + unfold Datastore.copy. rewrite (bind_Raise _ _ _ _ _ (Hop ltac:(unfold os.isfile; rewrite Hf; reflexivity))).
      reflexivity.
  - destruct Hop as (msg & -> & Hop). exists msg. split; [reflexivity|].
    unfold Datastore.copy. rewrite (bind_Raise _ _ _ _ _ Hop). reflexivity.
Qed.

Lemma X5_copy_keeps_the_source_witness :
  exists w',
    Datastore.copy ds0 "bob" "tmp/in.txt" "alice" "tmp" None world0
    = (Return "/data/alice/tmp/in_Xq3kLm9.txt", w') /\
    fs w' !! "/data/alice/tmp/in_Xq3kLm9.txt" = Some (File hello) /\
    fs w' !! "/data/bob/tmp/in.txt" = Some (File hello) /\
    keeps_entries world0 w'.
Proof.
  assert (HB : no_backslashes (rand world0)) by (repeat constructor).
  pose proof (X5_copy_keeps_the_source ds0 "bob" "tmp/in.txt" "alice" "tmp" None world0
                eq_refl eq_refl HB) as H.
  change (Datastore.path ds0 "bob" "tmp/in.txt") with (@Return string "/data/bob/tmp/in.txt") in H.
  change (fs world0 !! "/data/bob/tmp/in.txt") with (Some (File hello)) in H.
  cbv iota in H. destruct H as [_ H].
  destruct (Datastore.copy ds0 "bob" "tmp/in.txt" "alice" "tmp" None world0)
    as [[tgt|e] w'] eqn:E; [|vm_compute in E; discriminate].
  assert (tgt = "/data/alice/tmp/in_Xq3kLm9.txt") by (vm_compute in E; congruence). subst tgt.
  destruct (H _ _ eq_refl) as (_ & H1 & H2 & _ & H3 & _).
  exists w'. auto.
Defined.

(** ** Directories *)





(** X8.  [rel_path] and [path] are inverse to each other on what [path]
    returns.  For a user's root that is not a top-most path, and a path
    that resolves to [full]: [rel_path] returns the path of [full] relative
    to the root, which is not absolute, resolves to [full] again, is its
    own relative path, and is "." exactly when [full] is the root. *)
Theorem X8_rel_path_leads_back
    (self : Datastore.t) (u p full : string) :
  isabs (getcwd (Datastore.conf self)) = true ->
  dirname (root self u) <> root self u ->
  Datastore.path self u p = Return full ->
  exists rel,
    Datastore.rel_path self u p = Return rel /\
    Datastore.path self u rel = Return full /\
    Datastore.rel_path self u rel = Return rel /\
    isabs rel = false /\
    (rel = "." <-> full = root self u).
Proof.
  intros Habs Htop Hp. eexists. exact (rel_path_spec self u p full Habs Htop Hp).
Qed.

Lemma X8_rel_path_leads_back_witness :
  Datastore.rel_path ds0 "alice" "/data/alice/tmp/../tmp/in.txt" = Return "tmp/in.txt" /\
  Datastore.path ds0 "alice" "tmp/in.txt" = Return "/data/alice/tmp/in.txt" /\
  exists rel,
    Datastore.rel_path ds0 "alice" "" = Return rel /\
    Datastore.path ds0 "alice" rel = Return "/data/alice" /\
    Datastore.rel_path ds0 "alice" rel = Return rel /\
    isabs rel = false /\
    (rel = "." <-> "/data/alice" = root ds0 "alice").
Proof.
  split; [vm_compute; reflexivity|]. split; [vm_compute; reflexivity|].
  apply (X8_rel_path_leads_back ds0 "alice" "" "/data/alice"); [reflexivity|discriminate|reflexivity].
Defined.

(** X9.  [_Datastore.delete] removes regular files only and
    [_Datastore.delete_dir] directories only.  By what the path resolves
    to: at a regular file, [delete] removes this one entry (and raises an
    assertion error, removing nothing, when the path is the empty string)
    while [delete_dir] raises; at a directory, [delete] raises while
    [delete_dir] removes the directory and all below it; where nothing is,
    and for a path the resolver rejects, both raise.  What is raised is
    [ObjectDoesNotExist] with the path as it was given, and a call that
    raises leaves the file tree as it was. *)
Theorem X9_delete_files_delete_dir_directories
    (self : Datastore.t) (u p : string) (w : world) :
  let missing := ObjectDoesNotExist ("File path does not exist: " +:+ p) in
  match Datastore.path self u p with
  | Raise e =>
      exists msg, e = SuspiciousFileOperation msg /\
        Datastore.delete self u p w = (Raise missing, warn u msg w) /\
        Datastore.delete_dir self u p w = (Raise missing, warn u msg w)
  | Return full =>
      match fs w !! full with
      | Some (File c) =>
          Datastore.delete self u p w
          = (if String.eqb p ""
             then (Raise (AssertionError "The name argument is not allowed to be empty."), w)
             else (Return tt, set_fs (base.delete full) w)) /\
          Datastore.delete_dir self u p w = (Raise missing, w)
      | Some Dir =>
          Datastore.delete self u p w = (Raise missing, w) /\
          Datastore.delete_dir self u p w
          = (Return tt, set_fs (filter (fun kv => os.in_subtree full kv.1 = false)) w)
      | None =>
          Datastore.delete self u p w = (Raise missing, w) /\
          Datastore.delete_dir self u p w = (Raise missing, w)
      end
  end.
Proof.
  intros missing. subst missing.
  destruct (Datastore.path self u p) as [full|e] eqn:Hp.
  - destruct (fs w !! full) as [[c|]|] eqn:Hf.
    + split.
      * destruct (String.eqb_spec p "") as [->|Hne].
        -- unfold Datastore.delete.
           rewrite (bind_Return _ _ w true w)
             by (rewrite (exists_Return _ _ _ _ w Hp); unfold os.isfile; rewrite Hf;
                 reflexivity).
           reflexivity.
        -- exact (delete_of_file self u p full c w Hp Hf Hne).
      * apply (delete_dir_refused self u p full w Hp). unfold os.isdir. rewrite Hf. reflexivity.
    + split.
      * apply (delete_refused self u p full w Hp). unfold os.isfile. rewrite Hf. reflexivity.
      * apply (delete_dir_removes self u p full w Hp). unfold os.isdir. rewrite Hf. reflexivity.
    + split.
      * apply (delete_refused self u p full w Hp). unfold os.isfile. rewrite Hf. reflexivity.
      * apply (delete_dir_refused self u p full w Hp). unfold os.isdir. rewrite Hf. reflexivity.
  - destruct (path_Raise_kind _ _ _ Hp) as [msg ->]. exists msg. split; [reflexivity|].
    exact (delete_rejected self u p msg w Hp).
Qed.

(** ** Identifiers of registered files *)

Lemma filter_matches_snoc user full_path rows uri :
  List.filter (models.matches user full_path)
    (rows ++ [{| username := user; file_path := full_path; file_dpu := uri |}])
  = List.filter (models.matches user full_path) rows
    ++ [{| username := user; file_path := full_path; file_dpu := uri |}].
Proof.
  rewrite List.filter_app. simpl. unfold models.matches at 2. simpl.
  rewrite !String.eqb_refl. reflexivity.
Qed.

Lemma get_data_product_uri_found cfg guess dec req full_path row rest w :
  db_fault w = None ->
  List.filter (models.matches (user_username req) full_path) (user_files w) = row :: rest ->
  _get_data_product_uri cfg guess dec req full_path w = (Return (Some (file_dpu row)), w).
Proof.
  intros Hd Hf. unfold _get_data_product_uri, models.filter_, models.query, bind, get.
  rewrite Hd, Hf. reflexivity.
Qed.

Lemma get_data_product_uri_new cfg guess dec req full_path t w :
  db_fault w = None -> catalog_fault w = None ->
  List.filter (models.matches (user_username req) full_path) (user_files w) = [] ->
  content_type_outcome guess dec full_path None (fs w) = Return t ->
  let uri := catalog_uri w (length (catalog w)) in
  let user := user_username req in
  _get_data_product_uri cfg guess dec req full_path w
  = (Return (Some uri),
     {| fs := fs w;
        heap := heap w ++ new_record cfg user full_path None t (Some uri) (length (heap w));
        user_files := user_files w ++ [{| username := user; file_path := full_path;
                                          file_dpu := uri |}];
        db_fault := None;
        catalog := catalog w ++ [new_submission cfg user full_path None t (length (heap w))];
        catalog_uri := catalog_uri w; catalog_fault := None;
        log := log w ++ content_type_log guess dec full_path None (fs w);
        rand := rand w |}).
Proof.
  intros Hd Hc Hf Ht uri user. subst uri user.
  unfold _get_data_product_uri. unfold bind at 1.
  unfold models.filter_, models.query, bind at 1, get at 1. rewrite Hd.
  unfold get. rewrite Hf.
  pose proof (save_data_product_spec cfg guess dec req full_path None None t w Ht) as Hs.
  cbv zeta in Hs. rewrite Hc, Hd in Hs.
  rewrite (bind_Return _ _ _ _ _ Hs).
  unfold bind, pyheap.get_product, ret. simpl heap.
  destruct t as [t|]; unfold new_record; heap_simpl; reflexivity.
Qed.

(** ** Records *)

(** X10.  [_save_data_product], once the content type is resolved, builds
    the record in new objects, submits it to the catalog while its
    identifier is still unset, writes the row (user, path, identifier) and
    only then sets the identifier.  Nothing is rolled back: when the
    catalog client raises, neither the catalog nor the table has changed;
    when the database raises, the catalog has the record and the table has
    no row for it.  The file tree and the objects that existed before are
    never touched. *)
Theorem X10_registration_is_not_atomic
    (cfg : settings) (guess_type : string -> option string) (decodes_as_text : bytes -> bool)
    (req : request) (full_path : string) (name content_type t : option string) (w : world) :
  fst (_determine_content_type guess_type decodes_as_text full_path content_type w) = Return t ->
  let n := length (heap w) in
  let uri := catalog_uri w (length (catalog w)) in
  let user := user_username req in
  let sub := new_submission cfg user full_path name t n in
  let row := {| username := user; file_path := full_path; file_dpu := uri |} in
  exists r w',
    _save_data_product cfg guess_type decodes_as_text req full_path name content_type w
    = (r, w') /\
    fs w' = fs w /\ (forall l, l < n -> heap w' !! l = heap w !! l) /\
    match catalog_fault w, db_fault w with
    | Some e, _ => r = Raise e /\ catalog w' = catalog w /\ user_files w' = user_files w
    | None, Some e =>
        r = Raise e /\ catalog w' = catalog w ++ [sub] /\ user_files w' = user_files w
    | None, None =>
        r = Return n /\ catalog w' = catalog w ++ [sub] /\
        user_files w' = user_files w ++ [row] /\
        heap w' = heap w ++ new_record cfg user full_path name t (Some uri) n
    end.
Proof.
  intros Ht n uri user sub row. subst n uri user sub row.
  rewrite determine_content_type_eq in Ht. simpl in Ht.
  rewrite (save_data_product_spec cfg guess_type decodes_as_text req full_path name
             content_type t w Ht).
  assert (Hold : forall x l, l < length (heap w) -> (heap w ++ x) !! l = heap w !! l).
  { intros x l Hl. apply lookup_app_l. exact Hl. }
  destruct (catalog_fault w) as [e|] eqn:Hc.
  - eexists _, _. split; [reflexivity|]. simpl. auto.
  - destruct (db_fault w) as [e|] eqn:Hd.
    + eexists _, _. split; [reflexivity|]. simpl. auto.
    + eexists _, _. split; [reflexivity|]. simpl. auto 6.
Qed.

Lemma X10_registration_is_not_atomic_witness :
  exists w',
    _save_data_product cfg0 guess0 (fun _ => true) alice "/data/alice/tmp/in.txt" None None
      world4 = (Raise db_down, w') /\
    length (catalog w') = 1 /\ user_files w' = user_files world4.
Proof.
  destruct (X10_registration_is_not_atomic cfg0 guess0 (fun _ => true) alice
              "/data/alice/tmp/in.txt" None None (Some "text/plain") world4 eq_refl)
    as (r & w' & E & _ & _ & H).
  change (catalog_fault world4) with (@None exn) in H.
  change (db_fault world4) with (Some db_down) in H. cbv iota in H.
  destruct H as (-> & Hc & Hu). exists w'. split; [exact E|].
  split; [rewrite Hc; reflexivity|exact Hu].
Defined.

(** X11.  [_get_data_product_uri], with the database and the catalog at
    work, looks the identifier up before it registers anything.  When the
    table has rows for the user and the path, the identifier of the first
    one is returned and nothing changes.  When it has none and the content
    type is resolved, a record is registered, so that the catalog and the
    table each gain one entry, and its identifier is returned; after that a
    second call returns the same identifier and changes nothing. *)
Theorem X11_identifier_looked_up_or_registered_once
    (cfg : settings) (guess_type : string -> option string) (decodes_as_text : bytes -> bool)
    (req : request) (full_path : string) (w : world) :
  db_fault w = None -> catalog_fault w = None ->
  match List.filter (models.matches (user_username req) full_path) (user_files w) with
  | row :: _ =>
      _get_data_product_uri cfg guess_type decodes_as_text req full_path w
      = (Return (Some (file_dpu row)), w)
  | [] =>
      forall t,
        fst (_determine_content_type guess_type decodes_as_text full_path None w) = Return t ->
        let uri := catalog_uri w (length (catalog w)) in
        exists w',
          _get_data_product_uri cfg guess_type decodes_as_text req full_path w
          = (Return (Some uri), w') /\
          fs w' = fs w /\
          user_files w' = user_files w ++ [{| username := user_username req;
                                              file_path := full_path; file_dpu := uri |}] /\
          length (catalog w') = S (length (catalog w)) /\
          _get_data_product_uri cfg guess_type decodes_as_text req full_path w'
          = (Return (Some uri), w')
  end.
Proof.
  intros Hd Hc.
  destruct (List.filter (models.matches (user_username req) full_path) (user_files w))
    as [|row rest] eqn:Hf.
  - intros t Ht uri. subst uri.
    rewrite determine_content_type_eq in Ht. simpl in Ht.
    eexists. split;
      [exact (get_data_product_uri_new cfg guess_type decodes_as_text req full_path t w
                Hd Hc Hf Ht)|].
    simpl. split; [reflexivity|]. split; [reflexivity|].
    split; [rewrite length_app; simpl; lia|].
    apply (get_data_product_uri_found cfg guess_type decodes_as_text req full_path
             {| username := user_username req; file_path := full_path;
                file_dpu := catalog_uri w (length (catalog w)) |} []); [reflexivity|].
    simpl. rewrite filter_matches_snoc, Hf. reflexivity.
  - exact (get_data_product_uri_found cfg guess_type decodes_as_text req full_path row rest w
             Hd Hf).
Qed.

Lemma X11_identifier_looked_up_or_registered_once_witness :
  exists w',
    _get_data_product_uri cfg0 guess0 (fun _ => true) alice "/data/alice/tmp/in.txt" world0
    = (Return (Some "airavata-dp://0"), w') /\
    _get_data_product_uri cfg0 guess0 (fun _ => true) alice "/data/alice/tmp/in.txt" w'
    = (Return (Some "airavata-dp://0"), w').
Proof.
  pose proof (X11_identifier_looked_up_or_registered_once cfg0 guess0 (fun _ => true) alice
                "/data/alice/tmp/in.txt" world0 eq_refl eq_refl) as H.
  change (List.filter (models.matches (user_username alice) "/data/alice/tmp/in.txt")
            (user_files world0)) with (@nil UserFiles) in H.
  cbv iota in H.
  destruct (H (Some "text/plain") eq_refl) as (w' & H1 & _ & _ & _ & H2).
  exists w'. split; [exact H1|exact H2].
Defined.

(** X12.  [user_file_exists] returns no identifier exactly for a path that
    does not lead to a regular file of the user: a path the resolver
    rejects (which is logged), a directory, or nothing.  For a regular
    file, with the database and the catalog at work, it returns an
    identifier, registering the file when the table has no row for it and
    leaving the file tree alone; a second call returns the same identifier
    and changes nothing. *)
Theorem X12_user_file_exists_registers_on_demand
    (cfg : settings) (guess_type : string -> option string) (decodes_as_text : bytes -> bool)
    (req : request) (p : string) (w : world) :
  db_fault w = None -> catalog_fault w = None ->
  match Datastore.path (datastore cfg) (user_username req) p with
  | Raise e =>
      exists msg, e = SuspiciousFileOperation msg /\
        user_file_exists cfg guess_type decodes_as_text req p w
        = (Return None, warn (user_username req) msg w)
  | Return full =>
      match fs w !! full with
      | Some (File c) =>
          exists uri w',
            user_file_exists cfg guess_type decodes_as_text req p w = (Return (Some uri), w') /\
            fs w' = fs w /\
            (exists row, In row (user_files w') /\ username row = user_username req /\
                         file_path row = full /\ file_dpu row = uri) /\
            user_file_exists cfg guess_type decodes_as_text req p w' = (Return (Some uri), w')
      | _ => user_file_exists cfg guess_type decodes_as_text req p w = (Return None, w)
      end
  end.
Proof.
  intros Hd Hc.
  destruct (Datastore.path (datastore cfg) (user_username req) p) as [full|e] eqn:Hp.
  2:{ destruct (path_Raise_kind _ _ _ Hp) as [msg ->]. exists msg. split; [reflexivity|].
      unfold user_file_exists.
      rewrite (bind_Return _ _ w _ _ (exists_Raise _ _ _ _ w Hp)). reflexivity. }
  assert (Hstep : forall w0, fs w0 = fs w ->
            forall c, fs w !! full = Some (File c) ->
            user_file_exists cfg guess_type decodes_as_text req p w0
            = _get_data_product_uri cfg guess_type decodes_as_text req full w0).
  { intros w0 Hw0 c Hf. unfold user_file_exists.
    rewrite (bind_Return _ _ w0 true w0)
      by (rewrite (exists_Return _ _ _ _ w0 Hp); unfold os.isfile; rewrite Hw0, Hf;
          reflexivity).
    rewrite (bind_Return _ _ w0 full w0) by (rewrite lift_eq, Hp; reflexivity). reflexivity. }
  destruct (fs w !! full) as [[c|]|] eqn:Hf.
  - rewrite (Hstep w eq_refl c eq_refl).
    pose proof (X := get_data_product_uri_found cfg guess_type decodes_as_text req full).
    destruct (List.filter (models.matches (user_username req) full) (user_files w))
      as [|row rest] eqn:Hrows.
    + destruct (content_type_outcome_file guess_type decodes_as_text full None (fs w) c Hf)
        as [t Ht].
      pose proof (get_data_product_uri_new cfg guess_type decodes_as_text req full t w
                    Hd Hc Hrows Ht) as Hnew. cbv zeta in Hnew.
      eexists _, _. split; [exact Hnew|]. simpl. split; [reflexivity|]. split.
      * eexists. split; [apply in_or_app; right; left; reflexivity|]. simpl. auto.
      * rewrite (fun w0 H => Hstep w0 H c eq_refl) by reflexivity.
        apply (X {| username := user_username req; file_path := full;
                    file_dpu := catalog_uri w (length (catalog w)) |} []); [reflexivity|].
        simpl. rewrite filter_matches_snoc, Hrows. reflexivity.
    + exists (file_dpu row), w. split; [exact (X row rest w Hd Hrows)|].
      split; [reflexivity|]. split.
      * exists row.
        assert (Hin : In row (List.filter (models.matches (user_username req) full)
                                (user_files w))) by (rewrite Hrows; left; reflexivity).
        apply filter_In in Hin. destruct Hin as [Hin Hm]. split; [exact Hin|].
        unfold models.matches in Hm. apply andb_true_iff in Hm. destruct Hm as [H1 H2].
        apply String.eqb_eq in H1, H2. auto.
      * rewrite (Hstep w eq_refl c eq_refl). exact (X row rest w Hd Hrows).
  - unfold user_file_exists. rewrite (bind_Return _ _ w false w)
      by (rewrite (exists_Return _ _ _ _ w Hp); unfold os.isfile; rewrite Hf; reflexivity).
    reflexivity.
  - unfold user_file_exists. rewrite (bind_Return _ _ w false w)
      by (rewrite (exists_Return _ _ _ _ w Hp); unfold os.isfile; rewrite Hf; reflexivity).
    reflexivity.
Qed.

Lemma X12_user_file_exists_registers_on_demand_witness :
  user_file_exists cfg0 guess0 (fun _ => true) alice "tmp" world0 = (Return None, world0) /\
  exists uri w',
    user_file_exists cfg0 guess0 (fun _ => true) alice "tmp/in.txt" world0
    = (Return (Some uri), w') /\
    user_file_exists cfg0 guess0 (fun _ => true) alice "tmp/in.txt" w'
    = (Return (Some uri), w').
Proof.
  pose proof (X12_user_file_exists_registers_on_demand cfg0 guess0 (fun _ => true) alice
                "tmp" world0 eq_refl eq_refl) as H1.
  pose proof (X12_user_file_exists_registers_on_demand cfg0 guess0 (fun _ => true) alice
                "tmp/in.txt" world0 eq_refl eq_refl) as H2.
  change (Datastore.path (datastore cfg0) (user_username alice) "tmp")
    with (@Return string "/data/alice/tmp") in H1.
  change (fs world0 !! "/data/alice/tmp") with (Some Dir) in H1.
  change (Datastore.path (datastore cfg0) (user_username alice) "tmp/in.txt")
    with (@Return string "/data/alice/tmp/in.txt") in H2.
  change (fs world0 !! "/data/alice/tmp/in.txt") with (Some (File hello)) in H2.
  cbv iota in H1, H2. split; [exact H1|].
  destruct H2 as (uri & w' & Ha & _ & _ & Hb). exists uri, w'. auto.
Defined.

(** ** A file and its record *)

(** Registering the file that [_Datastore.save] has just written, under
    the record name [nm]. *)
Lemma register_saved cfg guess dec req path_ file name nm ct w full w1 :
  isabs (getcwd cfg) = true ->
  has_backslash path_ = false -> no_backslashes (rand w) ->
  Datastore.save (datastore cfg) (user_username req) path_ file name w = (Return full, w1) ->
  catalog_fault w = None -> db_fault w = None ->
  exists t w',
    _save_data_product cfg guess dec req full nm ct w1 = (Return (length (heap w)), w') /\
    fs w' = fs w1 /\ fs w' !! full = Some (File (fo_content file)) /\
    heap w' = heap w ++ new_record cfg (user_username req) full nm t
                          (Some (catalog_uri w (length (catalog w)))) (length (heap w)) /\
    user_files w' = user_files w ++ [{| username := user_username req; file_path := full;
                                        file_dpu := catalog_uri w (length (catalog w)) |}] /\
    catalog w' = catalog w ++ [new_submission cfg (user_username req) full nm t
                                 (length (heap w))] /\
    db_fault w' = None /\ catalog_fault w' = None.
Proof.
  intros Habs Hb HB Hs Hc Hd.
  destruct (datastore_save_returns (datastore cfg) _ _ _ _ _ _ _ Habs Hb HB Hs)
    as (Hso & _ & tree & _ & _ & _ & Hfs).
  assert (Hrec : heap w1 = heap w /\ catalog w1 = catalog w /\ user_files w1 = user_files w /\
                 catalog_uri w1 = catalog_uri w /\ catalog_fault w1 = catalog_fault w /\
                 db_fault w1 = db_fault w).
  { unfold storage_only in Hso. rewrite Hso. simpl. auto 6. }
  destruct Hrec as (Hh & Hcat & Hu & Hcu & Hcf & Hdf).
  assert (Hfile : fs w1 !! full = Some (File (fo_content file)))
    by (rewrite Hfs; apply lookup_insert_eq).
  destruct (content_type_outcome_file guess dec full ct (fs w1) _ Hfile) as [t Ht].
  pose proof (save_data_product_spec cfg guess dec req full nm ct t w1 Ht) as Hsp.
  cbv zeta in Hsp. rewrite Hcf, Hc, Hdf, Hd, Hh, Hcat, Hu, Hcu in Hsp.
  eexists t, _. split; [exact Hsp|]. simpl. auto 8.
Qed.

Lemma save_raises cfg guess dec req path_ file name ct w e w1 :
  Datastore.save (datastore cfg) (user_username req) path_ file name w = (Raise e, w1) ->
  save cfg guess dec req path_ file name ct w = (Raise e, w1).
Proof. intros H. unfold save. apply bind_Raise. exact H. Qed.

(** [_delete_data_product] changes the table and nothing else. *)
Lemma delete_data_product_frame user full_path w r w' :
  _delete_data_product user full_path w = (r, w') ->
  w' = set_user_files (fun _ => user_files w') w.
Proof.
  destruct w as [fs0 h uf dbf cat curi cf lg rnd].
  unfold _delete_data_product, models.filter_, models.delete_matching, models.query,
    bind, get, ret, modify, raise, set_user_files. cbn.
  destruct dbf as [e|]; [intros H; inversion H; reflexivity|]. cbn.
  destruct (List.filter (models.matches user full_path) uf);
    cbn; intros H; inversion H; reflexivity.
Qed.

Lemma get_product_inv (l : loc) w p w1 :
  pyheap.get_product l w = (Return p, w1) -> heap w !! l = Some (CProduct p).
Proof.
  unfold pyheap.get_product, pyheap.dangling, raise.
  destruct (heap w !! l) as [[prod| | |]|]; try discriminate.
  intros H. injection H as -> _. reflexivity.
Qed.

(** The functions that take a record, at a record of [owner] whose replica
    is located at [p]. *)
Section located.
Variables (cfg : settings) (url : string -> string) (req : request).
Variables (dp : loc) (prod : DataProductModel) (p : string) (w : world).
Hypothesis Hloc : fst (_get_replica_filepath url dp w) = Return (Some p).
Hypothesis Hprod : heap w !! dp = Some (CProduct prod).

Lemma located_product : pyheap.get_product dp w = (Return prod, w).
Proof. unfold pyheap.get_product. rewrite Hprod. reflexivity. Qed.

Lemma located_open_file full c :
  Datastore.path (datastore cfg) (ownerName prod) p = Return full ->
  fs w !! full = Some (File c) ->
  open_file cfg url req dp w = (Return {| fo_name := full; fo_content := c |}, w).
Proof.
  intros Hp Hf. unfold open_file.
  rewrite (bind_Return _ _ _ _ _ (get_replica_filepath_eq url dp w _ Hloc)).
  rewrite (bind_Return _ _ _ _ _ located_product). simpl str_arg.
  rewrite (bind_Return _ _ w _ w) by reflexivity.
  exact (open_file_at (datastore cfg) (ownerName prod) p full c w Hp Hf).
Qed.

Lemma located_exists full :
  Datastore.path (datastore cfg) (ownerName prod) p = Return full ->
  exists_ cfg url req dp w = (Return (os.isfile (fs w) full), w).
Proof.
  intros Hp. unfold exists_.
  rewrite (bind_Return _ _ _ _ _ (get_replica_filepath_eq url dp w _ Hloc)).
  rewrite (bind_Return _ _ _ _ _ located_product). simpl str_arg.
  rewrite (bind_Return _ _ w _ w) by reflexivity.
  exact (exists_Return (datastore cfg) (ownerName prod) p full w Hp).
Qed.

Lemma located_delete full c :
  Datastore.path (datastore cfg) (ownerName prod) p = Return full ->
  fs w !! full = Some (File c) -> p <> "" -> db_fault w = None ->
  exists w',
    delete cfg url req dp w = (Return tt, w') /\
    fs w' = base.delete full (fs w) /\ heap w' = heap w /\ catalog w' = catalog w /\
    user_files w'
    = List.filter (fun row => negb (models.matches (ownerName prod) p row)) (user_files w).
Proof.
  intros Hp Hf Hne Hd. unfold delete.
  rewrite (bind_Return _ _ _ _ _ (get_replica_filepath_eq url dp w _ Hloc)).
  unfold try_except.
  rewrite (bind_Return _ _ _ _ _ located_product). simpl str_arg.
  rewrite (bind_Return _ _ w _ w) by reflexivity.
  rewrite (bind_Return _ _ _ _ _
             (delete_of_file (datastore cfg) (ownerName prod) p full c w Hp Hf Hne)).
  pose proof (delete_data_product_cases (ownerName prod) p (set_fs (base.delete full) w)) as Hc.
  simpl db_fault in Hc. rewrite Hd in Hc.
  destruct Hc as (w' & Hc & Hfs & Hhp & _ & Hu).
  assert (Hcat : catalog w' = catalog w).
  { rewrite (delete_data_product_frame _ _ _ _ _ Hc). reflexivity. }
  rewrite Hc. exists w'. split; [reflexivity|]. auto.
Qed.
End located.

(** A new record, and a copy of a record: where they are located and whose
    they are. *)
Lemma new_record_located cfg url user full name t uri h w :
  heap w = h ++ new_record cfg user full name t uri (length h) ->
  fst (_get_replica_filepath url (length h) w) = Return (Some (url (replica_url cfg full))) /\
  exists prod, heap w !! length h = Some (CProduct prod) /\ ownerName prod = user /\
               productName prod = product_name full name /\ productUri prod = uri.
Proof.
  intros Hh. split.
  - rewrite (get_replica_filepath_new cfg url user full name t uri h w Hh). reflexivity.
  - destruct (get_product_new cfg user full name t uri h w Hh) as (md & l & Hg).
    eexists. split; [exact (get_product_inv _ _ _ _ Hg)|]. repeat split.
Qed.

Lemma copy_located cfg url prod user full uri h w :
  heap w = h ++ [CProduct (with_productUri uri (unsaved_copy prod user (length h + 2)));
                 CReplica (gateway_replica cfg full (productName prod));
                 CList [length h + 1]] ->
  fst (_get_replica_filepath url (length h) w) = Return (Some (url (replica_url cfg full))) /\
  exists cp, heap w !! length h = Some (CProduct cp) /\ ownerName cp = user /\
             productName cp = productName prod /\ productUri cp = uri /\
             productMetadata cp = productMetadata prod.
Proof.
  intros Hh. split.
  - destruct w as [fs0 h0 uf dbf cat curi cf lg rnd]. simpl in Hh. subst h0.
    unfold _get_replica_filepath, pyheap.get_product, pyheap.get_list, pyheap.mapM,
      pyheap.get_replica, bind, ret. simpl. heap_simpl. reflexivity.
  - eexists. split; [rewrite Hh; heap_simpl; reflexivity|]. repeat split.
Qed.

Lemma located_is_input_file cfg url req dp leaf w :
  isabs (getcwd cfg) = true -> plain leaf ->
  let full := child (child (root (datastore cfg) (user_username req))
                       TMP_INPUT_FILE_UPLOAD_DIR) leaf in
  fst (_get_replica_filepath url dp w) = Return (Some full) ->
  is_input_file cfg url req dp w = (Return (os.isfile (fs w) full), w).
Proof.
  intros Habs Hl full Hloc.
  assert (Htmp : plain TMP_INPUT_FILE_UPLOAD_DIR) by (repeat split; discriminate).
  set (st := Datastore._user_data_storage (datastore cfg) (user_username req)).
  assert (Hp : Datastore.path (datastore cfg) (user_username req) full = Return full).
  { apply (path_idem st (join TMP_INPUT_FILE_UPLOAD_DIR leaf) full Habs).
    exact (path_child2 st _ leaf Habs Htmp Hl). }
  rewrite (is_input_file_resolved cfg url req dp full full w Habs Hloc Hp).
  destruct (relpath_child2 (getcwd cfg) (root (datastore cfg) (user_username req))
              TMP_INPUT_FILE_UPLOAD_DIR leaf (location_normal st Habs) Htmp Hl) as [_ Hd].
  fold full in Hd. rewrite Hd, String.eqb_refl, andb_true_r. reflexivity.
Qed.

(** Objects added to the store do not change where a record is located. *)
Lemma mapM_get_replica_ext refs h x w w' reps :
  heap w = h -> heap w' = h ++ x ->
  pyheap.mapM pyheap.get_replica refs w = (Return reps, w) ->
  pyheap.mapM pyheap.get_replica refs w' = (Return reps, w').
Proof.
  intros Hw Hw'. revert reps. induction refs as [|l r IH]; intros reps; simpl.
  - unfold ret. intros H; inversion H; reflexivity.
  - unfold bind, pyheap.get_replica at 1 3. rewrite Hw, Hw'.
    destruct (h !! l) as [[| rep | |]|] eqn:E; try discriminate.
    rewrite (lookup_app_l_Some _ _ _ _ E).
    pose proof (mapM_get_replica_pure r w) as Hpure.
    destruct (pyheap.mapM pyheap.get_replica r w) as [[ys|e] w1] eqn:Em; simpl in Hpure;
      subst w1; [|discriminate].
    rewrite (IH ys eq_refl). unfold ret. intros H; inversion H; reflexivity.
Qed.

Lemma get_replica_filepath_ext url dp x w w' o :
  heap w' = heap w ++ x ->
  fst (_get_replica_filepath url dp w) = Return o ->
  fst (_get_replica_filepath url dp w') = Return o.
Proof.
  intros Hw'.
  assert (Hprod : forall (l : loc) c, heap w !! l = Some c -> heap w' !! l = Some c).
  { intros l c H. rewrite Hw'. apply lookup_app_l_Some. exact H. }
  unfold _get_replica_filepath.
  destruct (pyheap.get_product dp w) as [[prod|e] w0] eqn:Eg.
  2:{ unfold bind. rewrite Eg. discriminate. }
  assert (w0 = w) by (revert Eg; unfold pyheap.get_product;
                      destruct (heap w !! dp) as [[| | |]|]; intros H; inversion H; reflexivity).
  subst w0. pose proof (Hprod _ _ (get_product_inv _ _ _ _ Eg)) as Eg'.
  rewrite (bind_Return _ _ _ _ _ Eg).
  rewrite (bind_Return _ _ w' prod w') by (unfold pyheap.get_product; rewrite Eg'; reflexivity).
  destruct (replicaLocations prod) as [l|]; [|discriminate].
  unfold pyheap.get_list at 1. unfold bind at 1.
  destruct (heap w !! l) as [[| | |refs]|] eqn:El; try discriminate.
  rewrite (bind_Return _ _ w' refs w')
    by (unfold pyheap.get_list; rewrite (Hprod _ _ El); reflexivity).
  pose proof (mapM_get_replica_pure refs w) as Hpure. unfold bind at 1.
  destruct (pyheap.mapM pyheap.get_replica refs w) as [[reps|e] w1] eqn:Em; simpl in Hpure;
    subst w1; [|discriminate].
  rewrite (bind_Return _ _ _ _ _
             (mapM_get_replica_ext refs (heap w) x w w' reps eq_refl Hw' Em)).
  destruct (match _ with [] => None | y :: _ => y end) as [s|]; [|auto].
  destruct (String.eqb s ""); auto.
Qed.

Lemma filter_unmatched_snoc user full_path rows uri :
  List.filter (fun row => negb (models.matches user full_path row))
    (rows ++ [{| username := user; file_path := full_path; file_dpu := uri |}])
  = List.filter (fun row => negb (models.matches user full_path row)) rows.
Proof.
  rewrite List.filter_app. simpl. unfold models.matches at 2. simpl.
  rewrite !String.eqb_refl. simpl. apply app_nil_r.
Qed.

(** ** A file and its record *)

(** X13.  [save] writes the file and then registers it; an exception of
    [_Datastore.save] is passed on.  When the file was written at [full],
    with the catalog and the database at work, [save] returns a new record
    and the table gains the row (user, full, identifier).  The record's
    replica is located at the URL written for [full]; when the path of this
    URL is [full] again, [open_file] on the record returns the bytes that
    were saved and [exists] on it is true. *)
Theorem X13_saved_file_is_found_through_its_record
    (cfg : settings) (url : string -> string) (guess_type : string -> option string)
    (decodes_as_text : bytes -> bool) (req : request) (path_ : string) (file : fileobj)
    (name content_type : option string) (w : world) :
  isabs (getcwd cfg) = true ->
  has_backslash path_ = false -> no_backslashes (rand w) ->
  match Datastore.save (datastore cfg) (user_username req) path_ file name w with
  | (Raise e, w1) =>
      save cfg guess_type decodes_as_text req path_ file name content_type w = (Raise e, w1)
  | (Return full, w1) =>
      catalog_fault w = None -> db_fault w = None ->
      let dp := length (heap w) in
      exists w',
        save cfg guess_type decodes_as_text req path_ file name content_type w
        = (Return dp, w') /\
        fs w' = fs w1 /\
        user_files w'
        = user_files w ++ [{| username := user_username req; file_path := full;
                              file_dpu := catalog_uri w (length (catalog w)) |}] /\
        _get_replica_filepath url dp w' = (Return (Some (url (replica_url cfg full))), w') /\
        (url (replica_url cfg full) = full ->
         open_file cfg url req dp w'
         = (Return {| fo_name := full; fo_content := fo_content file |}, w') /\
         exists_ cfg url req dp w' = (Return true, w'))
  end.
Proof.
  intros Habs Hb HB.
  destruct (Datastore.save (datastore cfg) (user_username req) path_ file name w)
    as [[full|e] w1] eqn:Hs.
  2:{ unfold save. apply bind_Raise. exact Hs. }
  intros Hc Hd dp. subst dp.
  destruct (register_saved cfg guess_type decodes_as_text req path_ file name name
              content_type w full w1 Habs Hb HB Hs Hc Hd)
    as (t & w' & Hsp & Hfs & Hfile & Hheap & Hu & _).
  exists w'. split; [unfold save; rewrite (bind_Return _ _ _ _ _ Hs); exact Hsp|].
  split; [exact Hfs|]. split; [exact Hu|].
  split; [exact (get_replica_filepath_new cfg url _ full name t _ (heap w) w' Hheap)|].
  intros Hurl.
  assert (Hp : Datastore.path (datastore cfg) (user_username req) full = Return full).
  { unfold Datastore.save in Hs.
    apply bind_inv_Return in Hs. destruct Hs as (nm & wx & _ & Hs).
    rewrite lift_eq in Hs. injection Hs as Hp _.
    exact (path_idem (Datastore._user_data_storage (datastore cfg) (user_username req))
             _ _ Habs Hp). }
  destruct (new_record_located cfg url _ full name t _ (heap w) w' Hheap)
    as (Hloc & prod & Hprod & Hown & _).
  rewrite Hurl in Hloc. rewrite <- Hown in Hp.
  split.
  - exact (located_open_file cfg url req _ prod full w' Hloc Hprod full _ Hp Hfile).
  - rewrite (located_exists cfg url req _ prod full w' Hloc Hprod full Hp).
    unfold os.isfile. rewrite Hfile. reflexivity.
Qed.

Lemma X13_saved_file_is_found_through_its_record_witness :
  exists w',
    save cfg0 guess0 (fun _ => true) alice "results"
      {| fo_name := "/up/load/report.csv"; fo_content := hello |} None None world0
    = (Return 0, w') /\
    open_file cfg0 urlparse_path0 alice 0 w'
    = (Return {| fo_name := "/data/alice/results/report.csv"; fo_content := hello |}, w') /\
    exists_ cfg0 urlparse_path0 alice 0 w' = (Return true, w').
Proof.
  assert (HB : no_backslashes (rand world0)) by (repeat constructor).
  pose proof (X13_saved_file_is_found_through_its_record cfg0 urlparse_path0 guess0
                (fun _ => true) alice "results"
                {| fo_name := "/up/load/report.csv"; fo_content := hello |} None None world0
                eq_refl eq_refl HB) as H.
  destruct (Datastore.save (datastore cfg0) (user_username alice) "results"
              {| fo_name := "/up/load/report.csv"; fo_content := hello |} None world0)
    as [[full|e] w1] eqn:E; [|vm_compute in E; discriminate].
  assert (full = "/data/alice/results/report.csv") by (vm_compute in E; congruence).
  subst full.
  destruct (H eq_refl eq_refl) as (w' & H1 & _ & _ & _ & H2).
  exists w'. split; [exact H1|]. apply H2. reflexivity.
Defined.

(** X14.  [save_input_file] stores the file in the staging directory "tmp"
    under the name of the file object, whatever [name] is; [name] only
    names the record.  For a file object whose sanitised name is a plain
    component and random strings without separator or backslash: when the
    file was written, it lies directly in root/tmp, and with the catalog and
    the database at work the call returns a new record of the user, named
    [name] or else by the file object, for which [is_input_file] is true
    once the path of the replica URL is the file's path. *)
Theorem X14_saved_input_file_is_an_input_file
    (cfg : settings) (url : string -> string) (guess_type : string -> option string)
    (decodes_as_text : bytes -> bool) (req : request) (file : fileobj)
    (name content_type : option string) (w : world) :
  isabs (getcwd cfg) = true ->
  plain (django.get_valid_filename (basename (fo_name file))) ->
  no_seps (rand w) -> no_backslashes (rand w) ->
  match Datastore.save (datastore cfg) (user_username req) TMP_INPUT_FILE_UPLOAD_DIR file None w
  with
  | (Raise e, w1) =>
      save_input_file cfg guess_type decodes_as_text req file name content_type w
      = (Raise e, w1)
  | (Return full, w1) =>
      catalog_fault w = None -> db_fault w = None ->
      let dp := length (heap w) in
      exists leaf w',
        plain leaf /\
        full = child (child (root (datastore cfg) (user_username req)) "tmp") leaf /\
        save_input_file cfg guess_type decodes_as_text req file name content_type w
        = (Return dp, w') /\
        (exists prod, heap w' !! dp = Some (CProduct prod) /\
           ownerName prod = user_username req /\
           productName prod = match name with Some n => n | None => basename (fo_name file) end) /\
        (url (replica_url cfg full) = full ->
         is_input_file cfg url req dp w' = (Return true, w'))
  end.
Proof.
  intros Habs Hv HS HB.
  assert (Htmp : plain TMP_INPUT_FILE_UPLOAD_DIR) by (repeat split; discriminate).
  destruct (Datastore.save (datastore cfg) (user_username req) TMP_INPUT_FILE_UPLOAD_DIR file
              None w) as [[full|e] w1] eqn:Hs.
  2:{ unfold save_input_file. apply bind_Raise. exact Hs. }
  intros Hc Hd dp. subst dp.
  destruct (datastore_save_in_dir (datastore cfg) (user_username req)
              TMP_INPUT_FILE_UPLOAD_DIR file None w full w1 Habs Htmp eq_refl Hv HS HB Hs)
    as (leaf & Hl & Hfull).
  set (nm := match name with Some n => n | None => basename (fo_name file) end).
  destruct (register_saved cfg guess_type decodes_as_text req TMP_INPUT_FILE_UPLOAD_DIR file
              None (Some nm) content_type w full w1 Habs eq_refl HB Hs Hc Hd)
    as (t & w' & Hsp & Hfs & Hfile & Hheap & Hu & _).
  exists leaf, w'. split; [exact Hl|]. split; [exact Hfull|].
  split; [unfold save_input_file; rewrite (bind_Return _ _ _ _ _ Hs); exact Hsp|].
  split.
  - destruct (get_product_new cfg _ full (Some nm) t _ (heap w) w' Hheap) as (md & l & Hg).
    eexists. split; [exact (get_product_inv _ _ _ _ Hg)|]. split; reflexivity.
  - intros Hurl.
    destruct (new_record_located cfg url _ full (Some nm) t _ (heap w) w' Hheap) as [Hloc _].
    rewrite Hurl, Hfull in Hloc.
    rewrite (located_is_input_file cfg url req _ leaf w' Habs Hl Hloc).
    unfold os.isfile. rewrite <- Hfull, Hfile. reflexivity.
Qed.

Lemma X14_saved_input_file_is_an_input_file_witness :
  exists w',
    save_input_file cfg0 guess0 (fun _ => true) alice
      {| fo_name := "C:/docs/in.txt"; fo_content := hello |} (Some "my input") None world0
    = (Return 0, w') /\
    fs w' !! "/data/alice/tmp/in_Xq3kLm9.txt" = Some (File hello) /\
    is_input_file cfg0 urlparse_path0 alice 0 w' = (Return true, w').
Proof.
  assert (HB : no_backslashes (rand world0)) by (repeat constructor).
  assert (HS : no_seps (rand world0)) by (repeat constructor).
  assert (Hv : plain (django.get_valid_filename (basename "C:/docs/in.txt")))
    by (repeat split; discriminate).
  pose proof (X14_saved_input_file_is_an_input_file cfg0 urlparse_path0 guess0
                (fun _ => true) alice {| fo_name := "C:/docs/in.txt"; fo_content := hello |}
                (Some "my input") None world0 eq_refl Hv HS HB) as H.
  destruct (Datastore.save (datastore cfg0) (user_username alice) TMP_INPUT_FILE_UPLOAD_DIR
              {| fo_name := "C:/docs/in.txt"; fo_content := hello |} None world0)
    as [[full|e] w1] eqn:E; [|vm_compute in E; discriminate].
  assert (full = "/data/alice/tmp/in_Xq3kLm9.txt") by (vm_compute in E; congruence).
  subst full.
  destruct (H eq_refl eq_refl) as (leaf & w' & _ & _ & H1 & _ & H2).
  exists w'. split; [exact H1|]. split; [|apply H2; reflexivity].
  assert (Ew : w' = snd (save_input_file cfg0 guess0 (fun _ => true) alice
                           {| fo_name := "C:/docs/in.txt"; fo_content := hello |}
                           (Some "my input") None world0)) by (rewrite H1; reflexivity).
  rewrite Ew. vm_compute. reflexivity.
Defined.

(** X15.  [delete] after [save] takes the file away again but not what the
    catalog was given.  When [_Datastore.save] has written the file at
    [full], the catalog and the database are at work and the path of the
    replica URL is [full]: [save] returns a record, [delete] on this record
    returns, and afterwards nothing is at [full], the file tree is the one
    before the save but for directories that were made, the table has no
    row for the user and the path, the catalog still holds the submission,
    and [exists] on the record is false. *)
Theorem X15_delete_after_save_keeps_the_catalog_entry
    (cfg : settings) (url : string -> string) (guess_type : string -> option string)
    (decodes_as_text : bytes -> bool) (req : request) (path_ : string) (file : fileobj)
    (name content_type : option string) (w : world) (full : string) (w1 : world) :
  isabs (getcwd cfg) = true ->
  has_backslash path_ = false -> no_backslashes (rand w) ->
  Datastore.save (datastore cfg) (user_username req) path_ file name w = (Return full, w1) ->
  catalog_fault w = None -> db_fault w = None ->
  url (replica_url cfg full) = full ->
  let dp := length (heap w) in
  exists w' w'',
    save cfg guess_type decodes_as_text req path_ file name content_type w = (Return dp, w') /\
    delete cfg url req dp w' = (Return tt, w'') /\
    fs w'' !! full = None /\ adds_dirs (fs w) (fs w'') /\
    user_files w''
    = List.filter (fun row => negb (models.matches (user_username req) full row))
        (user_files w) /\
    catalog w'' = catalog w' /\ length (catalog w'') = S (length (catalog w)) /\
    exists_ cfg url req dp w'' = (Return false, w'').
Proof.
  intros Habs Hb HB Hs Hc Hd Hurl dp. subst dp.
  destruct (register_saved cfg guess_type decodes_as_text req path_ file name name
              content_type w full w1 Habs Hb HB Hs Hc Hd)
    as (t & w' & Hsp & Hfs & Hfile & Hheap & Hu & Hcat & Hd' & _).
  destruct (datastore_save_returns (datastore cfg) _ _ _ _ _ _ _ Habs Hb HB Hs)
    as (_ & _ & tree & Ha & Hfree & _ & Hfs1).
  assert (Hp : Datastore.path (datastore cfg) (user_username req) full = Return full).
  { unfold Datastore.save in Hs.
    apply bind_inv_Return in Hs. destruct Hs as (nm & wx & _ & Hs).
    rewrite lift_eq in Hs. injection Hs as Hp _.
    exact (path_idem (Datastore._user_data_storage (datastore cfg) (user_username req))
             _ _ Habs Hp). }
  assert (Hne : full <> "").
  { apply normal_nonempty.
    apply (path_Return (Datastore._user_data_storage (datastore cfg) (user_username req))
             full full Habs Hp). }
  destruct (new_record_located cfg url _ full name t _ (heap w) w' Hheap)
    as (Hloc & prod & Hprod & Hown & _).
  rewrite Hurl in Hloc. rewrite <- Hown in Hp.
  destruct (located_delete cfg url req _ prod full w' Hloc Hprod full _ Hp Hfile
              Hne Hd') as (w'' & Hdel & Hfs2 & Hh2 & Hc2 & Hu2).
  rewrite Hown in Hu2.
  exists w', w''. split; [unfold save; rewrite (bind_Return _ _ _ _ _ Hs); exact Hsp|].
  split; [exact Hdel|].
  assert (Htree : fs w'' = tree).
  { rewrite Hfs2, Hfs, Hfs1. rewrite delete_insert_id by exact Hfree. reflexivity. }
  split; [rewrite Htree; exact Hfree|]. split; [rewrite Htree; exact Ha|].
  split; [rewrite Hu2, Hu; apply filter_unmatched_snoc|].
  split; [exact Hc2|]. split; [rewrite Hc2, Hcat, length_app; simpl; lia|].
  assert (Hloc2 : fst (_get_replica_filepath url (length (heap w)) w'') = Return (Some full)).
  { destruct (new_record_located cfg url _ full name t _ (heap w) w''
                ltac:(rewrite Hh2; exact Hheap)) as [H _].
    rewrite Hurl in H. exact H. }
  rewrite (located_exists cfg url req _ prod full w'' Hloc2
             ltac:(rewrite Hh2; exact Hprod) full Hp).
  unfold os.isfile. rewrite Htree, Hfree. reflexivity.
Qed.

Lemma X15_delete_after_save_keeps_the_catalog_entry_witness :
  exists w' w'',
    save cfg0 guess0 (fun _ => true) alice "tmp"
      {| fo_name := "notes.txt"; fo_content := hello |} None None world0 = (Return 0, w') /\
    delete cfg0 urlparse_path0 alice 0 w' = (Return tt, w'') /\
    fs w'' = fs world0 /\ user_files w'' = [] /\ length (catalog w'') = 1.
Proof.
  assert (HB : no_backslashes (rand world0)) by (repeat constructor).
  assert (Hs : Datastore.save (datastore cfg0) (user_username alice) "tmp"
                 {| fo_name := "notes.txt"; fo_content := hello |} None world0
               = (Return "/data/alice/tmp/notes.txt",
                  set_fs (insert "/data/alice/tmp/notes.txt" (File hello)) world0))
    by (vm_compute; reflexivity).
  destruct (X15_delete_after_save_keeps_the_catalog_entry cfg0 urlparse_path0 guess0
              (fun _ => true) alice "tmp" {| fo_name := "notes.txt"; fo_content := hello |}
              None None world0 _ _ eq_refl eq_refl HB Hs eq_refl eq_refl eq_refl)
    as (w' & w'' & H1 & H2 & _ & _ & H3 & _ & H4 & _).
  exists w', w''. split; [exact H1|]. split; [exact H2|].
  split; [|split; [exact H3|exact H4]].
  pose proof (f_equal snd H1) as Ew'. pose proof (f_equal snd H2) as Ew''.
  simpl in Ew', Ew''. rewrite <- Ew'', <- Ew'. vm_compute. reflexivity.
Defined.

(** X16.  [move_input_file] moves the file of a record into a directory of
    the acting user, under the record's name, then removes the rows of the
    old path and registers a copy of the record for the new path; an
    exception of [_Datastore.move] is passed on with the file tree as it
    was.  Once the file has been moved nothing is undone: when the database
    is down the call raises with the file at its new path, the table
    unchanged and nothing registered.  With the database and the catalog at
    work it returns the copy; the table has lost the rows of the old path
    and gained the row of the new one, and the record that was passed in is
    left as it was, so that [exists] on it is now false, while [exists] and
    [open_file] on the copy find the file once the path of its replica URL
    is the new path. *)
Theorem X16_move_input_file_leaves_the_old_record_behind
    (cfg : settings) (url : string -> string) (req : request) (dp : loc) (path_ : string)
    (prod : DataProductModel) (src srcfull : string) (c : bytes) (w : world) :
  isabs (getcwd cfg) = true ->
  fst (_get_replica_filepath url dp w) = Return (Some src) ->
  heap w !! dp = Some (CProduct prod) ->
  (forall m, productMetadata prod = Some m -> exists d, heap w !! m = Some (CDict d)) ->
  Datastore.path (datastore cfg) (ownerName prod) src = Return srcfull ->
  fs w !! srcfull = Some (File c) ->
  match Datastore.move (datastore cfg) (ownerName prod) src (user_username req) path_
          (productName prod) w with
  | (Raise e, w1) => move_input_file cfg url req dp path_ w = (Raise e, w1) /\ fs w1 = fs w
  | (Return tgt, w1) =>
      fs w1 = <[tgt := File c]> (base.delete srcfull (fs w)) /\ tgt <> srcfull /\
      match db_fault w with
      | Some e =>
          exists w', move_input_file cfg url req dp path_ w = (Raise e, w') /\
                     fs w' = fs w1 /\ user_files w' = user_files w /\
                     catalog w' = catalog w
      | None =>
          catalog_fault w = None ->
          let cp := length (heap w) in
          let uri := catalog_uri w (length (catalog w)) in
          exists w',
            move_input_file cfg url req dp path_ w = (Return cp, w') /\
            fs w' = fs w1 /\
            user_files w'
            = List.filter (fun row => negb (models.matches (ownerName prod) src row))
                (user_files w)
              ++ [{| username := user_username req; file_path := tgt; file_dpu := uri |}] /\
            heap w' !! dp = Some (CProduct prod) /\
            exists_ cfg url req dp w' = (Return false, w') /\
            (url (replica_url cfg tgt) = tgt ->
             exists_ cfg url req cp w' = (Return true, w') /\
             open_file cfg url req cp w'
             = (Return {| fo_name := tgt; fo_content := c |}, w'))
      end
  end.
Proof.
  intros Habs Hloc Hprod Hmd Hp Hf.
  pose proof (move_file_spec (datastore cfg) (ownerName prod) src (user_username req) path_
                (productName prod) srcfull c w Habs Hp Hf) as Hmv.
  assert (Hhead :
            move_input_file cfg url req dp path_ w
            = (full_path <- Datastore.move (datastore cfg) (ownerName prod) src
                              (user_username req) path_ (productName prod) ;;
               _delete_data_product (ownerName prod) src ;;;
               _save_copy_of_data_product cfg req full_path dp) w).
  { unfold move_input_file.
    rewrite (bind_Return _ _ _ _ _ (get_replica_filepath_eq url dp w _ Hloc)).
    rewrite (bind_Return _ _ _ _ _ (located_product dp prod w Hprod)). simpl str_arg.
    rewrite (bind_Return _ _ w _ w) by reflexivity. reflexivity. }
  rewrite Hhead. clear Hhead.
  destruct (Datastore.move (datastore cfg) (ownerName prod) src (user_username req) path_
              (productName prod) w) as [[tgt|e] w1] eqn:Em.
  2:{ split; [apply bind_Raise; exact Em|apply Hmv]. }
  destruct Hmv as (Hso & Hin & Hfree & _ & Hfs).
  assert (Hne : tgt <> srcfull) by (intros ->; congruence).
  split; [exact Hfs|]. split; [exact Hne|].
  assert (Hrec : heap w1 = heap w /\ catalog w1 = catalog w /\ user_files w1 = user_files w /\
                 catalog_uri w1 = catalog_uri w /\ catalog_fault w1 = catalog_fault w /\
                 db_fault w1 = db_fault w).
  { unfold storage_only in Hso. rewrite Hso. simpl. auto 6. }
  destruct Hrec as (Hh & Hcat & Hu & Hcu & Hcf & Hdf).
  rewrite (bind_Return _ _ _ _ _ Em).
  pose proof (delete_data_product_cases (ownerName prod) src w1) as Hdel.
  rewrite Hdf in Hdel.
  destruct (db_fault w) as [e|] eqn:Hd.
  - exists w1. split; [apply bind_Raise; exact Hdel|auto].
  - intros Hc cp uri. subst cp uri.
    destruct Hdel as (w2 & Hdel & Hfs2 & Hh2 & _ & Hu2).
    pose proof (delete_data_product_frame _ _ _ _ _ Hdel) as Hfr.
    assert (Hrec2 : catalog w2 = catalog w /\ catalog_uri w2 = catalog_uri w /\
                    catalog_fault w2 = None /\ db_fault w2 = None).
    { rewrite Hfr. simpl. rewrite Hcat, Hcu, Hcf, Hdf. auto. }
    destruct Hrec2 as (Hcat2 & Hcu2 & Hcf2 & Hdf2).
    rewrite (bind_Return _ _ _ _ _ Hdel).
    assert (Hprod2 : heap w2 !! dp = Some (CProduct prod)) by (rewrite Hh2, Hh; exact Hprod).
    assert (Hmd2 : forall m, productMetadata prod = Some m ->
                             exists d, heap w2 !! m = Some (CDict d))
      by (intros m Hm; rewrite Hh2, Hh; exact (Hmd m Hm)).
    pose proof (save_copy_of_data_product_spec cfg req tgt dp prod w2 Hprod2 Hcf2 Hdf2 Hmd2)
      as Hcp. cbv zeta in Hcp. rewrite Hh2, Hh, Hcat2, Hcu2 in Hcp.
    eexists. split; [exact Hcp|]. simpl.
    split; [rewrite Hfs2; reflexivity|]. split; [rewrite Hu2, Hu; reflexivity|].
    split; [apply lookup_app_l_Some; exact Hprod|].
    set (w' := {| fs := fs w2 |}).
    assert (Hloc' : fst (_get_replica_filepath url dp w') = Return (Some src))
      by exact (get_replica_filepath_ext url dp _ w w' _ eq_refl Hloc).
    assert (Hprod' : heap w' !! dp = Some (CProduct prod))
      by (apply lookup_app_l_Some; exact Hprod).
    split.
    + rewrite (located_exists cfg url req dp prod src w' Hloc' Hprod' srcfull Hp).
      unfold os.isfile. simpl fs. rewrite Hfs2, Hfs.
      rewrite lookup_insert_ne by exact Hne. rewrite lookup_delete_eq. reflexivity.
    + intros Hurl.
      destruct (copy_located cfg url prod (user_username req) tgt
                  (Some (catalog_uri w (length (catalog w)))) (heap w) w' eq_refl)
        as (Hlc & cprod & Hcprod & Hown & _).
      rewrite Hurl in Hlc.
      assert (Hpt : Datastore.path (datastore cfg) (ownerName cprod) tgt = Return tgt).
      { rewrite Hown.
        exact (move_returns_resolved (datastore cfg) _ _ _ _ _ _ _ _ Habs Em). }
      assert (Hft : fs w' !! tgt = Some (File c)).
      { simpl fs. rewrite Hfs2, Hfs. apply lookup_insert_eq. }
      split.
      * rewrite (located_exists cfg url req _ cprod tgt w' Hlc Hcprod tgt Hpt).
        unfold os.isfile. rewrite Hft. reflexivity.
      * exact (located_open_file cfg url req _ cprod tgt w' Hlc Hcprod tgt c Hpt Hft).
Qed.

Lemma X16_move_input_file_leaves_the_old_record_behind_witness :
  exists w',
    move_input_file cfg0 urlparse_path0 alice 2 "tmp" world2 = (Return 3, w') /\
    fs w' !! "/data/bob/tmp/in.txt" = None /\
    fs w' !! "/data/alice/tmp/in_Xq3kLm9.txt" = Some (File hello) /\
    exists_ cfg0 urlparse_path0 alice 2 w' = (Return false, w') /\
    exists_ cfg0 urlparse_path0 alice 3 w' = (Return true, w').
Proof.
  assert (Hmd : forall m, productMetadata bobs_record = Some m ->
                          exists d, heap world2 !! m = Some (CDict d)) by discriminate.
  pose proof (X16_move_input_file_leaves_the_old_record_behind cfg0 urlparse_path0 alice 2
                "tmp" bobs_record "/data/bob/tmp/in.txt" "/data/bob/tmp/in.txt" hello world2
                eq_refl eq_refl eq_refl Hmd eq_refl eq_refl) as H.
  destruct (Datastore.move (datastore cfg0) (ownerName bobs_record) "/data/bob/tmp/in.txt"
              (user_username alice) "tmp" (productName bobs_record) world2)
    as [[tgt|e] w1] eqn:E; [|vm_compute in E; discriminate].
  assert (tgt = "/data/alice/tmp/in_Xq3kLm9.txt") by (vm_compute in E; congruence).
  subst tgt. destruct H as (Hfs & _ & H).
  change (db_fault world2) with (@None exn) in H. cbv iota in H.
  destruct (H eq_refl) as (w' & H1 & Hfs' & _ & _ & H2 & H3).
  exists w'. split; [exact H1|].
  split; [rewrite Hfs', Hfs; vm_compute; reflexivity|].
  split; [rewrite Hfs', Hfs; apply lookup_insert_eq|].
  split; [exact H2|]. apply H3. reflexivity.
Defined.

(** X17.  [copy_input_file] copies the file of a record into the staging
    directory "tmp" of the acting user, under the record's name, and
    registers a copy of the record for it; an exception of
    [_Datastore.copy] is passed on.  For a record name whose sanitised form
    is a plain component and random strings without separator or backslash:
    when the copy was written, it lies directly in root/tmp, and with the
    catalog and the database at work the call returns a new record of the
    acting user with the name of the old one; the source file and the
    record passed in are as they were, the table has gained the row of the
    copy, and [is_input_file] is true of the copy once the path of its
    replica URL is the new path. *)
Theorem X17_copy_input_file_stages_a_copy
    (cfg : settings) (url : string -> string) (req : request) (dp : loc)
    (prod : DataProductModel) (src srcfull : string) (c : bytes) (w : world) :
  isabs (getcwd cfg) = true ->
  fst (_get_replica_filepath url dp w) = Return (Some src) ->
  heap w !! dp = Some (CProduct prod) ->
  (forall m, productMetadata prod = Some m -> exists d, heap w !! m = Some (CDict d)) ->
  Datastore.path (datastore cfg) (ownerName prod) src = Return srcfull ->
  fs w !! srcfull = Some (File c) ->
  plain (django.get_valid_filename (productName prod)) ->
  no_seps (rand w) -> no_backslashes (rand w) ->
  match Datastore.copy (datastore cfg) (ownerName prod) src (user_username req)
          TMP_INPUT_FILE_UPLOAD_DIR (Some (productName prod)) w with
  | (Raise e, w1) => copy_input_file cfg url req dp w = (Raise e, w1)
  | (Return tgt, w1) =>
      catalog_fault w = None -> db_fault w = None ->
      let cp := length (heap w) in
      exists leaf w',
        plain leaf /\
        tgt = child (child (root (datastore cfg) (user_username req)) "tmp") leaf /\
        copy_input_file cfg url req dp w = (Return cp, w') /\
        fs w' = fs w1 /\ fs w' !! tgt = Some (File c) /\ fs w' !! srcfull = Some (File c) /\
        user_files w'
        = user_files w ++ [{| username := user_username req; file_path := tgt;
                              file_dpu := catalog_uri w (length (catalog w)) |}] /\
        heap w' !! dp = Some (CProduct prod) /\
        (exists cprod, heap w' !! cp = Some (CProduct cprod) /\
           ownerName cprod = user_username req /\ productName cprod = productName prod) /\
        (url (replica_url cfg tgt) = tgt ->
         is_input_file cfg url req cp w' = (Return true, w'))
  end.
Proof.
  intros Habs Hloc Hprod Hmd Hp Hf Hv HS HB.
  assert (Htmp : plain TMP_INPUT_FILE_UPLOAD_DIR) by (repeat split; discriminate).
  assert (Hhead :
            copy_input_file cfg url req dp w
            = (full_path <- Datastore.copy (datastore cfg) (ownerName prod) src
                              (user_username req) TMP_INPUT_FILE_UPLOAD_DIR
                              (Some (productName prod)) ;;
               _save_copy_of_data_product cfg req full_path dp) w).
  { unfold copy_input_file.
    rewrite (bind_Return _ _ _ _ _ (get_replica_filepath_eq url dp w _ Hloc)).
    rewrite (bind_Return _ _ _ _ _ (located_product dp prod w Hprod)). simpl str_arg.
    rewrite (bind_Return _ _ w _ w) by reflexivity. reflexivity. }
  rewrite Hhead. clear Hhead.
  pose proof (copy_of_file (datastore cfg) (ownerName prod) src (user_username req)
                TMP_INPUT_FILE_UPLOAD_DIR (Some (productName prod)) srcfull c w Hp Hf) as Ec.
  destruct (Datastore.copy (datastore cfg) (ownerName prod) src (user_username req)
              TMP_INPUT_FILE_UPLOAD_DIR (Some (productName prod)) w) as [[tgt|e] w1] eqn:Em.
  2:{ apply bind_Raise. exact Em. }
  symmetry in Ec.
  intros Hc Hd cp. subst cp.
  destruct (datastore_save_in_dir (datastore cfg) (user_username req)
              TMP_INPUT_FILE_UPLOAD_DIR _ (Some (productName prod)) w tgt w1
              Habs Htmp eq_refl Hv HS HB Ec) as (leaf & Hl & Htgt).
  destruct (datastore_save_returns (datastore cfg) _ TMP_INPUT_FILE_UPLOAD_DIR _ _ _ _ _ Habs
              eq_refl HB Ec)
    as (Hso & _ & tree & Ha & Hfree & _ & Hfs).
  simpl fo_content in Hfs.
  assert (Hrec : heap w1 = heap w /\ catalog w1 = catalog w /\ user_files w1 = user_files w /\
                 catalog_uri w1 = catalog_uri w /\ catalog_fault w1 = catalog_fault w /\
                 db_fault w1 = db_fault w).
  { unfold storage_only in Hso. rewrite Hso. simpl. auto 6. }
  destruct Hrec as (Hh & Hcat & Hu & Hcu & Hcf & Hdf).
  rewrite (bind_Return _ _ _ _ _ Em).
  assert (Hprod1 : heap w1 !! dp = Some (CProduct prod)) by (rewrite Hh; exact Hprod).
  assert (Hmd1 : forall m, productMetadata prod = Some m ->
                           exists d, heap w1 !! m = Some (CDict d))
    by (intros m Hm; rewrite Hh; exact (Hmd m Hm)).
  pose proof (save_copy_of_data_product_spec cfg req tgt dp prod w1 Hprod1
                ltac:(rewrite Hcf; exact Hc) ltac:(rewrite Hdf; exact Hd) Hmd1) as Hcp.
  cbv zeta in Hcp. rewrite Hh, Hcat, Hcu, Hu in Hcp.
  exists leaf. eexists. split; [exact Hl|]. split; [exact Htgt|].
  split; [exact Hcp|]. simpl.
  split; [reflexivity|]. split; [rewrite Hfs; apply lookup_insert_eq|].
  split.
  { rewrite Hfs. rewrite lookup_insert_ne by (intros ->; pose proof (Ha srcfull) as [E|[E _]]; congruence).
    exact (adds_dirs_keeps _ _ _ _ Ha Hf). }
  split; [reflexivity|]. split; [apply lookup_app_l_Some; exact Hprod|].
  set (w' := {| fs := fs w1 |}).
  destruct (copy_located cfg url prod (user_username req) tgt
              (Some (catalog_uri w (length (catalog w)))) (heap w) w' eq_refl)
    as (Hlc & cprod & Hcprod & Hown & Hname & _).
  split; [exists cprod; auto|].
  intros Hurl. rewrite Hurl, Htgt in Hlc.
  rewrite (located_is_input_file cfg url req _ leaf w' Habs Hl Hlc).
  unfold os.isfile. simpl fs. rewrite Hfs, <- Htgt, lookup_insert_eq. reflexivity.
Qed.

Lemma X17_copy_input_file_stages_a_copy_witness :
  exists w',
    copy_input_file cfg0 urlparse_path0 alice 2 world2 = (Return 3, w') /\
    fs w' !! "/data/bob/tmp/in.txt" = Some (File hello) /\
    fs w' !! "/data/alice/tmp/in_Xq3kLm9.txt" = Some (File hello) /\
    is_input_file cfg0 urlparse_path0 alice 3 w' = (Return true, w') /\
    fst (is_input_file cfg0 urlparse_path0 alice 2 w') = Return false.
Proof.
  assert (Hmd : forall m, productMetadata bobs_record = Some m ->
                          exists d, heap world2 !! m = Some (CDict d)) by discriminate.
  assert (HB : no_backslashes (rand world2)) by (repeat constructor).
  assert (HS : no_seps (rand world2)) by (repeat constructor).
  assert (Hv : plain (django.get_valid_filename (productName bobs_record)))
    by (repeat split; discriminate).
  pose proof (X17_copy_input_file_stages_a_copy cfg0 urlparse_path0 alice 2 bobs_record
                "/data/bob/tmp/in.txt" "/data/bob/tmp/in.txt" hello world2
                eq_refl eq_refl eq_refl Hmd eq_refl eq_refl Hv HS HB) as H.
  destruct (Datastore.copy (datastore cfg0) (ownerName bobs_record) "/data/bob/tmp/in.txt"
              (user_username alice) TMP_INPUT_FILE_UPLOAD_DIR (Some (productName bobs_record))
              world2) as [[tgt|e] w1] eqn:E; [|vm_compute in E; discriminate].
  assert (tgt = "/data/alice/tmp/in_Xq3kLm9.txt") by (vm_compute in E; congruence).
  subst tgt.
  destruct (H eq_refl eq_refl) as (leaf & w' & _ & _ & H1 & _ & H2 & H3 & _ & _ & _ & H4).
  exists w'. split; [exact H1|]. split; [exact H3|]. split; [exact H2|].
  split; [apply H4; reflexivity|].
  pose proof (f_equal snd H1) as Ew'. simpl in Ew'. rewrite <- Ew'. vm_compute. reflexivity.
Defined.
